(** * alidock: a shallow embedding of [alidock/__init__.py]

    The module drives a container runtime, a package index and the host
    file system.  Each Python function is embedded as a computation in a
    state-and-exception monad over an explicit [World]; exceptions keep
    their Python class so that every [except] clause selects exactly the
    classes the source names. *)

From Stdlib Require Import ZArith Lia Ascii String.
From stdpp Require Import base strings gmap list pretty.

Local Open Scope Z_scope.
Local Open Scope string_scope.
Local Open Scope list_scope.

(** ** Python values and exceptions *)

(** Values stored in [self.conf], in the YAML file and in [args.__dict__]. *)
Inductive PyVal :=
| PNone
| PBool (b : bool)
| PInt (z : Z)
| PStr (s : string)
| PList (l : list string).

#[global] Instance PyVal_eq_dec : EqDecision PyVal.
Proof. solve_decision. Defined.

(** Exception classes raised or handled by the module.  [NotFound] is
    [docker.errors.NotFound], a subclass of [docker.errors.APIError];
    [APIError] stands for every other instance of that class.  [OSError]
    also covers [IOError]. *)
Inductive exn :=
| AliDockError (msg : string)
| NotFound (msg : string)
| APIError (msg : string)
| RequestException (msg : string)
| KeyError (key : string)
| IndexError (msg : string)
| TypeError (msg : string)
| ValueError (msg : string)
| AttributeError (msg : string)
| YAMLError (msg : string)
| OSError (errno : Z) (msg : string)
| CalledProcessError (returncode : Z)
| AssertionError (msg : string)
| SystemExit (code : Z).

Definition is_AliDockError (e : exn) : bool :=
  match e with AliDockError _ => true | _ => false end.
Definition is_NotFound (e : exn) : bool :=
  match e with NotFound _ => true | _ => false end.
Definition is_APIError (e : exn) : bool :=
  match e with NotFound _ | APIError _ => true | _ => false end.
Definition is_RequestException (e : exn) : bool :=
  match e with RequestException _ => true | _ => false end.
Definition is_KeyError (e : exn) : bool :=
  match e with KeyError _ => true | _ => false end.
Definition is_IndexError (e : exn) : bool :=
  match e with IndexError _ => true | _ => false end.
Definition is_ValueError (e : exn) : bool :=
  match e with ValueError _ => true | _ => false end.
Definition is_AttributeError (e : exn) : bool :=
  match e with AttributeError _ => true | _ => false end.
Definition is_YAMLError (e : exn) : bool :=
  match e with YAMLError _ => true | _ => false end.
Definition is_OSError (e : exn) : bool :=
  match e with OSError _ _ => true | _ => false end.
Definition is_CalledProcessError (e : exn) : bool :=
  match e with CalledProcessError _ => true | _ => false end.

(** [str(exc)]. *)
Definition exn_str (e : exn) : string :=
  match e with
  | AliDockError m | NotFound m | APIError m | RequestException m
  | IndexError m | TypeError m | ValueError m | AttributeError m
  | YAMLError m | AssertionError m => m
  | KeyError k => k
  | OSError n m => "[Errno " +:+ pretty n +:+ "] " +:+ m
  | CalledProcessError c => "Command returned non-zero exit status " +:+ pretty c
  | SystemExit c => pretty c
  end.

Definition EEXIST : Z := 17.
Definition ENOENT : Z := 2.
Definition EISDIR : Z := 21.

(** ** The host file system *)

(** A regular file is [File] with its text, or [Undecodable] when its
    bytes are not text in the encoding [open] reads with. *)
Inductive node :=
| File (content : string)
| Undecodable
| Dir.

Definition is_slash (a : ascii) : bool := bool_decide (a = "/"%char).

(** [posixpath.join(a, b)]. *)
Definition path_join (a b : string) : string :=
  match b with
  | String "/" _ => b
  | _ =>
      match last (String.list_ascii_of_string a) with
      | None => b
      | Some c => if is_slash c then a +:+ b else a +:+ "/" +:+ b
      end
  end.

Fixpoint rstrip_slash_rev (l : list ascii) : list ascii :=
  match l with
  | c :: l' => if is_slash c then rstrip_slash_rev l' else l
  | [] => []
  end.

Fixpoint drop_to_slash (l : list ascii) : list ascii :=
  match l with
  | c :: l' => if is_slash c then l else drop_to_slash l'
  | [] => []
  end.

(** [posixpath.dirname(p)]: everything up to the last slash, without the
    trailing slashes unless only slashes are left. *)
Definition dirname (p : string) : string :=
  let rev_head := drop_to_slash (rev (String.list_ascii_of_string p)) in
  match rstrip_slash_rev rev_head with
  | [] => String.string_of_list_ascii (rev rev_head)
  | l => String.string_of_list_ascii (rev l)
  end.

Definition fs_isdir (fs : gmap string node) (p : string) : bool :=
  bool_decide (p = "/") ||
  match fs !! p with Some Dir => true | _ => false end.

(** The directory a new entry is created in: the working directory for a
    bare name, which always exists. *)
Definition parent_ok (fs : gmap string node) (p : string) : bool :=
  bool_decide (dirname p = "") || fs_isdir fs (dirname p).

(** ** The container runtime, as the module observes it *)

Record PortBinding := { HostIp : string; HostPort : string }.

(** [attrs["NetworkSettings"]["Ports"]] of a container: the runtime maps
    each exposed port to a list of host bindings, or to null when the port
    is exposed and not published, and reports null for the whole map on a
    container without network. *)
Record Container := {
  c_image : string;
  c_ports : option (gmap string (option (list PortBinding)))
}.

(** What the package index answers to the version request. *)
Inductive PypiReply :=
| PypiFail (e : exn)
| PypiVersion (v : string).

(** Everything the process reads and never changes. *)
Record Host := {
  h_uid : Z;
  h_userName : string;
  h_TMUX : option string;
  h_programs : gset string;
  h_version : string;
  h_pypi : PypiReply;
  h_daemon_fault : option exn;
  h_registry : gmap string string;
  h_ssh_exit : nat -> Z;
  h_free_port : Z
}.

(** Calls that leave the process, in the order they are made.
    [EvUpdateFunc] and [EvCalled] are marks: the first is left by
    [hasUpdates] where it calls its check function, the second by a check
    function that records its own calls. *)
Inductive Event :=
| EvLog (level msg : string)
| EvUpdateFunc
| EvCalled
| EvHttpGet (url : string)
| EvSshProbe (argv : list string)
| EvSleep (ms : Z)
| EvContainersRun (image name : string) (command : list string)
    (mountTarget mountSource : string)
| EvContainerRemove (name : string)
| EvImagePull (image : string)
| EvRegistryData (image : string)
| EvChmod (path : string) (mode : Z)
| EvSetQuiet (quiet : bool).

Record World := {
  w_host : Host;
  w_fs : gmap string node;
  w_clock_ms : Z;
  w_containers : gmap string Container;
  w_images : gmap string (list string);
  w_ssh_calls : nat;
  w_trace : list Event
}.

Definition set_fs (f : gmap string node -> gmap string node) (w : World) : World :=
  {| w_host := w_host w; w_fs := f (w_fs w); w_clock_ms := w_clock_ms w;
     w_containers := w_containers w; w_images := w_images w;
     w_ssh_calls := w_ssh_calls w; w_trace := w_trace w |}.
Definition set_clock_ms (f : Z -> Z) (w : World) : World :=
  {| w_host := w_host w; w_fs := w_fs w; w_clock_ms := f (w_clock_ms w);
     w_containers := w_containers w; w_images := w_images w;
     w_ssh_calls := w_ssh_calls w; w_trace := w_trace w |}.
Definition set_containers (f : gmap string Container -> gmap string Container)
    (w : World) : World :=
  {| w_host := w_host w; w_fs := w_fs w; w_clock_ms := w_clock_ms w;
     w_containers := f (w_containers w); w_images := w_images w;
     w_ssh_calls := w_ssh_calls w; w_trace := w_trace w |}.
Definition set_images (f : gmap string (list string) -> gmap string (list string))
    (w : World) : World :=
  {| w_host := w_host w; w_fs := w_fs w; w_clock_ms := w_clock_ms w;
     w_containers := w_containers w; w_images := f (w_images w);
     w_ssh_calls := w_ssh_calls w; w_trace := w_trace w |}.
Definition set_ssh_calls (f : nat -> nat) (w : World) : World :=
  {| w_host := w_host w; w_fs := w_fs w; w_clock_ms := w_clock_ms w;
     w_containers := w_containers w; w_images := w_images w;
     w_ssh_calls := f (w_ssh_calls w); w_trace := w_trace w |}.
Definition set_trace (f : list Event -> list Event) (w : World) : World :=
  {| w_host := w_host w; w_fs := w_fs w; w_clock_ms := w_clock_ms w;
     w_containers := w_containers w; w_images := w_images w;
     w_ssh_calls := w_ssh_calls w; w_trace := f (w_trace w) |}.

(** ** The monad of the embedding *)

(** A call returns, raises, or replaces the process image ([os.execvp]);
    nothing runs after the last two unless an [except] clause selects the
    exception. *)
Inductive Outcome (A : Type) :=
| Ret (a : A)
| Raise (e : exn)
| Exec (file : string) (argv : list string).
Arguments Ret {A} a.
Arguments Raise {A} e.
Arguments Exec {A} file argv.

Definition M (A : Type) : Type := World -> Outcome A * World.

Definition ret {A} (a : A) : M A := fun w => (Ret a, w).
Definition raise {A} (e : exn) : M A := fun w => (Raise e, w).
Definition bind {A B} (m : M A) (k : A -> M B) : M B := fun w =>
  match m w with
  | (Ret a, w') => k a w'
  | (Raise e, w') => (Raise e, w')
  | (Exec f argv, w') => (Exec f argv, w')
  end.

#[global] Instance M_ret : MRet M := @ret.
#[global] Instance M_bind : MBind M := fun A B k m => bind m k.

(** [try: m except <classes selected by h>: ...]; [h e = None] when no
    clause names the class of [e], which then propagates. *)
Definition try_except {A} (m : M A) (h : exn -> option (M A)) : M A := fun w =>
  match m w with
  | (Raise e, w') =>
      match h e with
      | Some k => k w'
      | None => (Raise e, w')
      end
  | r => r
  end.

Definition emit (ev : Event) : M unit := fun w =>
  (Ret tt, set_trace (fun t => t ++ [ev]) w).

Definition host {A} (f : Host -> A) : M A := fun w => (Ret (f (w_host w)), w).

(** [LOG.info], [LOG.warning], [LOG.error]. *)
Definition LOG_info (msg : string) : M unit := emit (EvLog "info" msg).
Definition LOG_warning (msg : string) : M unit := emit (EvLog "warning" msg).
Definition LOG_error (msg : string) : M unit := emit (EvLog "error" msg).

(** [exit(code)]. *)
Definition exit {A} (code : Z) : M A := raise (SystemExit code).

(** [UnicodeDecodeError], a subclass of [ValueError]. *)
Definition UnicodeDecodeError : exn :=
  ValueError "'utf-8' codec can't decode byte".

(** [open(p).read()], in text mode. *)
Definition open_read (p : string) : M string := fun w =>
  match w_fs w !! p with
  | Some (File c) => (Ret c, w)
  | Some Undecodable => (Raise UnicodeDecodeError, w)
  | Some Dir => (Raise (OSError EISDIR p), w)
  | None => (Raise (OSError ENOENT p), w)
  end.

(** [with open(p, "w") as fil: fil.write(s)]. *)
Definition open_write (p s : string) : M unit := fun w =>
  if fs_isdir (w_fs w) p then (Raise (OSError EISDIR p), w)
  else if parent_ok (w_fs w) p then (Ret tt, set_fs (insert p (File s)) w)
  else (Raise (OSError ENOENT p), w).

(** [os.mkdir(p)]. *)
Definition os_mkdir (p : string) : M unit := fun w =>
  if fs_isdir (w_fs w) p || bool_decide (is_Some (w_fs w !! p))
  then (Raise (OSError EEXIST p), w)
  else if bool_decide (p = "") || negb (parent_ok (w_fs w) p)
  then (Raise (OSError ENOENT p), w)
  else (Ret tt, set_fs (insert p Dir) w).

(** [os.path.isdir(p)]. *)
Definition os_path_isdir (p : string) : M bool := fun w =>
  (Ret (fs_isdir (w_fs w) p), w).

(** [int(time())]; the clock counts milliseconds. *)
Definition time_int : M Z := fun w => (Ret (w_clock_ms w `quot` 1000), w).

(** [sleep(0.5)] is [sleep_ms 500]. *)
Definition sleep_ms (ms : Z) : M unit := fun w =>
  (Ret tt, set_trace (fun t => t ++ [EvSleep ms]) (set_clock_ms (Z.add ms) w)).

(** [os.chmod(p, mode)] on a file; permission bits are not part of [node]. *)
Definition os_chmod (p : string) (mode : Z) : M unit := fun w =>
  match w_fs w !! p with
  | Some _ => (Ret tt, set_trace (fun t => t ++ [EvChmod p mode]) w)
  | None => (Raise (OSError ENOENT p), w)
  end.

(** [os.execvp(file, argv)]: replaces the process when [file] is found on
    the search path. *)
Definition os_execvp {A} (file : string) (argv : list string) : M A := fun w =>
  if bool_decide (file ∈ h_programs (w_host w)) then (Exec file argv, w)
  else (Raise (OSError ENOENT file), w).

(** [subprocess.check_call(argv, stdout=nul, stderr=nul)]: the exit
    status of the n-th child is [h_ssh_exit n]. *)
Definition check_call (argv : list string) : M unit := fun w =>
  match argv with
  | [] => (Raise (IndexError "list index out of range"), w)
  | prog :: _ =>
      if bool_decide (prog ∈ h_programs (w_host w)) then
        let code := h_ssh_exit (w_host w) (w_ssh_calls w) in
        let w' := set_trace (fun t => t ++ [EvSshProbe argv]) (set_ssh_calls S w) in
        if (code =? 0)%Z then (Ret tt, w') else (Raise (CalledProcessError code), w')
      else (Raise (OSError ENOENT prog), w)
  end.

(** *** Calls to the runtime daemon *)

(** Every call fails with the daemon's fault while it has one. *)
Definition daemon {A} (m : M A) : M A := fun w =>
  match h_daemon_fault (w_host w) with
  | Some e => (Raise e, w)
  | None => m w
  end.

(** [self.cli.containers.get(name)]. *)
Definition containers_get (name : string) : M Container :=
  daemon (fun w =>
    match w_containers w !! name with
    | Some c => (Ret c, w)
    | None => (Raise (NotFound ("No such container: " +:+ name)), w)
    end).

(** [container.remove(force=True)]. *)
Definition container_remove (name : string) : M unit :=
  daemon (fun w =>
    match w_containers w !! name with
    | Some _ =>
        (Ret tt, set_trace (fun t => t ++ [EvContainerRemove name])
                   (set_containers (delete name) w))
    | None => (Raise (NotFound ("No such container: " +:+ name)), w)
    end).

(** [self.cli.images.get(image).attrs["RepoDigests"]]. *)
Definition images_get (image : string) : M (list string) :=
  daemon (fun w =>
    match w_images w !! image with
    | Some digests => (Ret digests, w)
    | None => (Raise (NotFound ("No such image: " +:+ image)), w)
    end).

(** [self.cli.images.get_registry_data(image).attrs["Descriptor"]["digest"]]. *)
Definition images_get_registry_data (image : string) : M string :=
  daemon (fun w =>
    let w' := set_trace (fun t => t ++ [EvRegistryData image]) w in
    match h_registry (w_host w) !! image with
    | Some digest => (Ret digest, w')
    | None => (Raise (NotFound ("manifest unknown: " +:+ image)), w')
    end).

(** [self.cli.images.pull(image)]: the local image takes the published
    digest. *)
Definition images_pull (image : string) : M unit :=
  daemon (fun w =>
    let w' := set_trace (fun t => t ++ [EvImagePull image]) w in
    match h_registry (w_host w) !! image with
    | Some digest =>
        (Ret tt, set_images (insert image [image +:+ "@" +:+ digest]) w')
    | None => (Raise (NotFound ("pull access denied for " +:+ image)), w')
    end).

(** [self.cli.containers.run(image, command=command, detach=True,
    auto_remove=True, cap_add=["SYS_PTRACE"], name=name, mounts=[Mount(target,
    source, type="bind")], ports={"22/tcp": None})]: a missing image is
    pulled first; the new container publishes port 22 on a host port chosen
    by the runtime. *)
Definition containers_run (image name : string) (command : list string)
    (target source : string) : M unit :=
  daemon (fun w =>
    let w1 := set_trace
                (fun t => t ++ [EvContainersRun image name command target source]) w in
    let fresh :=
      {| c_image := image;
         c_ports := Some {[ "22/tcp" :=
           Some [ {| HostIp := "0.0.0.0";
                     HostPort := pretty (h_free_port (w_host w)) |} ] ]} |} in
    if bool_decide (is_Some (w_containers w !! name)) then
      (Raise (APIError ("Conflict. The container name is already in use: " +:+ name)), w1)
    else
      match w_images w !! image, h_registry (w_host w) !! image with
      | Some _, _ => (Ret tt, set_containers (insert name fresh) w1)
      | None, Some digest =>
          (Ret tt, set_containers (insert name fresh)
                     (set_images (insert image [image +:+ "@" +:+ digest]) w1))
      | None, None => (Raise (NotFound ("No such image: " +:+ image)), w1)
      end).

(** ** Library functions taken as given *)

(** What [yaml.safe_load] makes of a text: a syntax error, a mapping, or
    any other document (on which [.get] raises [AttributeError]). *)
Inductive YamlDoc :=
| YamlInvalid (msg : string)
| YamlMapping (m : gmap string PyVal)
| YamlOther.

Class Platform := {
  (** [os.path.expanduser] *)
  expanduser : string -> string;
  (** [int(s)] on a string; [None] is [ValueError] *)
  int_of_str : string -> option Z;
  (** [yaml.safe_load] *)
  yaml_safe_load : string -> YamlDoc;
  (** [parse_version(a) > parse_version(b)] *)
  version_gt : string -> string -> bool;
  (** rendering of the template [init.sh.j2] from
      [logRelative], [sharedDir], [dockName], [userName], [userId] *)
  render_init_sh : string -> string -> string -> string -> Z -> string
}.

(** ** Python built-ins on values *)

Definition py_repr_str (s : string) : string := "'" +:+ s +:+ "'".

Fixpoint join_strings (sep : string) (l : list string) : string :=
  match l with
  | [] => ""
  | [x] => x
  | x :: l' => x +:+ sep +:+ join_strings sep l'
  end.

(** [str(v)], which [str.format] applies to its arguments. *)
Definition py_str (v : PyVal) : string :=
  match v with
  | PNone => "None"
  | PBool true => "True"
  | PBool false => "False"
  | PInt z => pretty z
  | PStr s => s
  | PList l => "[" +:+ join_strings ", " (py_repr_str <$> l) +:+ "]"
  end.

(** [bool(v)]. *)
Definition truthy (v : PyVal) : bool :=
  match v with
  | PNone => false
  | PBool b => b
  | PInt z => negb (z =? 0)%Z
  | PStr s => negb (String.eqb s "")
  | PList l => match l with [] => false | _ => true end
  end.

(** A value where the callee needs a string. *)
Definition as_str (v : PyVal) : M string :=
  match v with
  | PStr s => ret s
  | _ => raise (TypeError ("expected str, not " +:+ py_str v))
  end.

(** [l[i]]. *)
Definition list_index {A} (l : list A) (i : nat) : M A :=
  match l !! i with
  | Some x => ret x
  | None => raise (IndexError "list index out of range")
  end.

Fixpoint split_rev (c : ascii) (l cur : list ascii) : list string :=
  match l with
  | [] => [String.string_of_list_ascii (rev cur)]
  | x :: l' =>
      if bool_decide (x = c)
      then String.string_of_list_ascii (rev cur) :: split_rev c l' []
      else split_rev c l' (x :: cur)
  end.

(** [s.split(c)]. *)
Definition py_split (c : ascii) (s : string) : list string :=
  split_rev c (String.list_ascii_of_string s) [].

Fixpoint drop_through (c : ascii) (l : list ascii) : option (list ascii) :=
  match l with
  | [] => None
  | x :: l' => if bool_decide (x = c) then Some l' else drop_through c l'
  end.

(** [s.rsplit(c, 1)[0]]. *)
Definition py_rsplit1_head (c : ascii) (s : string) : string :=
  match drop_through c (rev (String.list_ascii_of_string s)) with
  | Some r => String.string_of_list_ascii (rev r)
  | None => s
  end.

(** [l.remove(x)] when [x] occurs in [l]. *)
Fixpoint list_remove_first (x : string) (l : list string) : list string :=
  match l with
  | [] => []
  | y :: l' => if String.eqb x y then l' else y :: list_remove_first x l'
  end.

(** ** class AliDock *)

Record AliDock := {
  dirInside : string;
  logRelative : string;
  conf : gmap string PyVal
}.

Definition default_conf : gmap string PyVal :=
  {[ "dockName" := PStr "alidock";
     "imageName" := PStr "alisw/alidock:latest";
     "dirOutside" := PStr "~/alidock";
     "updatePeriod" := PInt 43200;
     "dontUpdateImage" := PBool false ]}.

(** [d[k]] on a dictionary. *)
Definition dict_get (d : gmap string PyVal) (k : string) : M PyVal :=
  match d !! k with
  | Some v => ret v
  | None => raise (KeyError (py_repr_str k))
  end.

(** [self.conf[k]] where a string is needed. *)
Definition conf_str (self : AliDock) (k : string) : M string :=
  v ← dict_get (conf self) k; as_str v.

(** [override.get(k) is None]. *)
Definition get_is_None (override : gmap string PyVal) (k : string) : bool :=
  match override !! k with
  | None | Some PNone => true
  | Some _ => false
  end.

(** The loop [for k in self.conf: if not override.get(k) is None:
    self.conf[k] = override[k]], after the guard [if not override: return]. *)
Definition overrideConfig (conf : gmap string PyVal)
    (override : option (gmap string PyVal)) : gmap string PyVal :=
  match override with
  | None => conf
  | Some o =>
      if bool_decide (o = ∅) then conf
      else map_imap (fun k v =>
             if get_is_None o k then Some v else Some (default v (o !! k))) conf
  end.

(** [attrs["NetworkSettings"]["Ports"]["22/tcp"][0]["HostPort"]]. *)
Definition ssh_host_port (c : Container) : M string :=
  match c_ports c with
  | None => raise (TypeError "'NoneType' object is not subscriptable")
  | Some ports =>
      match ports !! "22/tcp" with
      | None => raise (KeyError (py_repr_str "22/tcp"))
      | Some None => raise (TypeError "'NoneType' object is not subscriptable")
      | Some (Some []) => raise (IndexError "list index out of range")
      | Some (Some (b :: _)) => ret (HostPort b)
      end
  end.

(** The argument vector [getSshCommand] returns for a port and a shared
    directory. *)
Definition ssh_argv (sshPort dirOutside : string) : list string :=
  ["ssh"; "localhost"; "-p"; sshPort; "-Y"; "-F/dev/null";
   "-oForwardX11Trusted=no"; "-oUserKnownHostsFile=/dev/null"; "-oLogLevel=QUIET";
   "-oStrictHostKeyChecking=no"; "-oForwardX11Timeout=596h";
   "-i"; path_join (path_join dirOutside ".ssh") "id_rsa"].

Definition cannot_find_container (outLog msg : string) : string :=
  "cannot find container, maybe it did not start up properly: " +:+
  "check log file " +:+ outLog +:+ " for details. Error: " +:+ msg.

Section AliDock.
Context `{Platform}.

Definition parseConfig (conf : gmap string PyVal) : M (gmap string PyVal) :=
  let confFile := expanduser "~/.alidock-config.yaml" in
  try_except
    (txt ← open_read confFile;
     match yaml_safe_load txt with
     | YamlInvalid msg => raise (YAMLError msg)
     | YamlOther => raise (AttributeError "object has no attribute 'get'")
     | YamlMapping confOverride =>
         ret (map_imap (fun k v => Some (default v (confOverride !! k))) conf)
     end)
    (fun exc =>
       if is_OSError exc || is_YAMLError exc || is_AttributeError exc
       then Some (ret conf) else None).

(** [AliDock.__init__(overrideConf)]. *)
Definition AliDock_init (overrideConf : option (gmap string PyVal)) : M AliDock :=
  conf1 ← parseConfig default_conf;
  let conf2 := overrideConfig conf1 overrideConf in
  dockName ← dict_get conf2 "dockName";
  userId ← host h_uid;
  ret {| dirInside := "/home/alidock";
         logRelative := ".alidock.log";
         conf := <["dockName" := PStr (py_str dockName +:+ "-" +:+ pretty userId)]> conf2 |}.

Definition isRunning (self : AliDock) : M bool :=
  try_except
    (name ← conf_str self "dockName";
     containers_get name;;
     ret true)
    (fun exc => if is_NotFound exc then Some (ret false) else None).

Definition getSshCommand (self : AliDock) : M (list string) :=
  sshPort ←
    try_except
      (name ← conf_str self "dockName";
       c ← containers_get name;
       ssh_host_port c)
      (fun exc =>
         if is_NotFound exc || is_KeyError exc then Some (
           dirOutside ← conf_str self "dirOutside";
           let outLog := path_join dirOutside (logRelative self) in
           raise (AliDockError (cannot_find_container outLog (exn_str exc))))
         else None);
  dirOutside ← conf_str self "dirOutside";
  ret (ssh_argv sshPort dirOutside).

(** The body of [for _ in range(0, 40)], [n] iterations left. *)
Fixpoint waitSshUp_loop (self : AliDock) (n : nat) : M bool :=
  match n with
  | O => ret false
  | S n' =>
      up ← try_except
             (argv ← getSshCommand self;
              check_call (argv ++ ["-T"; "/bin/true"]);;
              ret true)
             (fun exc =>
                if is_CalledProcessError exc
                then Some (sleep_ms 500;; ret false) else None);
      if (up : bool) then ret true else waitSshUp_loop self n'
  end.

Definition waitSshUp (self : AliDock) : M bool := waitSshUp_loop self 40.

Definition shell {A} (self : AliDock) (cmd : option (list string)) : M A :=
  argv ← getSshCommand self;
  os_execvp "ssh" (argv ++ match cmd with
                           | Some (x :: l) => x :: l
                           | _ => []
                           end).

Definition rootShell {A} (self : AliDock) : M A :=
  name ← conf_str self "dockName";
  os_execvp "docker" ["docker"; "exec"; "-it"; name; "/bin/bash"].

Definition run (self : AliDock) : M bool :=
  dirOutside ← conf_str self "dirOutside";
  let outDir := expanduser dirOutside in
  try_except (os_mkdir outDir)
    (fun exc =>
       match exc with
       | OSError errno _ => Some (
           isdir ← os_path_isdir outDir;
           if negb isdir || negb (errno =? EEXIST)%Z then
             raise (AliDockError ("cannot create directory " +:+ dirOutside +:+
                                  " to share with container, check permissions"))
           else ret tt)
       | _ => None
       end);;
  userId ← host h_uid;
  userName ← host h_userName;
  let initShPath := path_join outDir ".alidock-init.sh" in
  open_write initShPath "";;
  dockName ← conf_str self "dockName";
  open_write initShPath
    (render_init_sh (logRelative self) (dirInside self)
       (py_rsplit1_head "-" dockName) userName userId);;
  os_chmod initShPath 493;;
  imageName ← conf_str self "imageName";
  dockName ← conf_str self "dockName";
  containers_run imageName dockName
    [path_join (dirInside self) ".alidock-init.sh"] (dirInside self) outDir;;
  ret true.

Definition stop (self : AliDock) : M unit :=
  try_except
    (name ← conf_str self "dockName";
     containers_get name;;
     container_remove name)
    (fun exc => if is_NotFound exc then Some (ret tt) else None).

Definition pull (self : AliDock) : M unit :=
  try_except
    (imageName ← conf_str self "imageName";
     images_pull imageName)
    (fun exc =>
       if is_APIError exc then Some (raise (AliDockError (exn_str exc))) else None).

(** [int(v)]. *)
Definition py_int (v : PyVal) : M Z :=
  match v with
  | PInt z => ret z
  | PBool b => ret (if b then 1 else 0)
  | PStr s =>
      match int_of_str s with
      | Some z => ret z
      | None => raise (ValueError ("invalid literal for int() with base 10: " +:+
                                   py_repr_str s))
      end
  | PNone | PList _ =>
      raise (TypeError "int() argument must be a string or a number")
  end.

(** [int(fil.read())] on the text of a file. *)
Definition int_of_text (txt : string) : M Z := py_int (PStr txt).

(** The call [updateFunc()] leaves the mark [EvUpdateFunc] in the trace
    before the function runs. *)
Definition hasUpdates (self : AliDock) (stateFileRelative : string)
    (updatePeriod : PyVal) (nagOnUpdate : bool) (updateFunc : M bool) : M bool :=
  dirOutside ← conf_str self "dirOutside";
  let tsFn := path_join (expanduser dirOutside) stateFileRelative in
  lastUpdate ←
    try_except (txt ← open_read tsFn; int_of_text txt)
      (fun exc => if is_OSError exc || is_ValueError exc then Some (ret 0) else None);
  now ← time_int;
  period ← py_int updatePeriod;
  if (now - lastUpdate >? period)%Z then
    '(updateAvail, caught) ←
      try_except (b ← (emit EvUpdateFunc;; updateFunc); ret (b, None))
        (fun exc => if is_AliDockError exc then Some (ret (false, Some exc)) else None);
    (if negb nagOnUpdate then open_write tsFn (pretty now) else ret tt);;
    match caught with
    | Some exc => raise exc
    | None => ret updateAvail
    end
  else ret false.

(** [requests.get(...)], [raise_for_status()] and
    [.json()["info"]["version"]] on the package index. *)
Definition pypi_latest_version : M string := fun w =>
  let w' := set_trace
              (fun t => t ++ [EvHttpGet "https://pypi.org/pypi/alidock/json"]) w in
  match h_pypi (w_host w) with
  | PypiFail e => (Raise e, w')
  | PypiVersion v => (Ret v, w')
  end.

(** The local [updateFunc] of [hasClientUpdates]. *)
Definition clientUpdateFunc : M bool :=
  try_except
    (availVersion ← pypi_latest_version;
     localVersion ← host h_version;
     if version_gt availVersion localVersion then ret true else ret false)
    (fun exc =>
       if is_RequestException exc || is_ValueError exc
       then Some (raise (AliDockError (exn_str exc))) else None).

Definition hasClientUpdates (self : AliDock) : M bool :=
  version ← host h_version;
  if String.eqb version "LAST-TAG" then ret false
  else
    updatePeriod ← dict_get (conf self) "updatePeriod";
    hasUpdates self ".alidock_pip_check" updatePeriod true clientUpdateFunc.

(** The local [updateFunc] of [hasImageUpdates]. *)
Definition imageUpdateFunc (self : AliDock) : M bool :=
  try_except
    (localHash ←
       try_except
         (imageName ← conf_str self "imageName";
          digests ← images_get imageName;
          first ← list_index digests 0;
          h ← list_index (py_split "@" first) 1;
          ret (Some h))
         (fun exc => if is_NotFound exc then Some (ret None) else None);
     match localHash with
     | None => ret false
     | Some localHash =>
         imageName ← conf_str self "imageName";
         availHash ← images_get_registry_data imageName;
         ret (negb (String.eqb availHash localHash))
     end)
    (fun exc =>
       if is_IndexError exc || is_APIError exc
       then Some (raise (AliDockError (exn_str exc))) else None).

Definition hasImageUpdates (self : AliDock) : M bool :=
  dontUpdateImage ← dict_get (conf self) "dontUpdateImage";
  if truthy dontUpdateImage then ret false
  else
    updatePeriod ← dict_get (conf self) "updatePeriod";
    hasUpdates self ".alidock_docker_check" updatePeriod false (imageUpdateFunc self).

End AliDock.

(** ** The command line *)

(** [args], the namespace [argp.parse_args()] returns. *)
Record Namespace := {
  quiet : bool;
  tmux : bool;
  tmuxControl : bool;
  dockName : option string;
  imageName : option string;
  dirOutside : option string;
  updatePeriod : option string;
  dontUpdateImage : bool;
  action : string;
  shellCmd : list string
}.

(** What the user typed: each switch given or not, each option with its
    argument or absent, the action when there is one, and the rest. *)
Record CommandLine := {
  cl_quiet : bool;
  cl_tmux : bool;
  cl_tmux_control : bool;
  cl_name : option string;
  cl_image : option string;
  cl_shared : option string;
  cl_update_period : option string;
  cl_no_update_image : bool;
  cl_action : option string;
  cl_rest : list string
}.

Definition action_choices : list string :=
  ["enter"; "root"; "exec"; "start"; "status"; "stop"].

(** [argp.parse_args()] for the parser [entrypoint] builds: every [dest]
    takes the value given on the command line or the [default] of its
    [add_argument]; a usage error leaves with status 2. *)
Definition parse_args (cl : CommandLine) : M Namespace :=
  if cl_tmux cl && cl_tmux_control cl then exit 2
  else
    let act := default "enter" (cl_action cl) in
    if bool_decide (act ∈ action_choices) then
      ret {| quiet := cl_quiet cl;
             tmux := cl_tmux cl;
             tmuxControl := cl_tmux_control cl;
             dockName := cl_name cl;
             imageName := cl_image cl;
             dirOutside := cl_shared cl;
             updatePeriod := cl_update_period cl;
             dontUpdateImage := cl_no_update_image cl;
             action := act;
             shellCmd := cl_rest cl |}
    else exit 2.

Definition py_opt (o : option string) : PyVal :=
  match o with
  | Some s => PStr s
  | None => PNone
  end.

(** [args.__dict__]. *)
Definition args_dict (args : Namespace) : gmap string PyVal :=
  {[ "quiet" := PBool (quiet args);
     "tmux" := PBool (tmux args);
     "tmuxControl" := PBool (tmuxControl args);
     "dockName" := py_opt (dockName args);
     "imageName" := py_opt (imageName args);
     "dirOutside" := py_opt (dirOutside args);
     "updatePeriod" := py_opt (updatePeriod args);
     "dontUpdateImage" := PBool (dontUpdateImage args);
     "action" := PStr (action args);
     "shellCmd" := PList (shellCmd args) ]}.

Definition tmux_cmd : list string :=
  ["-t"; "tmux"; "-u"; "-CC"; "new-session"; "-A"; "-s"; "ad-tmux"].

Section Dispatcher.
Context `{Platform}.

Definition processEnterStart (aliDock : AliDock) (args : Namespace) : M unit :=
  running ← isRunning aliDock;
  created ←
    (if negb running then
       try_except
         (upd ← hasImageUpdates aliDock;
          if (upd : bool) then
            LOG_info "Updating container image, hold on";;
            pull aliDock;;
            LOG_warning "Container updated, you may want to free some space with:";;
            LOG_warning "    docker system prune"
          else ret tt)
         (fun exc =>
            if is_AliDockError exc
            then Some (LOG_warning "Cannot update container image this time")
            else None);;
       LOG_info "Creating container, hold on";;
       run aliDock;;
       ret true
     else ret false);
  if String.eqb (action args) "enter" then
    TMUX ← host h_TMUX;
    cmd ←
      (if (tmux args || tmuxControl args) && bool_decide (TMUX = None) then
         LOG_info "Resuming tmux session in the container";;
         ret (if tmux args then list_remove_first "-CC" tmux_cmd else tmux_cmd)
       else if tmux args || tmuxControl args then
         raise (AliDockError "already in a tmux session")
       else
         LOG_info "Starting a shell into the container";;
         ret []);
    waitSshUp aliDock;;
    shell aliDock (Some cmd)
  else if String.eqb (action args) "exec" then
    LOG_info "Executing command in the container";;
    waitSshUp aliDock;;
    shell aliDock (Some ("-t" :: shellCmd args))
  else if String.eqb (action args) "root" then
    LOG_info "Starting a root shell into the container (use it at your own risk)";;
    rootShell aliDock
  else if negb created then
    LOG_info "Container is already running"
  else ret tt.

Definition processStatus (aliDock : AliDock) : M unit :=
  running ← isRunning aliDock;
  (if (running : bool) then
     LOG_info "Container is running";;
     exit 0
   else ret tt);;
  LOG_error "Container is not running";;
  exit 1.

Definition processStop (aliDock : AliDock) : M unit :=
  LOG_info "Destroying the container";;
  stop aliDock.

Definition processActions (args : Namespace) : M unit :=
  uid ← host h_uid;
  if (uid =? 0)%Z then
    raise (AliDockError "refusing to execute as root: use an unprivileged user account")
  else
    aliDock ← AliDock_init (Some (args_dict args));
    try_except
      (upd ← hasClientUpdates aliDock;
       if (upd : bool) then
         LOG_error "You are using an obsolete version of alidock.";;
         LOG_error "Upgrade NOW with:";;
         LOG_error "    pip install alidock --upgrade"
       else ret tt)
      (fun exc =>
         if is_AliDockError exc
         then Some (LOG_warning "Cannot check for aliDock updates this time")
         else None);;
    if bool_decide (action args ∈ ["enter"; "exec"; "root"; "start"]) then
      processEnterStart aliDock args
    else if String.eqb (action args) "status" then
      processStatus aliDock
    else if String.eqb (action args) "stop" then
      processStop aliDock
    else raise (AssertionError "invalid action").

Definition entrypoint (cl : CommandLine) : M unit :=
  args ← parse_args cl;
  emit (EvSetQuiet (quiet args));;
  try_except (processActions args)
    (fun exc =>
       if is_AliDockError exc then Some (
         LOG_error ("Cannot continue: " +:+ exn_str exc);;
         exit 10)
       else if is_APIError exc then Some (
         LOG_error ("Docker error: " +:+ exn_str exc);;
         exit 11)
       else if is_RequestException exc then Some (
         LOG_error ("Cannot communicate to Docker, is it running? Full error: " +:+
                    exn_str exc);;
         exit 12)
       else None).

(** How the process of [entrypoint] ends: an exit status, or the program
    that took its place. *)
Inductive ProcessEnd :=
| Exited (status : Z)
| Replaced (file : string) (argv : list string).

(** Status of the interpreter: 0 after a normal return, the code of
    [SystemExit], 1 after any other uncaught exception. *)
Definition process_end (o : Outcome unit) : ProcessEnd :=
  match o with
  | Ret _ => Exited 0
  | Raise (SystemExit code) => Exited code
  | Raise _ => Exited 1
  | Exec file argv => Replaced file argv
  end.

Definition main (cl : CommandLine) (w : World) : ProcessEnd * World :=
  let '(o, w') := entrypoint cl w in (process_end o, w').

End Dispatcher.

(** ** A small platform and host for running the embedding *)

Module Sample.

Definition digit_of (c : ascii) : option Z :=
  let n := Z.of_N (N_of_ascii c) in
  if (48 <=? n)%Z && (n <=? 57)%Z then Some (n - 48)%Z else None.

Fixpoint digits_value (acc : Z) (l : list ascii) : option Z :=
  match l with
  | [] => Some acc
  | c :: l' =>
      match digit_of c with
      | Some d => digits_value (10 * acc + d)%Z l'
      | None => None
      end
  end.

(** Decimal numerals with an optional sign. *)
Definition decimal (s : string) : option Z :=
  match String.list_ascii_of_string s with
  | [] | ["-"%char] | ["+"%char] => None
  | "-"%char :: l => Z.opp <$> digits_value 0 l
  | "+"%char :: l => digits_value 0 l
  | l => digits_value 0 l
  end.

Definition home : string := "/home/user".

Definition tilde (p : string) : string :=
  match p with
  | String "~" EmptyString => home
  | String "~" (String "/" rest) => home +:+ "/" +:+ rest
  | _ => p
  end.

(** Two documents are enough here: one sets [dontUpdateImage], the empty
    one loads as [None]. *)
Definition load (txt : string) : YamlDoc :=
  if String.eqb txt "dontUpdateImage: true"
  then YamlMapping {[ "dontUpdateImage" := PBool true ]}
  else if String.eqb txt "" then YamlOther
  else YamlInvalid "could not parse".

#[global] Instance platform : Platform := {|
  expanduser := tilde;
  int_of_str := decimal;
  yaml_safe_load := load;
  version_gt := fun a b => String.ltb b a;
  render_init_sh := fun logRelative sharedDir dockName userName userId =>
    join_strings " " [logRelative; sharedDir; dockName; userName; pretty userId]
|}.

Definition the_host : Host := {|
  h_uid := 1000;
  h_userName := "user";
  h_TMUX := None;
  h_programs := {[ "ssh"; "docker" ]};
  h_version := "1.0";
  h_pypi := PypiVersion "1.0";
  h_daemon_fault := None;
  h_registry := {[ "alisw/alidock:latest" := "sha256:BBB" ]};
  h_ssh_exit := fun _ => 255;
  h_free_port := 32768
|}.

(** A host with the shared directory, both state files written at second
    1000, and no container; the clock stands at second 100000. *)
Definition world : World := {|
  w_host := the_host;
  w_fs := {[ "/home/user" := Dir;
             "/home/user/alidock" := Dir;
             "/home/user/alidock/.alidock_pip_check" := File "1000";
             "/home/user/alidock/.alidock_docker_check" := File "1000" ]};
  w_clock_ms := 100000000;
  w_containers := ∅;
  w_images := ∅;
  w_ssh_calls := 0;
  w_trace := []
|}.

Definition container : Container := {|
  c_image := "alisw/alidock:latest";
  c_ports := Some {[ "22/tcp" :=
    Some [ {| HostIp := "0.0.0.0"; HostPort := "32768" |} ] ]}
|}.

(** The same host with the container of user 1000 up. *)
Definition world_up : World :=
  set_containers (insert "alidock-1000" container) world.

(** An [AliDock] object as [__init__] leaves it for user 1000. *)
Definition aliDock : AliDock := {|
  dirInside := "/home/alidock";
  logRelative := ".alidock.log";
  conf := <["dockName" := PStr "alidock-1000"]> default_conf
|}.

(** The same host with a configuration file that sets
    [dontUpdateImage]. *)
Definition world_with_config : World :=
  set_fs (insert "/home/user/.alidock-config.yaml" (File "dontUpdateImage: true"))
    world.

Definition pip_check : string := "/home/user/alidock/.alidock_pip_check".
Definition docker_check : string := "/home/user/alidock/.alidock_docker_check".

Definition no_switch : CommandLine := {|
  cl_quiet := false; cl_tmux := false; cl_tmux_control := false;
  cl_name := None; cl_image := None; cl_shared := None;
  cl_update_period := None; cl_no_update_image := false;
  cl_action := None; cl_rest := []
|}.

(** [alidock exec ls -l]. *)
Definition exec_args : Namespace := {|
  quiet := false; tmux := false; tmuxControl := false;
  dockName := None; imageName := None; dirOutside := None;
  updatePeriod := None; dontUpdateImage := false;
  action := "exec"; shellCmd := ["ls"; "-l"]
|}.

(** [alidock status]. *)
Definition status_line : CommandLine := {|
  cl_quiet := false; cl_tmux := false; cl_tmux_control := false;
  cl_name := None; cl_image := None; cl_shared := None;
  cl_update_period := None; cl_no_update_image := false;
  cl_action := Some "status"; cl_rest := []
|}.

Definition status_args : Namespace := {|
  quiet := false; tmux := false; tmuxControl := false;
  dockName := None; imageName := None; dirOutside := None;
  updatePeriod := None; dontUpdateImage := false;
  action := "status"; shellCmd := []
|}.

(** The world the check function of [hasUpdates] starts from in [world]. *)
Definition world_checking : World :=
  set_trace (fun t => t ++ [EvUpdateFunc]) world.

End Sample.

(** ** Observations on a world *)

Section Observations.
Context `{Platform}.

(** The time of the last check as [hasUpdates] reads it from the state
    file [tsFn]. *)
Definition lastCheck (w : World) (tsFn : string) : Z :=
  match w_fs w !! tsFn with
  | Some (File txt) => default 0 (int_of_str txt)
  | _ => 0
  end.

(** [int(time())] in world [w]. *)
Definition now_of (w : World) : Z := w_clock_ms w `quot` 1000.

(** The state file of a check, for a shared directory. *)
Definition state_file (dirOutside stateFileRelative : string) : string :=
  path_join (expanduser dirOutside) stateFileRelative.

(** The body of [if now - lastUpdate > int(updatePeriod):] in
    [hasUpdates]. *)
Definition due_part (tsFn : string) (now : Z) (nagOnUpdate : bool)
    (updateFunc : M bool) : M bool :=
  '(updateAvail, caught) ←
    try_except (b ← (emit EvUpdateFunc;; updateFunc); ret (b, None))
      (fun exc => if is_AliDockError exc then Some (ret (false, Some exc)) else None);
  (if negb nagOnUpdate then open_write tsFn (pretty now) else ret tt);;
  match caught with
  | Some exc => raise exc
  | None => ret updateAvail
  end.

(** The world in which [entrypoint] calls [processActions]. *)
Definition quieted (args : Namespace) (w : World) : World :=
  set_trace (fun t => t ++ [EvSetQuiet (quiet args)]) w.

(** The check for client updates ends as [processActions] expects: it
    returns, or raises [AliDockError]. *)
Definition client_check_completes (a : AliDock) (w : World) : Prop :=
  match fst (hasClientUpdates a w) with
  | Ret _ | Raise (AliDockError _) => True
  | _ => False
  end.

End Observations.

Definition is_EvUpdateFunc (ev : Event) : bool :=
  match ev with EvUpdateFunc => true | _ => false end.
Definition is_EvSshProbe (ev : Event) : bool :=
  match ev with EvSshProbe _ => true | _ => false end.
Definition is_EvSleep (ev : Event) : bool :=
  match ev with EvSleep _ => true | _ => false end.
Definition is_EvContainersRun (ev : Event) : bool :=
  match ev with EvContainersRun _ _ _ _ _ => true | _ => false end.

Fixpoint count_events (p : Event -> bool) (t : list Event) : nat :=
  match t with
  | [] => O
  | ev :: t' => (if p ev then 1 else 0) + count_events p t'
  end.

(** How many times the check function of [hasUpdates] has been called. *)
Definition checks (w : World) : nat := count_events is_EvUpdateFunc (w_trace w).

(** A check function that leaves the record of calls alone. *)
Definition keeps_checks (updateFunc : M bool) : Prop :=
  forall w, checks (snd (updateFunc w)) = checks w.

(** How many times the SSH probe has been run, and how many half-second
    sleeps were taken. *)
Definition probes (w : World) : nat := count_events is_EvSshProbe (w_trace w).
Definition is_EvSleep_500 (ev : Event) : bool :=
  match ev with EvSleep ms => (ms =? 500)%Z | _ => false end.
Definition half_second_sleeps (w : World) : nat :=
  count_events is_EvSleep_500 (w_trace w).
Definition containers_started (w : World) : nat :=
  count_events is_EvContainersRun (w_trace w).

(** The world after one probe [argv] that failed and the sleep that
    follows it. *)
Definition failed_probe (argv : list string) (w : World) : World :=
  set_trace (fun t => t ++ [EvSleep 500])
    (set_clock_ms (Z.add 500)
       (set_trace (fun t => t ++ [EvSshProbe argv]) (set_ssh_calls S w))).

Fixpoint failed_probes (n : nat) (argv : list string) (w : World) : World :=
  match n with
  | O => w
  | S n' => failed_probes n' argv (failed_probe argv w)
  end.

(** The container of [self] is there and publishes port 22 on host port
    [port]; [d] is the shared directory of [self]. *)
Definition published (self : AliDock) (w : World) (port d : string) : Prop :=
  exists name c ports b bs,
    conf self !! "dockName" = Some (PStr name) /\
    conf self !! "dirOutside" = Some (PStr d) /\
    h_daemon_fault (w_host w) = None /\
    w_containers w !! name = Some c /\
    c_ports c = Some ports /\
    ports !! "22/tcp" = Some (Some (b :: bs)) /\
    HostPort b = port.

(** The probe of [waitSshUp]. *)
Definition probe_argv (port d : string) : list string :=
  ssh_argv port d ++ ["-T"; "/bin/true"].

(** The command [processEnterStart] hands to [shell] for the action
    [enter]. *)
Definition enter_cmd (args : Namespace) : list string :=
  if tmux args || tmuxControl args then
    if tmux args then list_remove_first "-CC" tmux_cmd else tmux_cmd
  else [].

(** The runtime as the process sees it is the same in [w'] as in [w]:
    same host, same containers, and no container started in between. *)
Definition same_runtime (w w' : World) : Prop :=
  w_host w' = w_host w /\
  w_containers w' = w_containers w /\
  containers_started w' = containers_started w.


(** ** More observations *)

Definition is_EvHttpGet (ev : Event) : bool :=
  match ev with EvHttpGet _ => true | _ => false end.

(** Requests sent to the package index, and queries sent to the registry. *)
Definition http_requests (w : World) : nat := count_events is_EvHttpGet (w_trace w).

(** The world in which [hasUpdates] calls its check function. *)
Definition checking (w : World) : World :=
  set_trace (fun t => t ++ [EvUpdateFunc]) w.


(** [open(p, "w")] succeeds in [w]: [p] is not a directory and the
    directory it lies in is there; and the error it raises otherwise. *)
Definition writable (p : string) (w : World) : bool :=
  negb (fs_isdir (w_fs w) p) && parent_ok (w_fs w) p.
Definition write_error (p : string) (w : World) : exn :=
  OSError (if fs_isdir (w_fs w) p then EISDIR else ENOENT) p.

(** Images pulled through [images.pull]. *)
Definition is_EvImagePull (ev : Event) : bool :=
  match ev with EvImagePull _ => true | _ => false end.
Definition image_pulls (w : World) : nat :=
  count_events is_EvImagePull (w_trace w).

(** The world [k] failed probes and then a successful one leave. *)
Definition probed_until_up (k : nat) (argv : list string) (w : World) : World :=
  set_trace (fun t => t ++ [EvSshProbe argv])
    (set_ssh_calls S (failed_probes k argv w)).

Section RunObservations.
Context `{Platform}.

(** The host side of the shared directory of [self], and the
    initialisation script [run] writes there. *)
Definition out_dir (d : string) : string := expanduser d.
Definition init_script (d : string) : string :=
  path_join (out_dir d) ".alidock-init.sh".

(** The file system after the [os.mkdir] of [run] and its [except]
    clause let [run] go on. *)
Definition with_shared_dir (d : string) (w : World) : World :=
  if fs_isdir (w_fs w) (out_dir d) then w
  else set_fs (insert (out_dir d) Dir) w.

(** [os.mkdir(outDir)] succeeds, or fails on a directory that is there. *)
Definition shared_dir_usable (d : string) (w : World) : Prop :=
  fs_isdir (w_fs w) (out_dir d) = true \/
  (w_fs w !! out_dir d = None /\ out_dir d <> "" /\
   parent_ok (w_fs w) (out_dir d) = true).

(** The script can be written in the shared directory. *)
Definition init_script_writable (d : string) (w : World) : Prop :=
  fs_isdir (w_fs (with_shared_dir d w)) (init_script d) = false /\
  parent_ok (w_fs (with_shared_dir d w)) (init_script d) = true.

(** The text [run] writes into the script. *)
Definition init_script_text (self : AliDock) (name : string) (w : World) : string :=
  render_init_sh (logRelative self) (dirInside self) (py_rsplit1_head "-" name)
    (h_userName (w_host w)) (h_uid (w_host w)).

End RunObservations.

(** The container [containers.run] creates. *)
Definition fresh_container (image : string) (w : World) : Container :=
  {| c_image := image;
     c_ports := Some {[ "22/tcp" :=
       Some [ {| HostIp := "0.0.0.0";
                 HostPort := pretty (h_free_port (w_host w)) |} ] ]} |}.

Module Sample2.

(** The sample host with a local image older than the published one. *)
Definition world_stale : World :=
  set_images (insert "alisw/alidock:latest" ["alisw/alidock@sha256:AAA"])
    Sample.world.

(** [alidock start]. *)
Definition start_args : Namespace := {|
  quiet := false; tmux := false; tmuxControl := false;
  dockName := None; imageName := None; dirOutside := None;
  updatePeriod := None; dontUpdateImage := false;
  action := "start"; shellCmd := []
|}.

(** [alidock root]. *)
Definition root_args : Namespace := {|
  quiet := false; tmux := false; tmuxControl := false;
  dockName := None; imageName := None; dirOutside := None;
  updatePeriod := None; dontUpdateImage := false;
  action := "root"; shellCmd := []
|}.

(** [alidock --tmux enter]. *)
Definition tmux_args : Namespace := {|
  quiet := false; tmux := true; tmuxControl := false;
  dockName := None; imageName := None; dirOutside := None;
  updatePeriod := None; dontUpdateImage := false;
  action := "enter"; shellCmd := []
|}.

(** The sample host seen from inside a tmux session. *)
Definition host_in_tmux : Host := {|
  h_uid := 1000;
  h_userName := "user";
  h_TMUX := Some "/tmp/tmux-1000/default,1,0";
  h_programs := {[ "ssh"; "docker" ]};
  h_version := "1.0";
  h_pypi := PypiVersion "1.0";
  h_daemon_fault := None;
  h_registry := {[ "alisw/alidock:latest" := "sha256:BBB" ]};
  h_ssh_exit := fun _ => 255;
  h_free_port := 32768
|}.

(** A host where the third probe succeeds. *)
Definition host_up_at_third : Host := {|
  h_uid := 1000;
  h_userName := "user";
  h_TMUX := None;
  h_programs := {[ "ssh"; "docker" ]};
  h_version := "1.0";
  h_pypi := PypiVersion "1.1";
  h_daemon_fault := None;
  h_registry := {[ "alisw/alidock:latest" := "sha256:BBB" ]};
  h_ssh_exit := fun n => if (n <? 2)%nat then 255 else 0;
  h_free_port := 32768
|}.

(** The sample host run by root. *)
Definition host_root : Host := {|
  h_uid := 0;
  h_userName := "root";
  h_TMUX := None;
  h_programs := {[ "ssh"; "docker" ]};
  h_version := "1.0";
  h_pypi := PypiVersion "1.0";
  h_daemon_fault := None;
  h_registry := {[ "alisw/alidock:latest" := "sha256:BBB" ]};
  h_ssh_exit := fun _ => 255;
  h_free_port := 32768
|}.

Definition on_host (h : Host) (w : World) : World :=
  {| w_host := h; w_fs := w_fs w; w_clock_ms := w_clock_ms w;
     w_containers := w_containers w; w_images := w_images w;
     w_ssh_calls := w_ssh_calls w; w_trace := w_trace w |}.



(** The sample host before the shared directory has been created. *)
Definition world_no_shared_dir : World :=
  set_fs (fun _ => {[ "/home/user" := Dir ]}) Sample.world.


(** [alidock --update-period soon status]. *)
Definition bad_period_line : CommandLine := {|
  cl_quiet := false; cl_tmux := false; cl_tmux_control := false;
  cl_name := None; cl_image := None; cl_shared := None;
  cl_update_period := Some "soon"; cl_no_update_image := false;
  cl_action := Some "status"; cl_rest := []
|}.

End Sample2.

(** * Properties *)

(** ** Running the monad *)

Lemma bind_Ret {A B} (m : M A) (k : A -> M B) w a w' :
  m w = (Ret a, w') -> (m ≫= k) w = k a w'.
Proof. intros Hm. unfold mbind, M_bind, bind. by rewrite Hm. Qed.

Lemma bind_Raise {A B} (m : M A) (k : A -> M B) w e w' :
  m w = (Raise e, w') -> (m ≫= k) w = (Raise e, w').
Proof. intros Hm. unfold mbind, M_bind, bind. by rewrite Hm. Qed.

Lemma bind_Exec {A B} (m : M A) (k : A -> M B) w f argv w' :
  m w = (Exec f argv, w') -> (m ≫= k) w = (Exec f argv, w').
Proof. intros Hm. unfold mbind, M_bind, bind. by rewrite Hm. Qed.

Lemma try_except_Ret {A} (m : M A) h w a w' :
  m w = (Ret a, w') -> try_except m h w = (Ret a, w').
Proof. intros Hm. unfold try_except. by rewrite Hm. Qed.

Lemma try_except_caught {A} (m : M A) h w e w' k r :
  m w = (Raise e, w') -> h e = Some k -> k w' = r -> try_except m h w = r.
Proof. intros Hm Hh <-. unfold try_except. by rewrite Hm, Hh. Qed.

Lemma try_except_uncaught {A} (m : M A) h w e w' :
  m w = (Raise e, w') -> h e = None -> try_except m h w = (Raise e, w').
Proof. intros Hm Hh. unfold try_except. by rewrite Hm, Hh. Qed.

Lemma count_events_app p t1 t2 :
  count_events p (t1 ++ t2) = (count_events p t1 + count_events p t2)%nat.
Proof. induction t1 as [|ev t1 IH]; simpl; [done | rewrite IH; lia]. Qed.

Section HasUpdates.
Context `{Platform}.

(** Reading the state file never fails: whatever [open] or [int] raise is
    turned into 0. *)
Lemma read_state_file tsFn w :
  try_except (txt ← open_read tsFn; int_of_text txt)
    (fun exc => if is_OSError exc || is_ValueError exc then Some (ret 0) else None) w
  = (Ret (lastCheck w tsFn), w).
Proof.
  unfold try_except, mbind, M_bind, bind, open_read, lastCheck.
  destruct (w_fs w !! tsFn) as [[txt| |]|]; simpl; try done.
  unfold int_of_text, py_int. destruct (int_of_str txt); done.
Qed.

Lemma hasUpdates_unfold self sf up nag updateFunc w d period :
  conf self !! "dirOutside" = Some (PStr d) ->
  py_int up = ret period ->
  hasUpdates self sf up nag updateFunc w =
    if (now_of w - lastCheck w (state_file d sf) >? period)%Z
    then due_part (state_file d sf) (now_of w) nag updateFunc w
    else (Ret false, w).
Proof.
  intros Hd Hp. unfold hasUpdates.
  erewrite bind_Ret; last by (unfold conf_str, dict_get; rewrite Hd; reflexivity).
  erewrite bind_Ret; last by apply read_state_file.
  erewrite bind_Ret; last by reflexivity.
  rewrite Hp. erewrite bind_Ret; last by reflexivity.
  fold (state_file d sf). fold (now_of w).
  destruct (now_of w - lastCheck w (state_file d sf) >? period)%Z; reflexivity.
Qed.


Lemma open_write_trace p txt w : w_trace (snd (open_write p txt w)) = w_trace w.
Proof.
  unfold open_write.
  destruct (fs_isdir (w_fs w) p); [done|]. by destruct (parent_ok (w_fs w) p).
Qed.

Lemma checks_emit_check w :
  checks (set_trace (fun t => t ++ [EvUpdateFunc]) w) = S (checks w).
Proof. unfold checks. simpl. rewrite count_events_app. simpl. lia. Qed.

Lemma due_part_checks tsFn now nag updateFunc w :
  keeps_checks updateFunc ->
  checks (snd (due_part tsFn now nag updateFunc w)) = S (checks w).
Proof.
  intros Hkeep. unfold due_part.
  pose proof (Hkeep (set_trace (fun t => t ++ [EvUpdateFunc]) w)) as Hk.
  rewrite checks_emit_check in Hk.
  unfold mbind, M_bind, bind, try_except, emit.
  destruct (updateFunc _) as [[b|e|f argv] w1]; simpl in *; try done.
  - destruct nag; simpl; [done|].
    pose proof (open_write_trace tsFn (pretty now) w1) as Ht.
    unfold checks in *.
    destruct (open_write tsFn (pretty now) w1) as [[[]|e|f argv] w2];
      simpl in *; by rewrite Ht.
  - destruct e; simpl; try done.
    destruct nag; simpl; [done|].
    pose proof (open_write_trace tsFn (pretty now) w1) as Ht.
    unfold checks in *.
    destruct (open_write tsFn (pretty now) w1) as [[[]|e|f argv] w2];
      simpl in *; by rewrite Ht.
Qed.





(** With [nagOnUpdate] set, the due part is the call of the check
    function and nothing else: an [AliDockError] is caught and raised
    again, and no branch writes. *)
Lemma due_part_nag tsFn now updateFunc w :
  due_part tsFn now true updateFunc w =
  updateFunc (set_trace (fun t => t ++ [EvUpdateFunc]) w).
Proof.
  unfold due_part, mbind, M_bind, bind, try_except, emit.
  destruct (updateFunc _) as [[b|e|f argv] w1]; simpl; try done.
  by destruct e.
Qed.

Lemma open_write_Ret p txt w w' :
  open_write p txt w = (Ret tt, w') -> w' = set_fs (insert p (File txt)) w.
Proof.
  unfold open_write.
  destruct (fs_isdir (w_fs w) p); [done|].
  destruct (parent_ok (w_fs w) p); congruence.
Qed.

Lemma now_of_mono w w2 : (w_clock_ms w <= w_clock_ms w2)%Z -> (now_of w <= now_of w2)%Z.
Proof. intros Hle. unfold now_of. apply Z.quot_le_mono; lia. Qed.

(** C5. With [nagOnUpdate] set, a call whose check finds an update
    returns [True] in the very world the check function left, so it writes
    nothing and the state file stays as it was; and in any later world
    where the state file is still as it was and the clock has not gone
    back, the check function is called again. *)
Theorem hasUpdates_nag_keeps_timestamp self sf up updateFunc w w1 d period :
  conf self !! "dirOutside" = Some (PStr d) ->
  py_int up = ret period ->
  (now_of w - lastCheck w (state_file d sf) > period)%Z ->
  updateFunc (set_trace (fun t => t ++ [EvUpdateFunc]) w) = (Ret true, w1) ->
  hasUpdates self sf up true updateFunc w = (Ret true, w1) /\
  forall w2 updateFunc',
    w_fs w2 !! state_file d sf = w_fs w !! state_file d sf ->
    (w_clock_ms w <= w_clock_ms w2)%Z ->
    keeps_checks updateFunc' ->
    checks (snd (hasUpdates self sf up true updateFunc' w2)) = S (checks w2).
Proof.
  intros Hd Hp Hdue Hf. split.
  - rewrite (hasUpdates_unfold _ _ _ _ _ _ _ _ Hd Hp).
    destruct (Z.gtb_spec (now_of w - lastCheck w (state_file d sf)) period); [|lia].
    by rewrite due_part_nag.
  - intros w2 updateFunc' Hfile Hclock Hkeep.
    rewrite (hasUpdates_unfold _ _ _ _ _ _ _ _ Hd Hp).
    assert (lastCheck w2 (state_file d sf) = lastCheck w (state_file d sf)) as ->
      by (unfold lastCheck; by rewrite Hfile).
    pose proof (now_of_mono _ _ Hclock).
    destruct (Z.gtb_spec (now_of w2 - lastCheck w (state_file d sf)) period); [|lia].
    by apply due_part_checks.
Qed.

(** [open(p, "w")] and the write: the file takes the text when it can be
    written, and nothing changes when it cannot. *)
Lemma open_write_cases p txt w :
  open_write p txt w =
    if writable p w then (Ret tt, set_fs (insert p (File txt)) w)
    else (Raise (write_error p w), w).
Proof.
  unfold open_write, writable, write_error.
  destruct (fs_isdir (w_fs w) p); [done|]. by destruct (parent_ok (w_fs w) p).
Qed.

(** An exception of any other class leaves [hasUpdates] at once: the
    persistence step is not reached. *)
Lemma hasUpdates_other_exception self sf up nag updateFunc w w1 d period e :
  conf self !! "dirOutside" = Some (PStr d) ->
  py_int up = ret period ->
  (now_of w - lastCheck w (state_file d sf) > period)%Z ->
  updateFunc (set_trace (fun t => t ++ [EvUpdateFunc]) w) = (Raise e, w1) ->
  is_AliDockError e = false ->
  hasUpdates self sf up nag updateFunc w = (Raise e, w1).
Proof.
  intros Hd Hp Hdue Hf He. rewrite (hasUpdates_unfold _ _ _ _ _ _ _ _ Hd Hp).
  destruct (Z.gtb_spec (now_of w - lastCheck w (state_file d sf)) period); [|lia].
  unfold due_part, mbind, M_bind, bind, try_except, emit.
  rewrite Hf. by rewrite He.
Qed.

(** C4, as amended. When the check function raises an [AliDockError],
    the error is kept and the persistence decision is applied before
    anything is raised.  With [nagOnUpdate] set nothing is written and the
    same error is raised to the caller.  With [nagOnUpdate] unset [now] is
    written: when the state file can be written it then holds [now]
    although the check failed, and the same error is raised; when it cannot
    be written (its directory is not there, or the path is a directory)
    the [OSError] of the write is raised in place of the error that was
    kept, and nothing has been written.  An exception of any other class
    is not kept: it leaves [hasUpdates] as the check function raised it,
    before the persistence step. *)
Theorem hasUpdates_AliDockError_persist_then_reraise
    self sf up updateFunc w w1 d period e :
  conf self !! "dirOutside" = Some (PStr d) ->
  py_int up = ret period ->
  (now_of w - lastCheck w (state_file d sf) > period)%Z ->
  updateFunc (set_trace (fun t => t ++ [EvUpdateFunc]) w) = (Raise e, w1) ->
  (is_AliDockError e = true ->
   hasUpdates self sf up true updateFunc w = (Raise e, w1) /\
   (writable (state_file d sf) w1 = true ->
    exists w2,
      hasUpdates self sf up false updateFunc w = (Raise e, w2) /\
      w2 = set_fs (insert (state_file d sf) (File (pretty (now_of w)))) w1 /\
      w_fs w2 !! state_file d sf = Some (File (pretty (now_of w)))) /\
   (writable (state_file d sf) w1 = false ->
    hasUpdates self sf up false updateFunc w
      = (Raise (write_error (state_file d sf) w1), w1) /\
    is_OSError (write_error (state_file d sf) w1) = true)) /\
  (is_AliDockError e = false ->
   forall nag, hasUpdates self sf up nag updateFunc w = (Raise e, w1)).
Proof.
  intros Hd Hp Hdue Hf. split.
  - intros He. destruct e as [msg| | | | | | | | | | | | |]; try discriminate.
    split; [|split].
    + rewrite (hasUpdates_unfold _ _ _ _ _ _ _ _ Hd Hp).
      destruct (Z.gtb_spec (now_of w - lastCheck w (state_file d sf)) period); [|lia].
      by rewrite due_part_nag.
    + intros Hw. eexists. split; [|split; [reflexivity|]].
      * rewrite (hasUpdates_unfold _ _ _ _ _ _ _ _ Hd Hp).
        destruct (Z.gtb_spec (now_of w - lastCheck w (state_file d sf)) period); [|lia].
        unfold due_part, mbind, M_bind, bind, try_except, emit.
        rewrite Hf. simpl. by rewrite open_write_cases, Hw.
      * simpl. apply lookup_insert_eq.
    + intros Hw. split; [|reflexivity].
      rewrite (hasUpdates_unfold _ _ _ _ _ _ _ _ Hd Hp).
      destruct (Z.gtb_spec (now_of w - lastCheck w (state_file d sf)) period); [|lia].
      unfold due_part, mbind, M_bind, bind, try_except, emit.
      rewrite Hf. simpl. by rewrite open_write_cases, Hw.
  - intros He nag. by eapply hasUpdates_other_exception.
Qed.

End HasUpdates.

(** ** The update checks on the sample host *)

Module Checks.

(** C1, at the failing input: the state file holds 1000, the clock
    stands at 100000, the period is 43200 and the check finds no update.
    The check function is called once, the call returns [False], and the
    state file still holds 1000, not 100000.  The same happens through
    [hasClientUpdates], the caller that sets [nagOnUpdate]. *)
Theorem nag_without_update_leaves_timestamp :
  let r := hasUpdates Sample.aliDock ".alidock_pip_check" (PInt 43200) true
             (ret false) Sample.world in
  let r' := hasClientUpdates Sample.aliDock Sample.world in
  now_of Sample.world = 100000 /\
  fst r = Ret false /\ checks (snd r) = 1%nat /\
  w_fs (snd r) !! Sample.pip_check = Some (File "1000") /\
  fst r' = Ret false /\ checks (snd r') = 1%nat /\
  w_fs (snd r') !! Sample.pip_check = Some (File "1000").
Proof. vm_compute. repeat split. Qed.

(** C4, counterexample. The [except] clause of [hasUpdates] names
    [AliDockError] only: a check function that raises [KeyError] while
    [nagOnUpdate] is unset leaves at once, the error reaches the caller and
    the state file still holds 1000, not [now]. *)
Lemma KeyError_skips_persistence :
  let r := hasUpdates Sample.aliDock ".alidock_docker_check" (PInt 43200) false
             (raise (KeyError "'info'")) Sample.world in
  fst r = Raise (KeyError "'info'") /\
  w_fs (snd r) !! Sample.docker_check = Some (File "1000") /\
  w_fs (snd r) !! Sample.docker_check <> Some (File (pretty (now_of Sample.world))).
Proof. vm_compute. repeat split. discriminate. Qed.

End Checks.

(** ** The lifecycle controller *)

Section Controller.
Context `{Platform}.

Lemma conf_str_Ret self k s w :
  conf self !! k = Some (PStr s) -> conf_str self k w = (Ret s, w).
Proof. intros Hk. unfold conf_str, dict_get. by rewrite Hk. Qed.

Lemma containers_get_present name c w :
  h_daemon_fault (w_host w) = None -> w_containers w !! name = Some c ->
  containers_get name w = (Ret c, w).
Proof. intros Hf Hc. unfold containers_get, daemon. by rewrite Hf, Hc. Qed.

Lemma containers_get_absent name w :
  h_daemon_fault (w_host w) = None -> w_containers w !! name = None ->
  containers_get name w = (Raise (NotFound ("No such container: " +:+ name)), w).
Proof. intros Hf Hc. unfold containers_get, daemon. by rewrite Hf, Hc. Qed.

Lemma containers_get_world name w : snd (containers_get name w) = w.
Proof.
  unfold containers_get, daemon.
  destruct (h_daemon_fault (w_host w)); [done|].
  by destruct (w_containers w !! name).
Qed.





(** C7. [isRunning] returns [True] exactly when the runtime answers and
    has a container of the configured name, returns [False] exactly when
    the runtime reports not found, and passes on any other error of the
    runtime as it is; the world is the same afterwards. *)
Theorem isRunning_spec self w name :
  conf self !! "dockName" = Some (PStr name) ->
  (isRunning self w = (Ret true, w) <->
   h_daemon_fault (w_host w) = None /\ is_Some (w_containers w !! name)) /\
  (isRunning self w = (Ret false, w) <->
   exists msg, containers_get name w = (Raise (NotFound msg), w)) /\
  (forall e, containers_get name w = (Raise e, w) -> is_NotFound e = false ->
             isRunning self w = (Raise e, w)).
Proof.
  intros Hn.
  assert (isRunning self w =
          match containers_get name w with
          | (Ret _, w') => (Ret true, w')
          | (Raise e, w') => if is_NotFound e then (Ret false, w') else (Raise e, w')
          | (Exec f argv, w') => (Exec f argv, w')
          end) as Heq.
  { unfold isRunning, try_except.
    erewrite bind_Ret; last by apply conf_str_Ret.
    unfold mbind, M_bind, bind.
    destruct (containers_get name w) as [[c|e|f argv] w']; try done.
    by destruct (is_NotFound e). }
  rewrite Heq. clear Heq.
  unfold containers_get, daemon.
  destruct (h_daemon_fault (w_host w)) as [e|] eqn:Hf.
  - split; [|split].
    + split; [by destruct (is_NotFound e) | by intros [? _]].
    + split.
      * destruct e; simpl; try discriminate. eauto.
      * by intros [msg [= ->]].
    + by intros e' [= ->] ->.
  - destruct (w_containers w !! name) as [c|] eqn:Hc; simpl.
    + split; [|split].
      * split; [eauto | done].
      * split; [done | by intros [msg ?]].
      * done.
    + split; [|split].
      * split; [done | by intros [_ [? ?]]].
      * split; [eauto | done].
      * by intros e [= <-].
Qed.

(** C8. With the runtime answering, [stop] removes the container of the
    configured name when there is one, and returns without error and
    without effect when there is none: once, and twice in a row. *)
Theorem stop_idempotent self w name :
  conf self !! "dockName" = Some (PStr name) ->
  h_daemon_fault (w_host w) = None ->
  (forall c, w_containers w !! name = Some c ->
     exists w', stop self w = (Ret tt, w') /\
                w_containers w' = delete name (w_containers w)) /\
  (w_containers w !! name = None ->
     stop self w = (Ret tt, w) /\ (stop self;; stop self) w = (Ret tt, w)).
Proof.
  intros Hn Hf.
  assert (w_containers w !! name = None -> stop self w = (Ret tt, w)) as Habs.
  { intros Hc. unfold stop.
    eapply try_except_caught.
    - erewrite bind_Ret; last by apply conf_str_Ret.
      erewrite bind_Raise; first reflexivity.
      by apply containers_get_absent.
    - reflexivity.
    - reflexivity. }
  split.
  - intros c Hc. eexists. split.
    + unfold stop. apply try_except_Ret.
      erewrite bind_Ret; last by apply conf_str_Ret.
      erewrite bind_Ret; last by apply containers_get_present.
      unfold container_remove, daemon. rewrite Hf, Hc. reflexivity.
    + reflexivity.
  - intros Hc. split; [by apply Habs|].
    erewrite bind_Ret; last by apply Habs. by apply Habs.
Qed.

End Controller.

(** ** The SSH command on the sample host *)

Module Ports.


End Ports.

(** ** The dispatcher *)

Section Dispatch.
Context `{Platform}.

Lemma isRunning_present self w name c :
  conf self !! "dockName" = Some (PStr name) ->
  h_daemon_fault (w_host w) = None -> w_containers w !! name = Some c ->
  isRunning self w = (Ret true, w).
Proof.
  intros Hn Hf Hc. unfold isRunning. apply try_except_Ret.
  erewrite bind_Ret; last by apply conf_str_Ret.
  erewrite bind_Ret; last by apply containers_get_present.
  reflexivity.
Qed.

Lemma isRunning_absent self w name :
  conf self !! "dockName" = Some (PStr name) ->
  h_daemon_fault (w_host w) = None -> w_containers w !! name = None ->
  isRunning self w = (Ret false, w).
Proof.
  intros Hn Hf Hc. unfold isRunning. eapply try_except_caught.
  - erewrite bind_Ret; last by apply conf_str_Ret.
    erewrite bind_Raise; first reflexivity.
    by apply containers_get_absent.
  - reflexivity.
  - reflexivity.
Qed.

Lemma isRunning_world self w : snd (isRunning self w) = w.
Proof.
  unfold isRunning, try_except, mbind, M_bind, bind, conf_str, dict_get.
  destruct (conf self !! "dockName") as [[| | |name|]|]; simpl; try done.
  pose proof (containers_get_world name w) as Hw.
  destruct (containers_get name w) as [[c|e|f argv] w']; simpl in *; subst; try done.
  by destruct (is_NotFound e).
Qed.

Lemma same_runtime_refl w : same_runtime w w.
Proof. by repeat split. Qed.

Lemma same_runtime_trans w1 w2 w3 :
  same_runtime w1 w2 -> same_runtime w2 w3 -> same_runtime w1 w3.
Proof. intros (? & ? & ?) (? & ? & ?). repeat split; congruence. Qed.

(** An event other than the start of a container. *)
Lemma same_runtime_event w ev :
  is_EvContainersRun ev = false ->
  same_runtime w (set_trace (fun t => t ++ [ev]) w).
Proof.
  intros Hev. repeat split. unfold containers_started. simpl.
  rewrite count_events_app. simpl. rewrite Hev. lia.
Qed.

Lemma py_int_cases up w :
  (exists z, py_int up = ret z) \/ (exists e, py_int up w = (Raise e, w)).
Proof.
  destruct up as [|b|z|txt|l]; simpl; eauto.
  destruct (int_of_str txt); eauto.
Qed.

(** With [nagOnUpdate] set, the world after [hasUpdates] is the one it
    started in or the one the check function left. *)
Lemma hasUpdates_nag_world self sf up updateFunc w :
  snd (hasUpdates self sf up true updateFunc w) = w \/
  snd (hasUpdates self sf up true updateFunc w) =
    snd (updateFunc (set_trace (fun t => t ++ [EvUpdateFunc]) w)).
Proof.
  destruct (conf self !! "dirOutside") as [v|] eqn:Hd; cycle 1.
  { left. unfold hasUpdates, conf_str, dict_get, mbind, M_bind, bind.
    by rewrite Hd. }
  destruct v as [| | |d|];
    try (left; unfold hasUpdates, conf_str, dict_get, mbind, M_bind, bind;
         by rewrite Hd).
  destruct (py_int_cases up w) as [[z Hp]|[e Hp]].
  - rewrite (hasUpdates_unfold _ _ _ _ _ _ _ _ Hd Hp).
    destruct (_ >? _)%Z; [right|by left]. by rewrite due_part_nag.
  - left. unfold hasUpdates.
    erewrite bind_Ret; last by apply conf_str_Ret.
    erewrite bind_Ret; last by apply read_state_file.
    erewrite bind_Ret; last by reflexivity.
    erewrite bind_Raise; last exact Hp. reflexivity.
Qed.

Lemma clientUpdateFunc_world w :
  snd (clientUpdateFunc w) =
  set_trace (fun t => t ++ [EvHttpGet "https://pypi.org/pypi/alidock/json"]) w.
Proof.
  unfold clientUpdateFunc, try_except, mbind, M_bind, bind, pypi_latest_version.
  destruct (h_pypi (w_host w)) as [e|v]; simpl.
  - by destruct e.
  - unfold host. simpl. by destruct (version_gt _ _).
Qed.

(** The check for client updates reads the package index and nothing
    else: it leaves the runtime alone. *)
Lemma hasClientUpdates_runtime a w : same_runtime w (snd (hasClientUpdates a w)).
Proof.
  unfold hasClientUpdates. unfold mbind, M_bind, bind at 1. unfold host at 1.
  destruct (String.eqb _ _); [apply same_runtime_refl|].
  unfold mbind, M_bind, bind, dict_get.
  destruct (conf a !! "updatePeriod") as [up|]; simpl; [|apply same_runtime_refl].
  destruct (hasUpdates_nag_world a ".alidock_pip_check" up clientUpdateFunc w)
    as [-> | ->]; [apply same_runtime_refl|].
  rewrite clientUpdateFunc_world.
  do 2 (eapply same_runtime_trans; [|by apply same_runtime_event]).
  apply same_runtime_refl.
Qed.

Lemma processStatus_present self w name c :
  conf self !! "dockName" = Some (PStr name) ->
  h_daemon_fault (w_host w) = None -> w_containers w !! name = Some c ->
  processStatus self w =
    (Raise (SystemExit 0),
     set_trace (fun t => t ++ [EvLog "info" "Container is running"]) w).
Proof.
  intros Hn Hf Hc. unfold processStatus.
  erewrite bind_Ret; last by eapply isRunning_present. reflexivity.
Qed.

Lemma processStatus_absent self w name :
  conf self !! "dockName" = Some (PStr name) ->
  h_daemon_fault (w_host w) = None -> w_containers w !! name = None ->
  processStatus self w =
    (Raise (SystemExit 1),
     set_trace (fun t => t ++ [EvLog "error" "Container is not running"]) w).
Proof.
  intros Hn Hf Hc. unfold processStatus.
  erewrite bind_Ret; last by eapply isRunning_absent. reflexivity.
Qed.

(** The block of [processActions] around [hasClientUpdates] returns when
    the check completes, and leaves the runtime alone. *)
Lemma client_notice_returns a w :
  client_check_completes a w ->
  exists w',
    try_except
      (upd ← hasClientUpdates a;
       if (upd : bool) then
         LOG_error "You are using an obsolete version of alidock.";;
         LOG_error "Upgrade NOW with:";;
         LOG_error "    pip install alidock --upgrade"
       else ret tt)
      (fun exc =>
         if is_AliDockError exc
         then Some (LOG_warning "Cannot check for aliDock updates this time")
         else None) w = (Ret tt, w') /\
    same_runtime w w'.
Proof.
  unfold client_check_completes. intros Hdone.
  pose proof (hasClientUpdates_runtime a w) as Hrt.
  unfold try_except, mbind, M_bind, bind.
  destruct (hasClientUpdates a w) as [[upd|e|f argv] w1]; simpl in *; [| |done].
  - destruct upd; simpl.
    + eexists. split; [reflexivity|].
      do 3 (eapply same_runtime_trans; [|by apply same_runtime_event]).
      exact Hrt.
    + eexists. split; [reflexivity|exact Hrt].
  - destruct e; try done. simpl. eexists. split; [reflexivity|].
    eapply same_runtime_trans; [exact Hrt|]. by apply same_runtime_event.
Qed.

(** C9. For the action [status], run by a user other than root with the
    runtime answering and the check for client updates completing, the
    process exits with status 0 when the container of the configured name
    exists and with status 1 when it does not, through [exit(0)] and
    [exit(1)] of [processStatus]; in both cases the containers of the
    runtime are the same at the end and no container has been started. *)
Theorem status_exit_codes cl args a name w :
  parse_args cl w = (Ret args, w) ->
  action args = "status" ->
  h_uid (w_host w) <> 0 ->
  h_daemon_fault (w_host w) = None ->
  AliDock_init (Some (args_dict args)) (quieted args w) = (Ret a, quieted args w) ->
  conf a !! "dockName" = Some (PStr name) ->
  client_check_completes a (quieted args w) ->
  (is_Some (w_containers w !! name) ->
   fst (processStatus a w) = Raise (SystemExit 0) /\ fst (main cl w) = Exited 0) /\
  (w_containers w !! name = None ->
   fst (processStatus a w) = Raise (SystemExit 1) /\ fst (main cl w) = Exited 1) /\
  w_containers (snd (processStatus a w)) = w_containers w /\
  containers_started (snd (processStatus a w)) = containers_started w /\
  w_containers (snd (main cl w)) = w_containers w /\
  containers_started (snd (main cl w)) = containers_started w.
Proof.
  intros Hparse Hact Huid Hf Hinit Hn Hdone.
  destruct (client_notice_returns a _ Hdone) as (w1 & Hnotice & Hrt1).
  assert (same_runtime w w1) as (Hh & Hc & Hs).
  { eapply same_runtime_trans; [|exact Hrt1]. by apply same_runtime_event. }
  assert (processActions args (quieted args w) = processStatus a w1) as Hdispatch.
  { unfold processActions.
    erewrite bind_Ret; last reflexivity.
    apply Z.eqb_neq in Huid. cbn [w_host quieted set_trace]. rewrite Huid.
    erewrite bind_Ret; last exact Hinit.
    erewrite bind_Ret; last exact Hnotice.
    rewrite Hact. reflexivity. }
  assert (forall code w2,
    processStatus a w1 = (Raise (SystemExit code), w2) ->
    main cl w = (Exited code, w2)) as Hmain.
  { intros code w2 Hst. unfold main, entrypoint.
    erewrite bind_Ret; last exact Hparse.
    erewrite bind_Ret; last reflexivity.
    rewrite <- Hdispatch in Hst.
    rewrite (try_except_uncaught _ _ _ _ _ Hst eq_refl). reflexivity. }
  assert (h_daemon_fault (w_host w1) = None) as Hf1 by (by rewrite Hh).
  destruct (w_containers w !! name) as [c|] eqn:Hcn.
  - assert (w_containers w1 !! name = Some c) as Hcn1 by (by rewrite Hc).
    pose proof (processStatus_present a w name c Hn Hf Hcn) as Hst.
    pose proof (processStatus_present a w1 name c Hn Hf1 Hcn1) as Hst1.
    rewrite (Hmain _ _ Hst1), Hst. unfold containers_started in *. simpl.
    rewrite !count_events_app. simpl.
    repeat split; try done; lia.
  - assert (w_containers w1 !! name = None) as Hcn1 by (by rewrite Hc).
    pose proof (processStatus_absent a w name Hn Hf Hcn) as Hst.
    pose proof (processStatus_absent a w1 name Hn Hf1 Hcn1) as Hst1.
    rewrite (Hmain _ _ Hst1), Hst. unfold containers_started in *. simpl.
    rewrite !count_events_app. simpl.
    repeat split; try done; lia.
Qed.

Lemma getSshCommand_published self w port d :
  published self w port d -> getSshCommand self w = (Ret (ssh_argv port d), w).
Proof.
  intros (name & c & ports & b & bs & Hn & Hd & Hf & Hc & Hp & H22 & <-).
  unfold getSshCommand. erewrite bind_Ret.
  - erewrite bind_Ret; last by apply conf_str_Ret. reflexivity.
  - apply try_except_Ret.
    erewrite bind_Ret; last by apply conf_str_Ret.
    erewrite bind_Ret; last by apply containers_get_present.
    unfold ssh_host_port. rewrite Hp, H22. reflexivity.
Qed.

Lemma published_same self w w' port d :
  w_host w' = w_host w -> w_containers w' = w_containers w ->
  published self w port d -> published self w' port d.
Proof.
  intros Hh Hc (name & c & ports & b & bs & ? & ? & ? & ? & ?).
  exists name, c, ports, b, bs. rewrite Hh, Hc. done.
Qed.

Lemma getSshCommand_trace self w : w_trace (snd (getSshCommand self w)) = w_trace w.
Proof.
  unfold getSshCommand, try_except, mbind, M_bind, bind, conf_str, dict_get, as_str.
  destruct (conf self !! "dockName") as [[| | |name|]|]; simpl.
  all: try (destruct (conf self !! "dirOutside") as [[| | |d|]|]; simpl; done).
  pose proof (containers_get_world name w) as Hw.
  destruct (containers_get name w) as [[c|e|f argv] w']; simpl in *; subst.
  - unfold ssh_host_port.
    destruct (c_ports c) as [ports|]; simpl; [|done].
    destruct (ports !! "22/tcp") as [[[|b bs]|]|]; simpl; try done.
    all: destruct (conf self !! "dirOutside") as [[| | |d|]|]; simpl; done.
  - destruct e; simpl; try done.
    all: destruct (conf self !! "dirOutside") as [[| | |d|]|]; simpl; done.
  - done.
Qed.

Lemma check_call_probes argv w :
  (probes (snd (check_call argv w)) <= S (probes w))%nat.
Proof.
  unfold check_call, probes. destruct argv as [|prog argv]; simpl; [lia|].
  case_bool_decide; simpl; [|lia].
  destruct (h_ssh_exit (w_host w) (w_ssh_calls w) =? 0)%Z; simpl;
    rewrite count_events_app; simpl; lia.
Qed.

(** One turn of the loop runs the probe at most once. *)
Lemma waitSshUp_turn_probes self w :
  (probes (snd (try_except
             (argv ← getSshCommand self;
              check_call (argv ++ ["-T"; "/bin/true"]);;
              ret true)
             (fun exc =>
                if is_CalledProcessError exc
                then Some (sleep_ms 500;; ret false) else None) w))
   <= S (probes w))%nat.
Proof.
  unfold try_except, mbind, M_bind, bind.
  pose proof (getSshCommand_trace self w) as Ht.
  destruct (getSshCommand self w) as [[argv|e|f a] w1]; simpl in *.
  - pose proof (check_call_probes (argv ++ ["-T"; "/bin/true"]) w1) as Hc.
    unfold probes in *. rewrite Ht in Hc.
    destruct (check_call _ w1) as [[[]|e|f a] w2]; simpl in *; try done.
    destruct (is_CalledProcessError e); simpl; [|done].
    rewrite count_events_app. simpl. lia.
  - unfold probes. destruct (is_CalledProcessError e); simpl.
    + rewrite count_events_app, Ht. simpl. lia.
    + rewrite Ht. lia.
  - unfold probes. rewrite Ht. lia.
Qed.

Lemma waitSshUp_loop_probes self n w :
  (probes (snd (waitSshUp_loop self n w)) <= probes w + n)%nat.
Proof.
  revert w. induction n as [|n IH]; intros w; simpl; [lia|].
  pose proof (waitSshUp_turn_probes self w) as Hturn.
  unfold mbind, M_bind, bind at 1.
  destruct (try_except _ _ w) as [[up|e|f a] w1]; simpl in *; try lia.
  destruct up; simpl; [lia|].
  specialize (IH w1). lia.
Qed.

Lemma failed_probe_published self w port d argv :
  published self w port d -> published self (failed_probe argv w) port d.
Proof. by apply published_same. Qed.

(** When every one of the next [n] probes fails, the loop sleeps after
    each and returns [False]. *)
Lemma waitSshUp_loop_all_fail self port d n w :
  published self w port d ->
  "ssh" ∈ h_programs (w_host w) ->
  (forall i, (i < n)%nat -> h_ssh_exit (w_host w) (w_ssh_calls w + i)%nat <> 0) ->
  waitSshUp_loop self n w = (Ret false, failed_probes n (probe_argv port d) w).
Proof.
  revert w. induction n as [|n IH]; intros w Hpub Hssh Hfail; simpl; [done|].
  erewrite bind_Ret; cycle 1.
  - eapply try_except_caught.
    + erewrite bind_Ret; last by apply getSshCommand_published.
      erewrite bind_Raise; first reflexivity.
      unfold check_call, ssh_argv. simpl.
      rewrite bool_decide_eq_true_2 by done.
      specialize (Hfail O ltac:(lia)). rewrite Nat.add_0_r in Hfail.
      apply Z.eqb_neq in Hfail. rewrite Hfail. reflexivity.
    + reflexivity.
    + reflexivity.
  - simpl. apply IH.
    + by apply failed_probe_published.
    + done.
    + intros i Hi. simpl. specialize (Hfail (S i) ltac:(lia)).
      by rewrite Nat.add_succ_r in Hfail.
Qed.

Lemma failed_probes_facts n argv w :
  w_host (failed_probes n argv w) = w_host w /\
  w_containers (failed_probes n argv w) = w_containers w /\
  probes (failed_probes n argv w) = (probes w + n)%nat /\
  half_second_sleeps (failed_probes n argv w) = (half_second_sleeps w + n)%nat /\
  w_clock_ms (failed_probes n argv w) = (w_clock_ms w + 500 * Z.of_nat n)%Z.
Proof.
  revert w. induction n as [|n IH]; intros w.
  - simpl. repeat split; lia.
  - cbn [failed_probes]. destruct (IH (failed_probe argv w)) as (-> & -> & -> & -> & ->).
    unfold probes, half_second_sleeps. simpl.
    rewrite !count_events_app. simpl. repeat split; lia.
Qed.

(** C10. With the container up, [ssh] installed and each of the next 40
    probes failing, [processEnterStart] for [exec], and for [enter] outside
    a tmux session, ends in [os.execvp] of the SSH command followed by the
    command of the action, after exactly 40 probes and 40 sleeps of half a
    second; whatever [waitSshUp] returns, [shell] runs next in the world it
    left; and [waitSshUp] never runs more than 40 probes. *)
Theorem processEnterStart_ignores_waitSshUp self args w port d :
  published self w port d ->
  "ssh" ∈ h_programs (w_host w) ->
  (forall i, (i < 40)%nat -> h_ssh_exit (w_host w) (w_ssh_calls w + i)%nat <> 0) ->
  (action args = "exec" ->
   exists w',
     processEnterStart self args w =
       (Exec "ssh" (ssh_argv port d ++ "-t" :: shellCmd args), w') /\
     probes w' = (probes w + 40)%nat /\
     half_second_sleeps w' = (half_second_sleeps w + 40)%nat /\
     w_clock_ms w' = (w_clock_ms w + 20000)%Z) /\
  (action args = "enter" ->
   (tmux args || tmuxControl args = true -> h_TMUX (w_host w) = None) ->
   exists w',
     processEnterStart self args w =
       (Exec "ssh" (ssh_argv port d ++ enter_cmd args), w') /\
     probes w' = (probes w + 40)%nat /\
     half_second_sleeps w' = (half_second_sleeps w + 40)%nat /\
     w_clock_ms w' = (w_clock_ms w + 20000)%Z) /\
  (forall (cmd : list string) (up : bool) w0 w1,
     waitSshUp self w0 = (Ret up, w1) ->
     (waitSshUp self;; shell self (Some cmd)) w0 = shell (A:=unit) self (Some cmd) w1) /\
  (forall w0, (probes (snd (waitSshUp self w0)) <= probes w0 + 40)%nat).
Proof.
  intros Hpub Hssh Hfail.
  assert (Hrun : isRunning self w = (Ret true, w)).
  { destruct Hpub as (name & c & ? & ? & ? & Hn & _ & Hf & Hc & _).
    by eapply isRunning_present. }
  assert (Hwait : forall msg,
    let w0 := set_trace (fun t => t ++ [EvLog "info" msg]) w in
    waitSshUp self w0 = (Ret false, failed_probes 40 (probe_argv port d) w0)).
  { intros msg w0. apply waitSshUp_loop_all_fail; [by eapply published_same|done|done]. }
  assert (Hshell : forall msg cmd,
    let w0 := set_trace (fun t => t ++ [EvLog "info" msg]) w in
    let w1 := failed_probes 40 (probe_argv port d) w0 in
    shell (A:=unit) self (Some cmd) w1 = (Exec "ssh" (ssh_argv port d ++ cmd), w1) /\
    probes w1 = (probes w + 40)%nat /\
    half_second_sleeps w1 = (half_second_sleeps w + 40)%nat /\
    w_clock_ms w1 = (w_clock_ms w + 20000)%Z).
  { intros msg cmd w0 w1.
    destruct (failed_probes_facts 40 (probe_argv port d) w0) as (Hh & Hc & Hp & Hs & Hk).
    fold w1 in Hh, Hc, Hp, Hs, Hk. split; [|split; [|split]].
    - unfold shell. erewrite bind_Ret; cycle 1.
      + apply getSshCommand_published. by eapply published_same.
      + unfold os_execvp. rewrite Hh. cbn [w_host set_trace w0].
        rewrite bool_decide_eq_true_2 by done.
        by destruct cmd.
    - rewrite Hp. unfold probes. simpl. rewrite count_events_app. simpl. lia.
    - rewrite Hs. unfold half_second_sleeps. simpl. rewrite count_events_app. simpl. lia.
    - rewrite Hk. simpl. lia. }
  split; [|split; [|split]].
  - intros Hact. eexists. unfold processEnterStart.
    erewrite bind_Ret; last exact Hrun. simpl.
    erewrite bind_Ret; last reflexivity.
    rewrite Hact. simpl.
    erewrite bind_Ret; last reflexivity.
    erewrite bind_Ret; last apply Hwait.
    apply Hshell.
  - intros Hact Htmux. unfold processEnterStart, enter_cmd.
    destruct (tmux args || tmuxControl args) eqn:Hflags.
    + eexists.
      erewrite bind_Ret; last exact Hrun. simpl.
      erewrite bind_Ret; last reflexivity.
      rewrite Hact. simpl.
      erewrite bind_Ret; last reflexivity.
      rewrite (Htmux eq_refl). simpl.
      erewrite bind_Ret; last reflexivity.
      erewrite bind_Ret; last apply Hwait.
      apply Hshell.
    + eexists.
      erewrite bind_Ret; last exact Hrun. simpl.
      erewrite bind_Ret; last reflexivity.
      rewrite Hact. simpl.
      erewrite bind_Ret; last reflexivity.
      simpl.
      erewrite bind_Ret; last reflexivity.
      erewrite bind_Ret; last apply Hwait.
      apply Hshell.
  - intros cmd up w0 w1 Hw. by erewrite bind_Ret.
  - intros w0. apply waitSshUp_loop_probes.
Qed.

End Dispatch.

(** ** The configuration *)

Section Config.
Context `{Platform}.

(** A value of the override that is not [None] replaces the current
    value of a known key. *)
Lemma overrideConfig_present conf o k v x :
  conf !! k = Some v -> o !! k = Some x -> x <> PNone ->
  overrideConfig conf (Some o) !! k = Some x.
Proof.
  intros Hk Ho Hx. unfold overrideConfig.
  case_bool_decide as Hempty; [by subst; rewrite lookup_empty in Ho|].
  rewrite map_lookup_imap, Hk. simpl. unfold get_is_None. rewrite Ho.
  by destruct x.
Qed.

(** A value of the override that is [None] or missing replaces nothing. *)
Lemma overrideConfig_null conf o k :
  get_is_None o k = true -> overrideConfig conf (Some o) !! k = conf !! k.
Proof.
  intros Hnone. unfold overrideConfig. case_bool_decide; [done|].
  rewrite map_lookup_imap. destruct (conf !! k); simpl; [|done]. by rewrite Hnone.
Qed.

Lemma overrideConfig_no_override conf : overrideConfig conf None = conf.
Proof. reflexivity. Qed.

(** A key the configuration does not have is not taken from the
    override. *)
Lemma overrideConfig_unknown conf o k :
  conf !! k = None -> overrideConfig conf o !! k = None.
Proof.
  intros Hk. destruct o as [o|]; simpl; [|done].
  case_bool_decide; [done|]. by rewrite map_lookup_imap, Hk.
Qed.

(** [parseConfig] returns and keeps the set of keys, unless the file is
    not text: the [except] clause does not name [ValueError], so the
    [UnicodeDecodeError] of [read] leaves [parseConfig]. *)
Lemma parseConfig_undecodable conf w :
  w_fs w !! expanduser "~/.alidock-config.yaml" = Some Undecodable ->
  parseConfig conf w = (Raise UnicodeDecodeError, w).
Proof.
  intros Hfile. unfold parseConfig, try_except, mbind, M_bind, bind, open_read.
  by rewrite Hfile.
Qed.

Lemma parseConfig_returns conf w :
  w_fs w !! expanduser "~/.alidock-config.yaml" <> Some Undecodable ->
  exists conf', parseConfig conf w = (Ret conf', w) /\
                forall k, is_Some (conf' !! k) <-> is_Some (conf !! k).
Proof.
  intros Htext. unfold parseConfig, try_except, mbind, M_bind, bind, open_read.
  destruct (w_fs w !! expanduser "~/.alidock-config.yaml") as [[txt| |]|]; simpl;
    try (by exists conf); try done.
  destruct (yaml_safe_load txt) as [msg|m|]; simpl; try (by exists conf).
  eexists. split; [reflexivity|].
  intros k. rewrite map_lookup_imap. destruct (conf !! k); simpl; [|done].
  split; eauto.
Qed.

(** [__init__] does not return on a configuration file that is not
    text. *)
Lemma AliDock_init_undecodable override w :
  w_fs w !! expanduser "~/.alidock-config.yaml" = Some Undecodable ->
  AliDock_init override w = (Raise UnicodeDecodeError, w).
Proof.
  intros Hfile. unfold AliDock_init.
  erewrite bind_Raise; first reflexivity. by apply parseConfig_undecodable.
Qed.

Lemma AliDock_init_Ret_text override w a w' :
  AliDock_init override w = (Ret a, w') ->
  w_fs w !! expanduser "~/.alidock-config.yaml" <> Some Undecodable.
Proof.
  intros Hinit Hfile. by rewrite (AliDock_init_undecodable _ _ Hfile) in Hinit.
Qed.

Lemma args_dict_dontUpdateImage args :
  args_dict args !! "dontUpdateImage" = Some (PBool (dontUpdateImage args)).
Proof. reflexivity. Qed.

(** The record [entrypoint] passes to [AliDock] always carries a Boolean
    for [dontUpdateImage], so that key of the configuration is the state of
    the switch whatever the file says. *)
Lemma init_from_args_dontUpdateImage args w :
  w_fs w !! expanduser "~/.alidock-config.yaml" <> Some Undecodable ->
  exists a, AliDock_init (Some (args_dict args)) w = (Ret a, w) /\
            conf a !! "dontUpdateImage" = Some (PBool (dontUpdateImage args)).
Proof.
  intros Htext.
  destruct (parseConfig_returns default_conf w Htext) as (conf1 & Hparse & Hkeys).
  assert (is_Some (conf1 !! "dockName")) as [dn Hdn] by (apply Hkeys; by eexists).
  assert (is_Some (conf1 !! "dontUpdateImage")) as [du Hdu] by (apply Hkeys; by eexists).
  assert (exists x, overrideConfig conf1 (Some (args_dict args)) !! "dockName" = Some x)
    as [x Hx].
  { unfold overrideConfig. case_bool_decide; [by eauto|].
    rewrite map_lookup_imap, Hdn. simpl. destruct (get_is_None _ _); eauto. }
  eexists. split.
  - unfold AliDock_init.
    erewrite bind_Ret; last exact Hparse.
    erewrite bind_Ret; last by (unfold dict_get; rewrite Hx).
    erewrite bind_Ret; last reflexivity.
    reflexivity.
  - simpl. rewrite lookup_insert_ne by done.
    eapply overrideConfig_present; [exact Hdu|apply args_dict_dontUpdateImage|done].
Qed.

End Config.

Module Cli.

(** C6, at the failing input: the configuration file sets
    [dontUpdateImage: true] and the command line has no switch.  Built
    without override, the configuration takes [True] from the file; built
    from the parsed arguments, whose [dontUpdateImage] is the [False] of
    [default=False] and not [None], it holds [False]: the switch that was
    not given has replaced the value of the file. *)
Theorem absent_switch_replaces_file_value :
  exists args a0 a,
    parse_args Sample.no_switch Sample.world_with_config
      = (Ret args, Sample.world_with_config) /\
    cl_no_update_image Sample.no_switch = false /\
    AliDock_init None Sample.world_with_config = (Ret a0, Sample.world_with_config) /\
    conf a0 !! "dontUpdateImage" = Some (PBool true) /\
    AliDock_init (Some (args_dict args)) Sample.world_with_config
      = (Ret a, Sample.world_with_config) /\
    conf a !! "dontUpdateImage" = Some (PBool false).
Proof.
  do 3 eexists. split; [reflexivity|]. split; [reflexivity|].
  split; [vm_compute; reflexivity|]. split; [vm_compute; reflexivity|].
  split; [vm_compute; reflexivity|]. vm_compute; reflexivity.
Qed.

End Cli.

(** ** The theorems at work on the sample host *)


(** C5 on the sample host: an update is found and the state file still holds 1000. *)
Lemma hasUpdates_nag_keeps_timestamp_witness :
  conf Sample.aliDock !! "dirOutside" = Some (PStr "~/alidock") /\
  py_int (PInt 43200) = ret 43200 /\
  (now_of Sample.world - lastCheck Sample.world Sample.pip_check > 43200)%Z /\
  hasUpdates Sample.aliDock ".alidock_pip_check" (PInt 43200) true (ret true)
    Sample.world = (Ret true, Sample.world_checking) /\
  w_fs Sample.world_checking !! Sample.pip_check = Some (File "1000").
Proof.
  assert (conf Sample.aliDock !! "dirOutside" = Some (PStr "~/alidock")) as Hd
    by reflexivity.
  assert (py_int (PInt 43200) = ret 43200) as Hp by reflexivity.
  assert (now_of Sample.world - lastCheck Sample.world Sample.pip_check > 43200)%Z
    as Hdue by (vm_compute; reflexivity).
  split; [exact Hd|]. split; [exact Hp|]. split; [exact Hdue|].
  split; [|vm_compute; reflexivity].
  apply (hasUpdates_nag_keeps_timestamp Sample.aliDock ".alidock_pip_check"
           (PInt 43200) (ret true) Sample.world Sample.world_checking
           "~/alidock" 43200 Hd Hp Hdue eq_refl).
Defined.

(** C4 on the sample host: the check fails, the state file takes 100000
    and the error comes back; before the shared directory has been made
    the write fails and its [OSError] comes back instead. *)
Lemma hasUpdates_AliDockError_persist_then_reraise_witness :
  conf Sample.aliDock !! "dirOutside" = Some (PStr "~/alidock") /\
  py_int (PInt 43200) = ret 43200 /\
  (now_of Sample.world - lastCheck Sample.world Sample.docker_check > 43200)%Z /\
  (now_of Sample2.world_no_shared_dir
     - lastCheck Sample2.world_no_shared_dir Sample.docker_check > 43200)%Z /\
  (exists w2,
     hasUpdates Sample.aliDock ".alidock_docker_check" (PInt 43200) false
       (raise (AliDockError "registry unreachable")) Sample.world
     = (Raise (AliDockError "registry unreachable"), w2) /\
     w_fs w2 !! Sample.docker_check = Some (File "100000")) /\
  hasUpdates Sample.aliDock ".alidock_docker_check" (PInt 43200) false
    (raise (AliDockError "registry unreachable")) Sample2.world_no_shared_dir
  = (Raise (OSError ENOENT Sample.docker_check),
     checking Sample2.world_no_shared_dir).
Proof.
  assert (conf Sample.aliDock !! "dirOutside" = Some (PStr "~/alidock")) as Hd
    by reflexivity.
  assert (py_int (PInt 43200) = ret 43200) as Hp by reflexivity.
  assert (now_of Sample.world - lastCheck Sample.world Sample.docker_check > 43200)%Z
    as Hdue by (vm_compute; reflexivity).
  assert (now_of Sample2.world_no_shared_dir
            - lastCheck Sample2.world_no_shared_dir Sample.docker_check > 43200)%Z
    as Hdue' by (vm_compute; reflexivity).
  split; [exact Hd|]. split; [exact Hp|]. split; [exact Hdue|]. split; [exact Hdue'|].
  split.
  - destruct (hasUpdates_AliDockError_persist_then_reraise Sample.aliDock
                ".alidock_docker_check" (PInt 43200)
                (raise (AliDockError "registry unreachable"))
                Sample.world Sample.world_checking "~/alidock" 43200
                (AliDockError "registry unreachable") Hd Hp Hdue eq_refl)
      as (Hkept & _).
    destruct (Hkept eq_refl) as (_ & Hwrite & _).
    assert (writable (state_file "~/alidock" ".alidock_docker_check")
              Sample.world_checking = true) as Hw by (vm_compute; reflexivity).
    destruct (Hwrite Hw) as (w2 & Hres & _ & Hfile).
    exists w2. split; [exact Hres|exact Hfile].
  - destruct (hasUpdates_AliDockError_persist_then_reraise Sample.aliDock
                ".alidock_docker_check" (PInt 43200)
                (raise (AliDockError "registry unreachable"))
                Sample2.world_no_shared_dir (checking Sample2.world_no_shared_dir)
                "~/alidock" 43200
                (AliDockError "registry unreachable") Hd Hp Hdue' eq_refl)
      as (Hkept & _).
    destruct (Hkept eq_refl) as (_ & _ & Hfails).
    assert (writable (state_file "~/alidock" ".alidock_docker_check")
              (checking Sample2.world_no_shared_dir) = false) as Hw
      by (vm_compute; reflexivity).
    destruct (Hfails Hw) as (Hres & _). exact Hres.
Defined.


(** C7 on the sample host, with and without the container. *)
Lemma isRunning_spec_witness :
  conf Sample.aliDock !! "dockName" = Some (PStr "alidock-1000") /\
  isRunning Sample.aliDock Sample.world_up = (Ret true, Sample.world_up) /\
  isRunning Sample.aliDock Sample.world = (Ret false, Sample.world).
Proof.
  assert (conf Sample.aliDock !! "dockName" = Some (PStr "alidock-1000")) as Hn
    by reflexivity.
  split; [exact Hn|]. split.
  - destruct (isRunning_spec Sample.aliDock Sample.world_up "alidock-1000" Hn)
      as (Htrue & _ & _).
    apply Htrue. split; [reflexivity|]. exists Sample.container. reflexivity.
  - destruct (isRunning_spec Sample.aliDock Sample.world "alidock-1000" Hn)
      as (_ & Hfalse & _).
    apply Hfalse. eexists. reflexivity.
Defined.

(** C8 on the sample host without the container. *)
Lemma stop_idempotent_witness :
  conf Sample.aliDock !! "dockName" = Some (PStr "alidock-1000") /\
  h_daemon_fault (w_host Sample.world) = None /\
  w_containers Sample.world !! "alidock-1000" = None /\
  stop Sample.aliDock Sample.world = (Ret tt, Sample.world) /\
  (stop Sample.aliDock;; stop Sample.aliDock) Sample.world = (Ret tt, Sample.world).
Proof.
  assert (conf Sample.aliDock !! "dockName" = Some (PStr "alidock-1000")) as Hn
    by reflexivity.
  assert (h_daemon_fault (w_host Sample.world) = None) as Hf by reflexivity.
  assert (w_containers Sample.world !! "alidock-1000" = None) as Habs by reflexivity.
  split; [exact Hn|]. split; [exact Hf|]. split; [exact Habs|].
  destruct (stop_idempotent Sample.aliDock Sample.world "alidock-1000" Hn Hf)
    as (_ & Habsent).
  exact (Habsent Habs).
Defined.

(** C9 on the sample host, without and with the container. *)
Lemma status_exit_codes_witness :
  parse_args Sample.status_line Sample.world
    = (Ret Sample.status_args, Sample.world) /\
  action Sample.status_args = "status" /\
  h_uid (w_host Sample.world) <> 0 /\
  h_daemon_fault (w_host Sample.world) = None /\
  AliDock_init (Some (args_dict Sample.status_args))
    (quieted Sample.status_args Sample.world)
    = (Ret Sample.aliDock, quieted Sample.status_args Sample.world) /\
  conf Sample.aliDock !! "dockName" = Some (PStr "alidock-1000") /\
  client_check_completes Sample.aliDock (quieted Sample.status_args Sample.world) /\
  w_containers Sample.world !! "alidock-1000" = None /\
  fst (main Sample.status_line Sample.world) = Exited 1 /\
  fst (main Sample.status_line Sample.world_up) = Exited 0 /\
  w_containers (snd (main Sample.status_line Sample.world)) = ∅.
Proof.
  assert (action Sample.status_args = "status") as Hact by reflexivity.
  assert (h_uid (w_host Sample.world) <> 0) as Huid by discriminate.
  assert (h_daemon_fault (w_host Sample.world) = None) as Hf by reflexivity.
  assert (conf Sample.aliDock !! "dockName" = Some (PStr "alidock-1000")) as Hn
    by reflexivity.
  assert (client_check_completes Sample.aliDock
            (quieted Sample.status_args Sample.world)) as Hdone
    by (vm_compute; exact I).
  assert (w_containers Sample.world !! "alidock-1000" = None) as Habs by reflexivity.
  assert (AliDock_init (Some (args_dict Sample.status_args))
            (quieted Sample.status_args Sample.world)
          = (Ret Sample.aliDock, quieted Sample.status_args Sample.world)) as Hinit
    by (vm_compute; reflexivity).
  split; [reflexivity|]. split; [exact Hact|]. split; [exact Huid|].
  split; [exact Hf|]. split; [exact Hinit|]. split; [exact Hn|].
  split; [exact Hdone|]. split; [exact Habs|].
  assert (AliDock_init (Some (args_dict Sample.status_args))
            (quieted Sample.status_args Sample.world_up)
          = (Ret Sample.aliDock, quieted Sample.status_args Sample.world_up)) as Hinit'
    by (vm_compute; reflexivity).
  assert (client_check_completes Sample.aliDock
            (quieted Sample.status_args Sample.world_up)) as Hdone'
    by (vm_compute; exact I).
  destruct (status_exit_codes Sample.status_line Sample.status_args Sample.aliDock
              "alidock-1000" Sample.world eq_refl Hact Huid Hf Hinit Hn Hdone)
    as (_ & Hdown & _ & _ & Hsame & _).
  destruct (status_exit_codes Sample.status_line Sample.status_args Sample.aliDock
              "alidock-1000" Sample.world_up eq_refl Hact Huid Hf Hinit' Hn Hdone')
    as (Hup & _).
  split; [exact (proj2 (Hdown Habs))|]. split.
  - apply Hup. exists Sample.container. reflexivity.
  - rewrite Hsame. reflexivity.
Defined.

(** C10 on the sample host, where every probe exits with status 255. *)
Lemma processEnterStart_ignores_waitSshUp_witness :
  published Sample.aliDock Sample.world_up "32768" "~/alidock" /\
  "ssh" ∈ h_programs (w_host Sample.world_up) /\
  (forall i, (i < 40)%nat ->
     h_ssh_exit (w_host Sample.world_up) (w_ssh_calls Sample.world_up + i)%nat <> 0) /\
  exists w',
    processEnterStart Sample.aliDock Sample.exec_args Sample.world_up =
      (Exec "ssh" (ssh_argv "32768" "~/alidock" ++ ["-t"; "ls"; "-l"]), w') /\
    probes w' = 40%nat /\ w_clock_ms w' = 100020000%Z.
Proof.
  assert (published Sample.aliDock Sample.world_up "32768" "~/alidock") as Hpub.
  { exists "alidock-1000", Sample.container,
           {[ "22/tcp" := Some [ {| HostIp := "0.0.0.0"; HostPort := "32768" |} ] ]},
           {| HostIp := "0.0.0.0"; HostPort := "32768" |}, [].
    repeat split; reflexivity. }
  assert ("ssh" ∈ h_programs (w_host Sample.world_up)) as Hssh.
  { simpl. set_solver. }
  assert (forall i, (i < 40)%nat ->
    h_ssh_exit (w_host Sample.world_up) (w_ssh_calls Sample.world_up + i)%nat <> 0)
    as Hfail by (intros i _; discriminate).
  split; [exact Hpub|]. split; [exact Hssh|]. split; [exact Hfail|].
  destruct (processEnterStart_ignores_waitSshUp Sample.aliDock Sample.exec_args
              Sample.world_up "32768" "~/alidock" Hpub Hssh Hfail) as (Hexec & _).
  destruct (Hexec eq_refl) as (w' & Hrun & Hprobes & _ & Hclock).
  exists w'. split; [exact Hrun|]. split; [exact Hprobes|exact Hclock].
Defined.

(** * Further properties of the module *)

(** ** Building the configuration *)

Section Configuration.
Context `{Platform}.

(** What [__init__] returns, from what the file and the override give. *)
Lemma AliDock_init_eq override w conf1 base :
  parseConfig default_conf w = (Ret conf1, w) ->
  overrideConfig conf1 override !! "dockName" = Some base ->
  AliDock_init override w =
    (Ret {| dirInside := "/home/alidock";
            logRelative := ".alidock.log";
            conf := <["dockName" :=
                        PStr (py_str base +:+ "-" +:+ pretty (h_uid (w_host w)))]>
                      (overrideConfig conf1 override) |}, w).
Proof.
  intros Hparse Hbase. unfold AliDock_init.
  erewrite bind_Ret; last exact Hparse.
  erewrite bind_Ret; last by (unfold dict_get; rewrite Hbase).
  erewrite bind_Ret; last reflexivity.
  reflexivity.
Qed.

Lemma overrideConfig_keys conf override k :
  is_Some (overrideConfig conf override !! k) <-> is_Some (conf !! k).
Proof.
  destruct override as [o|]; simpl; [|done].
  case_bool_decide; [done|].
  rewrite map_lookup_imap. destruct (conf !! k) as [v|]; simpl; [|done].
  destruct (get_is_None o k); split; eauto.
Qed.


(** X2. [overrideConfig] keeps exactly the keys of the configuration; on a
    known key a value of the override that is not [None], falsy ones
    included, replaces the current value, and a value that is [None] or
    missing leaves it; without override, or with an empty one, nothing
    changes. *)
Theorem overrideConfig_spec conf override k :
  (is_Some (overrideConfig conf override !! k) <-> is_Some (conf !! k)) /\
  (forall o v x,
     override = Some o -> conf !! k = Some v -> o !! k = Some x -> x <> PNone ->
     overrideConfig conf override !! k = Some x) /\
  (forall o,
     override = Some o -> o !! k = None \/ o !! k = Some PNone ->
     overrideConfig conf override !! k = conf !! k) /\
  (override = None \/ override = Some ∅ -> overrideConfig conf override = conf).
Proof.
  split; [apply overrideConfig_keys|]. split; [|split].
  - intros o v x -> Hk Ho Hx. by eapply overrideConfig_present.
  - intros o -> Ho. apply overrideConfig_null. unfold get_is_None.
    by destruct Ho as [-> | ->].
  - intros [-> | ->]; [done|]. unfold overrideConfig.
    by rewrite bool_decide_eq_true_2.
Qed.

End Configuration.

(** ** The name of the container *)

Section ContainerName.
Context `{Platform}.

Lemma list_ascii_append a b :
  String.list_ascii_of_string (a +:+ b) =
  String.list_ascii_of_string a ++ String.list_ascii_of_string b.
Proof. induction a as [|c a IH]; simpl; [done|]. by rewrite IH. Qed.

Lemma drop_through_first c l1 l2 :
  c ∉ l1 -> drop_through c (l1 ++ c :: l2) = Some l2.
Proof.
  induction l1 as [|x l1 IH]; simpl; intros Hnot.
  - by rewrite bool_decide_eq_true_2.
  - rewrite bool_decide_eq_false_2; [apply IH|]; set_solver.
Qed.

(** Splitting at the last [c] gives back what stood before it. *)
Lemma py_rsplit1_head_append c a b :
  c ∉ String.list_ascii_of_string b ->
  py_rsplit1_head c (a +:+ String c b) = a.
Proof.
  intros Hnot. unfold py_rsplit1_head.
  rewrite list_ascii_append. simpl. rewrite rev_app_distr. simpl.
  rewrite <- app_assoc. simpl. rewrite drop_through_first.
  - by rewrite rev_involutive, string_of_list_ascii_of_string.
  - intros Hin. apply Hnot. apply list_elem_of_In, in_rev, list_elem_of_In, Hin.
Qed.

Lemma pretty_N_char_not_dash x : pretty_N_char x <> "-"%char.
Proof. unfold pretty_N_char. by repeat case_match. Qed.

Lemma pretty_N_go_no_dash x s :
  "-"%char ∉ String.list_ascii_of_string s ->
  "-"%char ∉ String.list_ascii_of_string (pretty_N_go x s).
Proof.
  revert s. induction (N.lt_wf_0 x) as [x _ IH]; intros s Hs.
  assert (x = 0 \/ 0 < x)%N as [->|Hpos] by lia.
  - by rewrite pretty_N_go_0.
  - rewrite pretty_N_go_step by done. apply IH; [by apply N.div_lt|].
    simpl. rewrite not_elem_of_cons. split; [|done].
    intros Heq. by eapply pretty_N_char_not_dash.
Qed.

(** The decimal numeral of a number that is not negative has no dash. *)
Lemma pretty_no_dash (z : Z) :
  (0 <= z)%Z -> "-"%char ∉ String.list_ascii_of_string (pretty z).
Proof.
  intros Hz. destruct z as [|p|p]; [| |lia].
  - simpl. rewrite not_elem_of_cons. split; [done|apply not_elem_of_nil].
  - unfold pretty, pretty_Z, pretty, pretty_positive, pretty, pretty_N.
    case_decide; [done|]. apply pretty_N_go_no_dash. simpl. apply not_elem_of_nil.
Qed.


(** X4. Without a configuration file and without override, [__init__] gives
    the built-in defaults, with [alidock-<uid>] for the name. *)
Theorem init_defaults w :
  w_fs w !! expanduser "~/.alidock-config.yaml" = None ->
  AliDock_init None w =
    (Ret {| dirInside := "/home/alidock";
            logRelative := ".alidock.log";
            conf := {[ "dockName" := PStr ("alidock-" +:+ pretty (h_uid (w_host w)));
                       "imageName" := PStr "alisw/alidock:latest";
                       "dirOutside" := PStr "~/alidock";
                       "updatePeriod" := PInt 43200;
                       "dontUpdateImage" := PBool false ]} |}, w).
Proof.
  intros Hfile.
  rewrite (AliDock_init_eq None w default_conf (PStr "alidock")).
  - simpl. do 3 f_equal.
  - unfold parseConfig, try_except, mbind, M_bind, bind, open_read.
    by rewrite Hfile.
  - reflexivity.
Qed.

(** X5. For a user id that is not negative, [rsplit("-", 1)[0]], which [run]
    applies to the name of the container, undoes the suffix [__init__]
    added: the name is what the split returns, a dash, and the user id,
    also when the base name has dashes of its own. *)
Theorem init_name_splits_back override w a name :
  (0 <= h_uid (w_host w))%Z ->
  AliDock_init override w = (Ret a, w) ->
  conf a !! "dockName" = Some (PStr name) ->
  name = py_rsplit1_head "-" name +:+ "-" +:+ pretty (h_uid (w_host w)).
Proof.
  intros Huid Hinit Hname.
  destruct (parseConfig_returns default_conf w (AliDock_init_Ret_text _ _ _ _ Hinit))
    as (conf1 & Hparse & Hkeys).
  assert (is_Some (overrideConfig conf1 override !! "dockName")) as [base Hbase].
  { apply overrideConfig_keys, Hkeys. by eexists. }
  rewrite (AliDock_init_eq _ _ _ _ Hparse Hbase) in Hinit.
  injection Hinit as <-. simpl in Hname. rewrite lookup_insert_eq in Hname.
  injection Hname as <-.
  change (py_str base +:+ "-" +:+ pretty (h_uid (w_host w)))
    with (py_str base +:+ String "-" (pretty (h_uid (w_host w)))).
  by rewrite py_rsplit1_head_append by by apply pretty_no_dash.
Qed.

End ContainerName.

(** ** The two update checks *)

Section UpdateChecks.
Context `{Platform}.

Lemma open_write_lookup p txt w w' :
  open_write p txt w = (Ret tt, w') -> w_fs w' !! p = Some (File txt).
Proof. intros ->%open_write_Ret. simpl. apply lookup_insert_eq. Qed.

(** A period that [int] rejects ends [hasUpdates] before the check. *)
Lemma hasUpdates_bad_period self sf up nag updateFunc w d e :
  conf self !! "dirOutside" = Some (PStr d) ->
  py_int up w = (Raise e, w) ->
  hasUpdates self sf up nag updateFunc w = (Raise e, w).
Proof.
  intros Hd Hp. unfold hasUpdates.
  erewrite bind_Ret; last by apply conf_str_Ret.
  erewrite bind_Ret; last by apply read_state_file.
  erewrite bind_Ret; last by reflexivity.
  erewrite bind_Raise; last exact Hp. reflexivity.
Qed.

(** The due part with [nagOnUpdate] unset, after a check that returns. *)
Lemma due_part_returned tsFn now updateFunc w b w1 :
  updateFunc (checking w) = (Ret b, w1) ->
  due_part tsFn now false updateFunc w =
    if writable tsFn w1
    then (Ret b, set_fs (insert tsFn (File (pretty now))) w1)
    else (Raise (write_error tsFn w1), w1).
Proof.
  intros Hf. unfold due_part, mbind, M_bind, bind, try_except, emit.
  fold (checking w). rewrite Hf. simpl. rewrite open_write_cases.
  by destruct (writable tsFn w1).
Qed.

(** X6. With [nagOnUpdate] unset, a check that is due and returns is
    followed by the write of [now] into the state file.  When the state
    file can be written, it then holds [now] and the result of the check
    is returned; provided [int] reads back what [str] wrote, a later call
    that finds the state file as it was left, not more than the period
    after that check, returns [False] in the world it started in, whatever
    its check function is.  When the state file cannot be written (its
    directory is not there, or the path is a directory), the [OSError] of
    the write is raised, the result of the check is lost and nothing has
    been written. *)
Theorem hasUpdates_persists_then_debounces
    self sf up updateFunc w w1 b d period :
  conf self !! "dirOutside" = Some (PStr d) ->
  py_int up = ret period ->
  (now_of w - lastCheck w (state_file d sf) > period)%Z ->
  updateFunc (checking w) = (Ret b, w1) ->
  (writable (state_file d sf) w1 = true ->
   exists w2,
     hasUpdates self sf up false updateFunc w = (Ret b, w2) /\
     w2 = set_fs (insert (state_file d sf) (File (pretty (now_of w)))) w1 /\
     w_fs w2 !! state_file d sf = Some (File (pretty (now_of w))) /\
     (int_of_str (pretty (now_of w)) = Some (now_of w) ->
      forall w3 updateFunc',
        w_fs w3 !! state_file d sf = w_fs w2 !! state_file d sf ->
        (now_of w3 - now_of w <= period)%Z ->
        hasUpdates self sf up false updateFunc' w3 = (Ret false, w3))) /\
  (writable (state_file d sf) w1 = false ->
   hasUpdates self sf up false updateFunc w
     = (Raise (write_error (state_file d sf) w1), w1) /\
   is_OSError (write_error (state_file d sf) w1) = true).
Proof.
  intros Hd Hp Hdue Hf.
  assert (hasUpdates self sf up false updateFunc w =
          due_part (state_file d sf) (now_of w) false updateFunc w) as Hcall.
  { rewrite (hasUpdates_unfold _ _ _ _ _ _ _ _ Hd Hp).
    by destruct (Z.gtb_spec (now_of w - lastCheck w (state_file d sf)) period); [|lia]. }
  rewrite Hcall, (due_part_returned _ _ _ _ _ _ Hf). split.
  - intros Hw. rewrite Hw. eexists. split; [reflexivity|]. split; [reflexivity|].
    assert (w_fs (set_fs (insert (state_file d sf) (File (pretty (now_of w)))) w1)
              !! state_file d sf = Some (File (pretty (now_of w)))) as Hfile
      by (simpl; apply lookup_insert_eq).
    split; [exact Hfile|].
    intros Hint w3 updateFunc' Hsame Hnear.
    rewrite (hasUpdates_unfold _ _ _ _ _ _ _ _ Hd Hp).
    assert (lastCheck w3 (state_file d sf) = now_of w) as ->.
    { unfold lastCheck. rewrite Hsame, Hfile, Hint. reflexivity. }
    destruct (Z.gtb_spec (now_of w3 - now_of w) period); [lia|done].
  - intros Hw. by rewrite Hw.
Qed.

(** X7. The check of the image: a local image that is missing means no
    update, without asking the registry; a local image with a digest is
    compared with the digest the registry publishes; a local image without
    digest, a digest entry without [@], and a registry that does not know
    the image give an [AliDockError]; when the runtime itself fails, a
    [NotFound] means no update, any other [APIError] becomes an
    [AliDockError] with the same text, and an error of another class
    passes as it is. *)
Theorem imageUpdateFunc_spec self w img :
  conf self !! "imageName" = Some (PStr img) ->
  (h_daemon_fault (w_host w) = None ->
   (w_images w !! img = None -> imageUpdateFunc self w = (Ret false, w)) /\
   (forall first rest localHash availHash,
      w_images w !! img = Some (first :: rest) ->
      py_split "@" first !! 1%nat = Some localHash ->
      h_registry (w_host w) !! img = Some availHash ->
      imageUpdateFunc self w =
        (Ret (negb (String.eqb availHash localHash)),
         set_trace (fun t => t ++ [EvRegistryData img]) w)) /\
   (w_images w !! img = Some [] ->
    imageUpdateFunc self w = (Raise (AliDockError "list index out of range"), w)) /\
   (forall first rest,
      w_images w !! img = Some (first :: rest) ->
      py_split "@" first !! 1%nat = None ->
      imageUpdateFunc self w = (Raise (AliDockError "list index out of range"), w)) /\
   (forall first rest localHash,
      w_images w !! img = Some (first :: rest) ->
      py_split "@" first !! 1%nat = Some localHash ->
      h_registry (w_host w) !! img = None ->
      imageUpdateFunc self w =
        (Raise (AliDockError ("manifest unknown: " +:+ img)),
         set_trace (fun t => t ++ [EvRegistryData img]) w))) /\
  (forall e, h_daemon_fault (w_host w) = Some e ->
     imageUpdateFunc self w =
       if is_NotFound e then (Ret false, w)
       else if is_APIError e || is_IndexError e
            then (Raise (AliDockError (exn_str e)), w)
            else (Raise e, w)).
Proof.
  intros Himg. split.
  - intros Hf. repeat split.
    + intros Hnone.
      unfold imageUpdateFunc, try_except, mbind, M_bind, bind, conf_str, dict_get,
        images_get, daemon.
      rewrite Himg. simpl. by rewrite Hf, Hnone.
    + intros first rest localHash availHash Hloc Hsplit Hreg.
      unfold imageUpdateFunc, try_except, mbind, M_bind, bind, conf_str, dict_get,
        images_get, images_get_registry_data, daemon, list_index.
      rewrite Himg. simpl. rewrite Hf, Hloc. simpl. rewrite Hsplit. simpl.
      by rewrite Hf, Hreg.
    + intros Hloc.
      unfold imageUpdateFunc, try_except, mbind, M_bind, bind, conf_str, dict_get,
        images_get, daemon, list_index.
      rewrite Himg. simpl. by rewrite Hf, Hloc.
    + intros first rest Hloc Hsplit.
      unfold imageUpdateFunc, try_except, mbind, M_bind, bind, conf_str, dict_get,
        images_get, daemon, list_index.
      rewrite Himg. simpl. rewrite Hf, Hloc. simpl. by rewrite Hsplit.
    + intros first rest localHash Hloc Hsplit Hreg.
      unfold imageUpdateFunc, try_except, mbind, M_bind, bind, conf_str, dict_get,
        images_get, images_get_registry_data, daemon, list_index.
      rewrite Himg. simpl. rewrite Hf, Hloc. simpl. rewrite Hsplit. simpl.
      by rewrite Hf, Hreg.
  - intros e Hf.
    unfold imageUpdateFunc, try_except, mbind, M_bind, bind, conf_str, dict_get,
      images_get, daemon.
    rewrite Himg. simpl. rewrite Hf. by destruct e.
Qed.

Lemma imageUpdateFunc_compare self w img first rest localHash availHash :
  conf self !! "imageName" = Some (PStr img) ->
  h_daemon_fault (w_host w) = None ->
  w_images w !! img = Some (first :: rest) ->
  py_split "@" first !! 1%nat = Some localHash ->
  h_registry (w_host w) !! img = Some availHash ->
  imageUpdateFunc self w =
    (Ret (negb (String.eqb availHash localHash)),
     set_trace (fun t => t ++ [EvRegistryData img]) w).
Proof.
  intros Himg Hf Hloc Hsplit Hreg.
  unfold imageUpdateFunc, try_except, mbind, M_bind, bind, conf_str, dict_get,
    images_get, images_get_registry_data, daemon, list_index.
  rewrite Himg. simpl. rewrite Hf, Hloc. simpl. rewrite Hsplit. simpl.
  by rewrite Hf, Hreg.
Qed.

(** [hasImageUpdates] when the check is due and the runtime compares the
    two digests. *)
Lemma hasImageUpdates_due self w d img v up period first rest localHash availHash :
  conf self !! "dirOutside" = Some (PStr d) ->
  conf self !! "imageName" = Some (PStr img) ->
  conf self !! "dontUpdateImage" = Some v ->
  conf self !! "updatePeriod" = Some up ->
  truthy v = false ->
  py_int up = ret period ->
  h_daemon_fault (w_host w) = None ->
  (now_of w - lastCheck w (state_file d ".alidock_docker_check") > period)%Z ->
  w_images w !! img = Some (first :: rest) ->
  py_split "@" first !! 1%nat = Some localHash ->
  h_registry (w_host w) !! img = Some availHash ->
  hasImageUpdates self w =
    let wq := set_trace (fun t => t ++ [EvRegistryData img]) (checking w) in
    if writable (state_file d ".alidock_docker_check") w
    then (Ret (negb (String.eqb availHash localHash)),
          set_fs (insert (state_file d ".alidock_docker_check")
                    (File (pretty (now_of w)))) wq)
    else (Raise (write_error (state_file d ".alidock_docker_check") w), wq).
Proof.
  intros Hd Himg Hv Hup Hon Hp Hf Hdue Hloc Hsplit Hreg.
  assert (imageUpdateFunc self (checking w) =
          (Ret (negb (String.eqb availHash localHash)),
           set_trace (fun t => t ++ [EvRegistryData img]) (checking w))) as Hcheck
    by (by eapply imageUpdateFunc_compare).
  unfold hasImageUpdates.
  erewrite bind_Ret; last by (unfold dict_get; rewrite Hv).
  rewrite Hon.
  erewrite bind_Ret; last by (unfold dict_get; rewrite Hup).
  rewrite (hasUpdates_unfold _ _ _ _ _ _ _ _ Hd Hp).
  destruct (Z.gtb_spec (now_of w - lastCheck w
              (state_file d ".alidock_docker_check")) period); [|lia].
  by rewrite (due_part_returned _ _ _ _ _ _ Hcheck).
Qed.


(** X9. [hasClientUpdates] asks nothing when the installed version is the
    marker [LAST-TAG].  Otherwise, when the check is due, it sends one
    request: a published version gives the comparison with the installed
    one, a [RequestException] or [ValueError] gives an [AliDockError] with
    the same text, and an error of another class passes as it is.  In no
    case does the call change the file system. *)
Theorem hasClientUpdates_spec self w d up period :
  conf self !! "dirOutside" = Some (PStr d) ->
  conf self !! "updatePeriod" = Some up ->
  (h_version (w_host w) = "LAST-TAG" -> hasClientUpdates self w = (Ret false, w)) /\
  (h_version (w_host w) <> "LAST-TAG" ->
   py_int up = ret period ->
   (now_of w - lastCheck w (state_file d ".alidock_pip_check") > period)%Z ->
   let w' := set_trace
               (fun t => t ++ [EvHttpGet "https://pypi.org/pypi/alidock/json"])
               (checking w) in
   (forall v, h_pypi (w_host w) = PypiVersion v ->
      hasClientUpdates self w = (Ret (version_gt v (h_version (w_host w))), w')) /\
   (forall e, h_pypi (w_host w) = PypiFail e ->
      is_RequestException e || is_ValueError e = true ->
      hasClientUpdates self w = (Raise (AliDockError (exn_str e)), w')) /\
   (forall e, h_pypi (w_host w) = PypiFail e ->
      is_RequestException e || is_ValueError e = false ->
      hasClientUpdates self w = (Raise e, w'))) /\
  w_fs (snd (hasClientUpdates self w)) = w_fs w.
Proof.
  intros Hd Hup. split; [|split].
  - intros Htag. unfold hasClientUpdates.
    erewrite bind_Ret; last reflexivity. by rewrite Htag.
  - intros Htag Hp Hdue w'.
    assert (hasClientUpdates self w = clientUpdateFunc (checking w)) as ->.
    { unfold hasClientUpdates.
      erewrite bind_Ret; last reflexivity.
      apply String.eqb_neq in Htag. rewrite Htag.
      erewrite bind_Ret; last by (unfold dict_get; rewrite Hup).
      rewrite (hasUpdates_unfold _ _ _ _ _ _ _ _ Hd Hp).
      destruct (Z.gtb_spec (now_of w - lastCheck w
                  (state_file d ".alidock_pip_check")) period); [|lia].
      by rewrite due_part_nag. }
    unfold clientUpdateFunc, try_except, mbind, M_bind, bind, pypi_latest_version,
      host. simpl. repeat split.
    + intros v ->. by destruct (version_gt _ _).
    + intros e -> He. by rewrite He.
    + intros e -> He. by rewrite He.
  - unfold hasClientUpdates. unfold mbind, M_bind, bind at 1. unfold host at 1.
    destruct (String.eqb _ _); [done|].
    unfold mbind, M_bind, bind, dict_get. rewrite Hup. simpl.
    pose proof (hasUpdates_nag_world self ".alidock_pip_check" up
                  clientUpdateFunc w) as Hworld.
    rewrite clientUpdateFunc_world in Hworld.
    destruct (hasUpdates _ _ _ _ _ w) as [o w1]. simpl in *.
    by destruct Hworld as [-> | ->].
Qed.

End UpdateChecks.

(** ** Creating and removing the container *)

Section Lifecycle.
Context `{Platform}.

(** The [os.mkdir] of [run] with its [except] clause, on a shared
    directory that is there or can be made. *)
Lemma run_mkdir_ok d dirOutside w :
  shared_dir_usable d w ->
  try_except (os_mkdir (out_dir d))
    (fun exc =>
       match exc with
       | OSError errno _ => Some (
           isdir ← os_path_isdir (out_dir d);
           if negb isdir || negb (errno =? EEXIST)%Z then
             raise (AliDockError ("cannot create directory " +:+ dirOutside +:+
                                  " to share with container, check permissions"))
           else ret tt)
       | _ => None
       end) w
  = (Ret tt, with_shared_dir d w).
Proof.
  intros Huse. unfold with_shared_dir, try_except, os_mkdir.
  destruct (fs_isdir (w_fs w) (out_dir d)) eqn:Hdir; simpl.
  - unfold mbind, M_bind, bind, os_path_isdir. by rewrite Hdir.
  - destruct Huse as [? | (Hnone & Hne & Hparent)]; [congruence|].
    rewrite Hnone, Hparent. simpl.
    by rewrite bool_decide_eq_false_2.
Qed.

Lemma fs_isdir_not_root fs p : fs_isdir fs p = false -> p <> "/".
Proof.
  unfold fs_isdir. intros Hdir ->. by rewrite bool_decide_eq_true_2 in Hdir.
Qed.

(** Writing a file that is there again. *)
Lemma open_write_again p txt txt' w :
  fs_isdir (w_fs w) p = false -> parent_ok (w_fs w) p = true ->
  open_write p txt' (set_fs (insert p (File txt)) w)
  = (Ret tt, set_fs (insert p (File txt')) (set_fs (insert p (File txt)) w)).
Proof.
  intros Hdir Hparent. unfold open_write. simpl.
  assert (fs_isdir (<[p:=File txt]> (w_fs w)) p = false) as ->.
  { unfold fs_isdir. rewrite lookup_insert_eq.
    rewrite bool_decide_eq_false_2; [done|by eapply fs_isdir_not_root]. }
  assert (parent_ok (<[p:=File txt]> (w_fs w)) p = true) as ->; [|done].
  unfold parent_ok in *. apply orb_true_iff in Hparent as [Hcwd|Hup].
  - by rewrite Hcwd.
  - assert (dirname p <> p) as Hne by (intros Heq; rewrite Heq in Hup; congruence).
    apply orb_true_iff. right. unfold fs_isdir in *.
    by rewrite lookup_insert_ne.
Qed.

(** What a successful [run] does. *)
Lemma run_ok_trace self w name d img :
  conf self !! "dockName" = Some (PStr name) ->
  conf self !! "dirOutside" = Some (PStr d) ->
  conf self !! "imageName" = Some (PStr img) ->
  h_daemon_fault (w_host w) = None ->
  w_containers w !! name = None ->
  is_Some (w_images w !! img) \/ is_Some (h_registry (w_host w) !! img) ->
  shared_dir_usable d w ->
  init_script_writable d w ->
  exists w',
    run self w = (Ret true, w') /\
    w_host w' = w_host w /\
    w_containers w' = <[name := fresh_container img w]> (w_containers w) /\
    w_fs w' = <[init_script d := File (init_script_text self name w)]>
                (w_fs (with_shared_dir d w)) /\
    containers_started w' = S (containers_started w) /\
    probes w' = probes w /\
    w_trace w' = w_trace w ++
      [EvChmod (init_script d) 493;
       EvContainersRun img name [path_join (dirInside self) ".alidock-init.sh"]
         (dirInside self) (out_dir d)] /\
    (is_Some (w_images w !! img) -> w_images w' = w_images w).
Proof.
  intros Hn Hd Himg Hf Habs Havail Huse [Hnotdir Hparent].
  assert (w_host (with_shared_dir d w) = w_host w) as Hhost.
  { unfold with_shared_dir. by destruct (fs_isdir (w_fs w) (out_dir d)). }
  assert (w_containers (with_shared_dir d w) = w_containers w) as Hcont.
  { unfold with_shared_dir. by destruct (fs_isdir (w_fs w) (out_dir d)). }
  assert (w_images (with_shared_dir d w) = w_images w) as Himgs.
  { unfold with_shared_dir. by destruct (fs_isdir (w_fs w) (out_dir d)). }
  assert (w_trace (with_shared_dir d w) = w_trace w) as Htrace.
  { unfold with_shared_dir. by destruct (fs_isdir (w_fs w) (out_dir d)). }
  set (wm := with_shared_dir d w) in *.
  set (p := init_script d) in *.
  set (txt := init_script_text self name w).
  set (w3 := set_trace (fun t => t ++ [EvChmod p 493])
               (set_fs (insert p (File txt)) (set_fs (insert p (File "")) wm))).
  assert (run self w =
          (containers_run img name [path_join (dirInside self) ".alidock-init.sh"]
             (dirInside self) (out_dir d);; ret true) w3) as Hrun.
  { unfold run.
    erewrite bind_Ret; last by apply conf_str_Ret.
    erewrite bind_Ret; last by apply (run_mkdir_ok d d).
    erewrite bind_Ret; last reflexivity.
    erewrite bind_Ret; last reflexivity.
    erewrite bind_Ret;
      last by (unfold open_write; fold (out_dir d); fold (init_script d); fold p;
               fold wm; rewrite Hnotdir, Hparent).
    erewrite bind_Ret; last by apply conf_str_Ret.
    erewrite bind_Ret.
    2:{ fold (out_dir d). fold (init_script d). fold p.
        cbn [w_host set_fs]. fold wm. rewrite Hhost.
        by apply open_write_again. }
    erewrite bind_Ret.
    2:{ unfold os_chmod. cbn [w_fs set_fs]. by rewrite lookup_insert_eq. }
    erewrite bind_Ret; last by apply conf_str_Ret.
    erewrite bind_Ret; last by apply conf_str_Ret.
    reflexivity. }
  rewrite Hrun. clear Hrun. unfold mbind, M_bind, bind, containers_run, daemon.
  cbn [w_host w3 set_trace set_fs w_containers w_images].
  rewrite Hhost, Hcont, Himgs, Hf, Habs. simpl.
  destruct (w_images w !! img) as [digests|] eqn:Hlocal.
  - eexists. split; [reflexivity|].
    unfold containers_started, probes, w3.
    cbn [w_host w_containers w_fs w_trace w_images
         set_containers set_trace set_fs set_images].
    rewrite Hhost, Hcont, Htrace, Himgs, insert_insert_eq, !count_events_app.
    cbn [count_events is_EvContainersRun is_EvSshProbe].
    rewrite <- app_assoc.
    repeat split; try lia; done.
  - destruct Havail as [[? ?]|[digest Hreg]]; [done|]. rewrite Hreg.
    eexists. split; [reflexivity|].
    unfold containers_started, probes, w3.
    cbn [w_host w_containers w_fs w_trace w_images
         set_containers set_trace set_fs set_images].
    rewrite Hhost, Hcont, Htrace, insert_insert_eq, !count_events_app.
    cbn [count_events is_EvContainersRun is_EvSshProbe].
    rewrite <- app_assoc.
    repeat split; try lia; done.
Qed.

Lemma run_ok self w name d img :
  conf self !! "dockName" = Some (PStr name) ->
  conf self !! "dirOutside" = Some (PStr d) ->
  conf self !! "imageName" = Some (PStr img) ->
  h_daemon_fault (w_host w) = None ->
  w_containers w !! name = None ->
  is_Some (w_images w !! img) \/ is_Some (h_registry (w_host w) !! img) ->
  shared_dir_usable d w ->
  init_script_writable d w ->
  exists w',
    run self w = (Ret true, w') /\
    w_host w' = w_host w /\
    w_containers w' = <[name := fresh_container img w]> (w_containers w) /\
    w_fs w' = <[init_script d := File (init_script_text self name w)]>
                (w_fs (with_shared_dir d w)) /\
    containers_started w' = S (containers_started w) /\
    probes w' = probes w.
Proof.
  intros Hn Hd Himg Hf Habs Havail Huse Hwr.
  destruct (run_ok_trace self w name d img Hn Hd Himg Hf Habs Havail Huse Hwr)
    as (w' & ? & ? & ? & ? & ? & ? & _).
  by exists w'.
Qed.

Lemma published_fresh self w w' name d img :
  conf self !! "dockName" = Some (PStr name) ->
  conf self !! "dirOutside" = Some (PStr d) ->
  h_daemon_fault (w_host w) = None ->
  w_host w' = w_host w ->
  w_containers w' = <[name := fresh_container img w]> (w_containers w) ->
  published self w' (pretty (h_free_port (w_host w))) d.
Proof.
  intros Hn Hd Hf Hhost Hcont.
  exists name, (fresh_container img w),
         {[ "22/tcp" := Some [ {| HostIp := "0.0.0.0";
                                  HostPort := pretty (h_free_port (w_host w)) |} ] ]},
         {| HostIp := "0.0.0.0"; HostPort := pretty (h_free_port (w_host w)) |}, [].
  rewrite Hhost, Hcont, lookup_insert_eq. repeat split; try done.
Qed.

(** X10. [run] on a usable shared directory, with the runtime answering, no
    container of that name and the image at hand or in the registry:
    it returns [True]; the script in the shared directory holds the text
    rendered for the base name; one container has been started, under the
    configured name; and from then on [isRunning] is [True] and
    [getSshCommand] gives the command for the port the runtime chose. *)
Theorem run_starts_container self w name d img :
  conf self !! "dockName" = Some (PStr name) ->
  conf self !! "dirOutside" = Some (PStr d) ->
  conf self !! "imageName" = Some (PStr img) ->
  h_daemon_fault (w_host w) = None ->
  w_containers w !! name = None ->
  is_Some (w_images w !! img) \/ is_Some (h_registry (w_host w) !! img) ->
  shared_dir_usable d w ->
  init_script_writable d w ->
  exists w',
    run self w = (Ret true, w') /\
    w_fs w' !! init_script d = Some (File (init_script_text self name w)) /\
    w_containers w' = <[name := fresh_container img w]> (w_containers w) /\
    containers_started w' = S (containers_started w) /\
    isRunning self w' = (Ret true, w') /\
    getSshCommand self w' =
      (Ret (ssh_argv (pretty (h_free_port (w_host w))) d), w').
Proof.
  intros Hn Hd Himg Hf Habs Havail Huse Hwr.
  destruct (run_ok self w name d img Hn Hd Himg Hf Habs Havail Huse Hwr)
    as (w' & Hrun & Hhost & Hcont & Hfs & Hstarted & _).
  exists w'. split; [exact Hrun|]. split; [by rewrite Hfs, lookup_insert_eq|].
  split; [exact Hcont|]. split; [exact Hstarted|]. split.
  - eapply isRunning_present; [exact Hn|by rewrite Hhost|].
    by rewrite Hcont, lookup_insert_eq.
  - apply getSshCommand_published. by eapply published_fresh.
Qed.

(** X11. After a successful [run], [stop] removes the container again: the
    runtime has the containers it had before [run], and [isRunning] is
    [False]. *)
Theorem run_then_stop self w name d img :
  conf self !! "dockName" = Some (PStr name) ->
  conf self !! "dirOutside" = Some (PStr d) ->
  conf self !! "imageName" = Some (PStr img) ->
  h_daemon_fault (w_host w) = None ->
  w_containers w !! name = None ->
  is_Some (w_images w !! img) \/ is_Some (h_registry (w_host w) !! img) ->
  shared_dir_usable d w ->
  init_script_writable d w ->
  exists w' w'',
    run self w = (Ret true, w') /\
    stop self w' = (Ret tt, w'') /\
    w_containers w'' = w_containers w /\
    isRunning self w'' = (Ret false, w'').
Proof.
  intros Hn Hd Himg Hf Habs Havail Huse Hwr.
  destruct (run_ok self w name d img Hn Hd Himg Hf Habs Havail Huse Hwr)
    as (w' & Hrun & Hhost & Hcont & _).
  assert (h_daemon_fault (w_host w') = None) as Hf' by (by rewrite Hhost).
  assert (w_containers w' !! name = Some (fresh_container img w)) as Hthere
    by (by rewrite Hcont, lookup_insert_eq).
  eexists w', _. split; [exact Hrun|]. split; [|split].
  - unfold stop. apply try_except_Ret.
    erewrite bind_Ret; last by apply conf_str_Ret.
    erewrite bind_Ret; last by apply containers_get_present.
    unfold container_remove, daemon. rewrite Hf', Hthere. reflexivity.
  - simpl. rewrite Hcont. by apply delete_insert_id.
  - eapply isRunning_absent; [exact Hn|done|].
    simpl. by rewrite lookup_delete_eq.
Qed.


Lemma check_call_ssh_fails port d w :
  "ssh" ∈ h_programs (w_host w) ->
  h_ssh_exit (w_host w) (w_ssh_calls w) <> 0 ->
  check_call (probe_argv port d) w =
    (Raise (CalledProcessError (h_ssh_exit (w_host w) (w_ssh_calls w))),
     set_trace (fun t => t ++ [EvSshProbe (probe_argv port d)]) (set_ssh_calls S w)).
Proof.
  intros Hssh Hfail. unfold check_call, probe_argv, ssh_argv. simpl.
  rewrite bool_decide_eq_true_2 by done.
  apply Z.eqb_neq in Hfail. by rewrite Hfail.
Qed.

Lemma check_call_ssh_succeeds port d w :
  "ssh" ∈ h_programs (w_host w) ->
  h_ssh_exit (w_host w) (w_ssh_calls w) = 0 ->
  check_call (probe_argv port d) w =
    (Ret tt,
     set_trace (fun t => t ++ [EvSshProbe (probe_argv port d)]) (set_ssh_calls S w)).
Proof.
  intros Hssh Hok. unfold check_call, probe_argv, ssh_argv. simpl.
  rewrite bool_decide_eq_true_2 by done. by rewrite Hok.
Qed.

Lemma waitSshUp_loop_up self port d k : forall n w,
  published self w port d ->
  "ssh" ∈ h_programs (w_host w) ->
  (k < n)%nat ->
  (forall i, (i < k)%nat -> h_ssh_exit (w_host w) (w_ssh_calls w + i)%nat <> 0) ->
  h_ssh_exit (w_host w) (w_ssh_calls w + k)%nat = 0 ->
  waitSshUp_loop self n w = (Ret true, probed_until_up k (probe_argv port d) w).
Proof.
  induction k as [|k IH]; intros n w Hpub Hssh Hlt Hfail Hok.
  - destruct n as [|n]; [lia|]. simpl. rewrite Nat.add_0_r in Hok.
    erewrite bind_Ret; cycle 1.
    + apply try_except_Ret.
      erewrite bind_Ret; last by apply getSshCommand_published.
      erewrite bind_Ret; last by apply (check_call_ssh_succeeds port d).
      reflexivity.
    + reflexivity.
  - destruct n as [|n]; [lia|]. simpl.
    erewrite bind_Ret; cycle 1.
    + eapply try_except_caught.
      * erewrite bind_Ret; last by apply getSshCommand_published.
        erewrite bind_Raise; first reflexivity.
        apply (check_call_ssh_fails port d); [done|].
        specialize (Hfail O ltac:(lia)). by rewrite Nat.add_0_r in Hfail.
      * reflexivity.
      * reflexivity.
    + simpl. unfold probed_until_up. cbn [failed_probes].
      apply IH.
      * by apply failed_probe_published.
      * done.
      * lia.
      * intros i Hi. simpl. specialize (Hfail (S i) ltac:(lia)).
        by rewrite Nat.add_succ_r in Hfail.
      * simpl. by rewrite Nat.add_succ_r in Hok.
Qed.

(** X13. [waitSshUp] stops at the first probe that succeeds: when [k] probes
    fail and the next one succeeds, with [k] below 40, it returns [True]
    after [k + 1] probes and [k] sleeps of half a second. *)
Theorem waitSshUp_returns_at_first_success self port d k w :
  published self w port d ->
  "ssh" ∈ h_programs (w_host w) ->
  (k < 40)%nat ->
  (forall i, (i < k)%nat -> h_ssh_exit (w_host w) (w_ssh_calls w + i)%nat <> 0) ->
  h_ssh_exit (w_host w) (w_ssh_calls w + k)%nat = 0 ->
  exists w',
    waitSshUp self w = (Ret true, w') /\
    probes w' = (probes w + S k)%nat /\
    half_second_sleeps w' = (half_second_sleeps w + k)%nat /\
    w_clock_ms w' = (w_clock_ms w + 500 * Z.of_nat k)%Z.
Proof.
  intros Hpub Hssh Hlt Hfail Hok. eexists. split.
  - unfold waitSshUp. by eapply waitSshUp_loop_up.
  - destruct (failed_probes_facts k (probe_argv port d) w) as (_ & _ & Hp & Hs & Hc).
    unfold probed_until_up, probes, half_second_sleeps in *. simpl.
    rewrite !count_events_app, Hp, Hs, Hc. simpl. repeat split; lia.
Qed.

Lemma getSshCommand_absent self w name d :
  conf self !! "dockName" = Some (PStr name) ->
  conf self !! "dirOutside" = Some (PStr d) ->
  h_daemon_fault (w_host w) = None ->
  w_containers w !! name = None ->
  getSshCommand self w =
    (Raise (AliDockError (cannot_find_container (path_join d (logRelative self))
                            ("No such container: " +:+ name))), w).
Proof.
  intros Hn Hd Hf Habs. unfold getSshCommand.
  erewrite bind_Raise; first reflexivity.
  eapply try_except_caught.
  - erewrite bind_Ret; last by apply conf_str_Ret.
    erewrite bind_Raise; first reflexivity.
    by apply containers_get_absent.
  - reflexivity.
  - erewrite bind_Ret; last by apply conf_str_Ret. reflexivity.
Qed.

(** X14. [waitSshUp] retries only a probe that ran and failed.  When the
    container is not there, the [AliDockError] of [getSshCommand] leaves
    the loop at its first turn; when [ssh] is not installed, so does the
    [OSError] of the probe; in both cases no probe has run and no time has
    been slept. *)
Theorem waitSshUp_leaves_on_other_errors self w name d :
  conf self !! "dockName" = Some (PStr name) ->
  conf self !! "dirOutside" = Some (PStr d) ->
  h_daemon_fault (w_host w) = None ->
  (w_containers w !! name = None ->
   waitSshUp self w =
     (Raise (AliDockError (cannot_find_container (path_join d (logRelative self))
                             ("No such container: " +:+ name))), w)) /\
  (forall port, published self w port d -> "ssh" ∉ h_programs (w_host w) ->
   waitSshUp self w = (Raise (OSError ENOENT "ssh"), w)).
Proof.
  intros Hn Hd Hf. split.
  - intros Habs. unfold waitSshUp. simpl.
    erewrite bind_Raise; first reflexivity.
    eapply try_except_uncaught; [|reflexivity].
    erewrite bind_Raise; first reflexivity.
    by apply getSshCommand_absent.
  - intros port Hpub Hno. unfold waitSshUp. simpl.
    erewrite bind_Raise; first reflexivity.
    eapply try_except_uncaught; [|reflexivity].
    erewrite bind_Ret; last by apply getSshCommand_published.
    erewrite bind_Raise; first reflexivity.
    unfold check_call, ssh_argv. simpl. by rewrite bool_decide_eq_false_2.
Qed.

End Lifecycle.

(** ** The actions *)

Section Actions.
Context `{Platform}.

Lemma init_script_writable_trace d f w :
  init_script_writable d w -> init_script_writable d (set_trace f w).
Proof.
  unfold init_script_writable, with_shared_dir. simpl.
  by destruct (fs_isdir (w_fs w) (out_dir d)).
Qed.

(** [processEnterStart] for the action [start] once the container is
    known to be absent and the block around [hasImageUpdates] has returned
    in [wb]. *)
Lemma start_from_block self args w wb name d img :
  action args = "start" ->
  conf self !! "dockName" = Some (PStr name) ->
  conf self !! "dirOutside" = Some (PStr d) ->
  conf self !! "imageName" = Some (PStr img) ->
  h_daemon_fault (w_host w) = None ->
  w_containers w !! name = None ->
  try_except
    (upd ← hasImageUpdates self;
     if (upd : bool) then
       LOG_info "Updating container image, hold on";;
       pull self;;
       LOG_warning "Container updated, you may want to free some space with:";;
       LOG_warning "    docker system prune"
     else ret tt)
    (fun exc =>
       if is_AliDockError exc
       then Some (LOG_warning "Cannot update container image this time")
       else None) w = (Ret tt, wb) ->
  h_daemon_fault (w_host wb) = None ->
  w_containers wb !! name = None ->
  is_Some (w_images wb !! img) \/ is_Some (h_registry (w_host wb) !! img) ->
  shared_dir_usable d wb ->
  init_script_writable d wb ->
  exists w',
    processEnterStart self args w = (Ret tt, w') /\
    containers_started w' = S (containers_started wb) /\
    probes w' = probes wb /\
    isRunning self w' = (Ret true, w') /\
    processEnterStart self args w' =
      (Ret tt, set_trace (fun t => t ++ [EvLog "info" "Container is already running"]) w').
Proof.
  intros Hact Hn Hd Himg Hf Habs Hblock Hfb Habsb Havail Huse Hwr.
  set (wl := set_trace (fun t => t ++ [EvLog "info" "Creating container, hold on"]) wb).
  destruct (run_ok self wl name d img Hn Hd Himg Hfb Habsb Havail Huse
              (init_script_writable_trace d _ wb Hwr))
    as (w' & Hrun & Hhost & Hcont & _ & Hstarted & Hprobes).
  assert (isRunning self w' = (Ret true, w')) as Hup.
  { eapply isRunning_present; [exact Hn|by rewrite Hhost|].
    by rewrite Hcont, lookup_insert_eq. }
  exists w'. split; [|split; [|split; [|split]]].
  - unfold processEnterStart.
    erewrite bind_Ret; last by eapply isRunning_absent. simpl.
    erewrite bind_Ret; cycle 1.
    { erewrite bind_Ret; last exact Hblock.
      erewrite bind_Ret; last reflexivity.
      erewrite bind_Ret; last exact Hrun.
      reflexivity. }
    rewrite Hact. reflexivity.
  - rewrite Hstarted. unfold containers_started, wl. simpl.
    rewrite count_events_app. simpl. lia.
  - rewrite Hprobes. unfold probes, wl. simpl.
    rewrite count_events_app. simpl. lia.
  - exact Hup.
  - unfold processEnterStart.
    erewrite bind_Ret; last exact Hup. simpl.
    erewrite bind_Ret; last reflexivity.
    rewrite Hact. reflexivity.
Qed.

(** X15. The action [start] with no container: when [hasImageUpdates] finds
    no update, and likewise when it raises [AliDockError] (which costs a
    warning and nothing more), the container is started once and no SSH
    probe is run; the container is then running, and a second [start] only
    reports that. *)
Theorem start_creates_container_once self args w w1 o name d img :
  action args = "start" ->
  conf self !! "dockName" = Some (PStr name) ->
  conf self !! "dirOutside" = Some (PStr d) ->
  conf self !! "imageName" = Some (PStr img) ->
  h_daemon_fault (w_host w) = None ->
  w_containers w !! name = None ->
  hasImageUpdates self w = (o, w1) ->
  o = Ret false \/ (exists msg, o = Raise (AliDockError msg)) ->
  h_daemon_fault (w_host w1) = None ->
  w_containers w1 !! name = None ->
  is_Some (w_images w1 !! img) \/ is_Some (h_registry (w_host w1) !! img) ->
  shared_dir_usable d w1 ->
  init_script_writable d w1 ->
  exists w',
    processEnterStart self args w = (Ret tt, w') /\
    containers_started w' = S (containers_started w1) /\
    probes w' = probes w1 /\
    isRunning self w' = (Ret true, w') /\
    processEnterStart self args w' =
      (Ret tt, set_trace (fun t => t ++ [EvLog "info" "Container is already running"]) w').
Proof.
  intros Hact Hn Hd Himg Hf Habs Hcheck Ho Hf1 Habs1 Havail Huse Hwr.
  destruct Ho as [-> | [msg ->]].
  - eapply (start_from_block self args w w1); try done.
    apply try_except_Ret. erewrite bind_Ret; last exact Hcheck. reflexivity.
  - set (wb := set_trace
                 (fun t => t ++ [EvLog "warning" "Cannot update container image this time"])
                 w1).
    destruct (start_from_block self args w wb name d img) as (w' & Hw'); try done.
    + eapply try_except_caught.
      * erewrite bind_Raise; first reflexivity. exact Hcheck.
      * reflexivity.
      * reflexivity.
    + by apply init_script_writable_trace.
    + exists w'. destruct Hw' as (? & Hs & Hp & ? & ?).
      unfold containers_started, probes, wb in Hs, Hp. simpl in Hs, Hp.
      rewrite count_events_app in Hs, Hp. simpl in Hs, Hp.
      unfold containers_started, probes. repeat split; try done; lia.
Qed.

Lemma init_script_writable_fs d w w' :
  w_fs w' = w_fs w -> init_script_writable d w -> init_script_writable d w'.
Proof.
  unfold init_script_writable, with_shared_dir. intros Hfs. rewrite Hfs.
  destruct (fs_isdir (w_fs w) (out_dir d)); simpl; by rewrite ?Hfs.
Qed.

Lemma shared_dir_usable_fs d w w' :
  w_fs w' = w_fs w -> shared_dir_usable d w -> shared_dir_usable d w'.
Proof. unfold shared_dir_usable. by intros ->. Qed.

(** [processEnterStart] for the action [start] once the block around
    [hasImageUpdates] has returned in [wb] with the image at hand: the
    calls made from there, and what the runtime holds afterwards. *)
Lemma start_from_block_trace self args w wb name d img :
  action args = "start" ->
  conf self !! "dockName" = Some (PStr name) ->
  conf self !! "dirOutside" = Some (PStr d) ->
  conf self !! "imageName" = Some (PStr img) ->
  h_daemon_fault (w_host w) = None ->
  w_containers w !! name = None ->
  try_except
    (upd ← hasImageUpdates self;
     if (upd : bool) then
       LOG_info "Updating container image, hold on";;
       pull self;;
       LOG_warning "Container updated, you may want to free some space with:";;
       LOG_warning "    docker system prune"
     else ret tt)
    (fun exc =>
       if is_AliDockError exc
       then Some (LOG_warning "Cannot update container image this time")
       else None) w = (Ret tt, wb) ->
  h_daemon_fault (w_host wb) = None ->
  w_containers wb !! name = None ->
  is_Some (w_images wb !! img) ->
  shared_dir_usable d wb ->
  init_script_writable d wb ->
  exists w',
    processEnterStart self args w = (Ret tt, w') /\
    w_trace w' = w_trace wb ++
      [EvLog "info" "Creating container, hold on";
       EvChmod (init_script d) 493;
       EvContainersRun img name [path_join (dirInside self) ".alidock-init.sh"]
         (dirInside self) (out_dir d)] /\
    w_images w' = w_images wb /\
    w_containers w' = <[name := fresh_container img wb]> (w_containers wb) /\
    isRunning self w' = (Ret true, w').
Proof.
  intros Hact Hn Hd Himg Hf Habs Hblock Hfb Habsb Hlocal Huse Hwr.
  set (wl := set_trace (fun t => t ++ [EvLog "info" "Creating container, hold on"]) wb).
  destruct (run_ok_trace self wl name d img Hn Hd Himg Hfb Habsb (or_introl Hlocal)
              Huse (init_script_writable_trace d _ wb Hwr))
    as (w' & Hrun & Hhost & Hcont & _ & _ & _ & Htrace & Himages).
  exists w'. split; [|split; [|split; [|split]]].
  - unfold processEnterStart.
    erewrite bind_Ret; last by eapply isRunning_absent. simpl.
    erewrite bind_Ret; cycle 1.
    { erewrite bind_Ret; last exact Hblock.
      erewrite bind_Ret; last reflexivity.
      erewrite bind_Ret; last exact Hrun.
      reflexivity. }
    rewrite Hact. reflexivity.
  - rewrite Htrace. unfold wl. simpl. by rewrite <- app_assoc.
  - by rewrite (Himages Hlocal).
  - exact Hcont.
  - eapply isRunning_present; [exact Hn|by rewrite Hhost|].
    by rewrite Hcont, lookup_insert_eq.
Qed.

(** X16. The action [start] with no container, when the check of the image
    is due, finds the local image older than the published one and can
    write its state file: the registry is asked, the image is pulled
    once, and only then is the container started, once, from that image
    under the configured name.  The calls are made in this order, with no
    SSH probe among them; afterwards the local image carries the published
    digest and the container is running. *)
Theorem start_pulls_then_creates
    self args w name d img v up period first rest localHash availHash :
  action args = "start" ->
  conf self !! "dockName" = Some (PStr name) ->
  conf self !! "dirOutside" = Some (PStr d) ->
  conf self !! "imageName" = Some (PStr img) ->
  conf self !! "dontUpdateImage" = Some v ->
  conf self !! "updatePeriod" = Some up ->
  truthy v = false ->
  py_int up = ret period ->
  h_daemon_fault (w_host w) = None ->
  w_containers w !! name = None ->
  (now_of w - lastCheck w (state_file d ".alidock_docker_check") > period)%Z ->
  w_images w !! img = Some (first :: rest) ->
  py_split "@" first !! 1%nat = Some localHash ->
  h_registry (w_host w) !! img = Some availHash ->
  availHash <> localHash ->
  writable (state_file d ".alidock_docker_check") w = true ->
  shared_dir_usable d
    (set_fs (insert (state_file d ".alidock_docker_check")
               (File (pretty (now_of w)))) w) ->
  init_script_writable d
    (set_fs (insert (state_file d ".alidock_docker_check")
               (File (pretty (now_of w)))) w) ->
  exists w',
    processEnterStart self args w = (Ret tt, w') /\
    w_trace w' = w_trace w ++
      [EvUpdateFunc;
       EvRegistryData img;
       EvLog "info" "Updating container image, hold on";
       EvImagePull img;
       EvLog "warning" "Container updated, you may want to free some space with:";
       EvLog "warning" "    docker system prune";
       EvLog "info" "Creating container, hold on";
       EvChmod (init_script d) 493;
       EvContainersRun img name [path_join (dirInside self) ".alidock-init.sh"]
         (dirInside self) (out_dir d)] /\
    w_images w' !! img = Some [img +:+ "@" +:+ availHash] /\
    w_containers w' !! name = Some (fresh_container img w) /\
    image_pulls w' = S (image_pulls w) /\
    containers_started w' = S (containers_started w) /\
    probes w' = probes w /\
    isRunning self w' = (Ret true, w').
Proof.
  intros Hact Hn Hd Himg Hv Hup Hon Hp Hf Habs Hdue Hloc Hsplit Hreg Hne Hw Huse Hwr.
  set (tsFn := state_file d ".alidock_docker_check") in *.
  set (w1 := set_fs (insert tsFn (File (pretty (now_of w))))
               (set_trace (fun t => t ++ [EvRegistryData img]) (checking w))).
  set (wl := set_trace
               (fun t => t ++ [EvLog "info" "Updating container image, hold on"]) w1).
  set (w2 := set_images (insert img [img +:+ "@" +:+ availHash])
               (set_trace (fun t => t ++ [EvImagePull img]) wl)).
  set (wb := set_trace (fun t => t ++ [EvLog "warning" "    docker system prune"])
               (set_trace (fun t => t ++ [EvLog "warning"
                  "Container updated, you may want to free some space with:"]) w2)).
  assert (hasImageUpdates self w = (Ret true, w1)) as Hcheck.
  { rewrite (hasImageUpdates_due self w d img v up period first rest localHash
               availHash Hd Himg Hv Hup Hon Hp Hf Hdue Hloc Hsplit Hreg).
    cbv zeta. fold tsFn. rewrite Hw.
    apply String.eqb_neq in Hne. by rewrite Hne. }
  assert (pull self wl = (Ret tt, w2)) as Hpull.
  { unfold pull, try_except, mbind, M_bind, bind, conf_str, dict_get,
      images_pull, daemon.
    rewrite Himg. simpl. by rewrite Hf, Hreg. }
  assert (try_except
    (upd ← hasImageUpdates self;
     if (upd : bool) then
       LOG_info "Updating container image, hold on";;
       pull self;;
       LOG_warning "Container updated, you may want to free some space with:";;
       LOG_warning "    docker system prune"
     else ret tt)
    (fun exc =>
       if is_AliDockError exc
       then Some (LOG_warning "Cannot update container image this time")
       else None) w = (Ret tt, wb)) as Hblock.
  { apply try_except_Ret. erewrite bind_Ret; last exact Hcheck.
    cbv beta iota.
    erewrite bind_Ret; last reflexivity.
    erewrite bind_Ret; last exact Hpull.
    reflexivity. }
  assert (is_Some (w_images wb !! img)) as Hlocal
    by (eexists; simpl; apply lookup_insert_eq).
  assert (shared_dir_usable d wb) as Huseb
    by (by eapply shared_dir_usable_fs; [|exact Huse]).
  assert (init_script_writable d wb) as Hwrb
    by (by eapply init_script_writable_fs; [|exact Hwr]).
  destruct (start_from_block_trace self args w wb name d img
              Hact Hn Hd Himg Hf Habs Hblock Hf Habs Hlocal Huseb Hwrb)
    as (w' & Hstart & Htrace & Himages & Hcont & Hup').
  assert (w_trace w' = w_trace w ++
    [EvUpdateFunc;
     EvRegistryData img;
     EvLog "info" "Updating container image, hold on";
     EvImagePull img;
     EvLog "warning" "Container updated, you may want to free some space with:";
     EvLog "warning" "    docker system prune";
     EvLog "info" "Creating container, hold on";
     EvChmod (init_script d) 493;
     EvContainersRun img name [path_join (dirInside self) ".alidock-init.sh"]
       (dirInside self) (out_dir d)]) as Hall.
  { rewrite Htrace. unfold wb, w2, wl, w1, checking. simpl.
    by rewrite <- !app_assoc. }
  exists w'. split; [exact Hstart|]. split; [exact Hall|].
  split; [rewrite Himages; simpl; apply lookup_insert_eq|].
  split; [rewrite Hcont; apply lookup_insert_eq|].
  unfold image_pulls, containers_started, probes. rewrite Hall.
  rewrite !count_events_app. simpl.
  split; [lia|]. split; [lia|]. split; [lia|exact Hup'].
Qed.

(** X17. [pull] turns a failure of the runtime that is an [APIError]
    ([NotFound] included) into an [AliDockError] with the same text, lets
    an error of any other class pass as it is, and returns when the
    registry has the image. *)
Theorem pull_translates_api_errors self w img :
  conf self !! "imageName" = Some (PStr img) ->
  (forall e, h_daemon_fault (w_host w) = Some e ->
     pull self w =
       if is_APIError e then (Raise (AliDockError (exn_str e)), w)
       else (Raise e, w)) /\
  (h_daemon_fault (w_host w) = None ->
   (h_registry (w_host w) !! img = None ->
    exists w', pull self w =
      (Raise (AliDockError ("pull access denied for " +:+ img)), w') /\
      w_images w' = w_images w) /\
   (forall digest, h_registry (w_host w) !! img = Some digest ->
    exists w', pull self w = (Ret tt, w') /\
               w_containers w' = w_containers w /\ w_fs w' = w_fs w)).
Proof.
  intros Himg. split.
  - intros e Hf. unfold pull, try_except, mbind, M_bind, bind, conf_str, dict_get,
      images_pull, daemon.
    rewrite Himg. simpl. rewrite Hf. by destruct e.
  - intros Hf. split.
    + intros Hreg. eexists. split.
      * unfold pull, try_except, mbind, M_bind, bind, conf_str, dict_get,
          images_pull, daemon.
        rewrite Himg. simpl. by rewrite Hf, Hreg.
      * reflexivity.
    + intros digest Hreg. eexists. split.
      * unfold pull, try_except, mbind, M_bind, bind, conf_str, dict_get,
          images_pull, daemon.
        rewrite Himg. simpl. by rewrite Hf, Hreg.
      * split; reflexivity.
Qed.

(** X18. The action [root] on a container that is there replaces the process
    with [docker exec -it <name> /bin/bash]: the SSH command is not built
    and no SSH probe is run. *)
Theorem root_bypasses_ssh self args w name c :
  action args = "root" ->
  conf self !! "dockName" = Some (PStr name) ->
  h_daemon_fault (w_host w) = None ->
  w_containers w !! name = Some c ->
  "docker" ∈ h_programs (w_host w) ->
  exists w',
    processEnterStart self args w =
      (Exec "docker" ["docker"; "exec"; "-it"; name; "/bin/bash"], w') /\
    probes w' = probes w /\
    w_containers w' = w_containers w.
Proof.
  intros Hact Hn Hf Hc Hdocker. eexists. split.
  - unfold processEnterStart.
    erewrite bind_Ret; last by eapply isRunning_present. simpl.
    erewrite bind_Ret; last reflexivity.
    rewrite Hact. simpl.
    erewrite bind_Ret; last reflexivity.
    unfold rootShell.
    erewrite bind_Ret; last by apply conf_str_Ret.
    unfold os_execvp. simpl. by rewrite bool_decide_eq_true_2.
  - unfold probes. simpl. rewrite count_events_app. simpl. split; [lia|done].
Qed.

(** X19. The action [enter] with [--tmux] or [--tmux-control] from inside a
    tmux session, on a container that is there, raises the
    [AliDockError] "already in a tmux session" before anything else
    happens: no message, no SSH probe, no change. *)
Theorem enter_inside_tmux_refused self args w name c session :
  action args = "enter" ->
  tmux args || tmuxControl args = true ->
  h_TMUX (w_host w) = Some session ->
  conf self !! "dockName" = Some (PStr name) ->
  h_daemon_fault (w_host w) = None ->
  w_containers w !! name = Some c ->
  processEnterStart self args w =
    (Raise (AliDockError "already in a tmux session"), w).
Proof.
  intros Hact Hflags Htmux Hn Hf Hc. unfold processEnterStart.
  erewrite bind_Ret; last by eapply isRunning_present. simpl.
  erewrite bind_Ret; last reflexivity.
  rewrite Hact. simpl.
  erewrite bind_Ret; last reflexivity.
  rewrite Hflags, Htmux. simpl. reflexivity.
Qed.

(** X20. After [processStop], with the runtime answering, the container of
    the configured name is gone, whether it was there or not, and
    [processStatus] leaves by [exit(1)]. *)
Theorem stop_then_status self w name :
  conf self !! "dockName" = Some (PStr name) ->
  h_daemon_fault (w_host w) = None ->
  exists w',
    processStop self w = (Ret tt, w') /\
    w_containers w' = delete name (w_containers w) /\
    fst (processStatus self w') = Raise (SystemExit 1).
Proof.
  intros Hn Hf.
  set (wl := set_trace (fun t => t ++ [EvLog "info" "Destroying the container"]) w).
  assert (exists w', stop self wl = (Ret tt, w') /\
                     w_host w' = w_host w /\
                     w_containers w' = delete name (w_containers w))
    as (w' & Hstop & Hhost & Hcont).
  { destruct (w_containers w !! name) as [c|] eqn:Hc.
    - eexists. split.
      + unfold stop. apply try_except_Ret.
        erewrite bind_Ret; last by apply conf_str_Ret.
        erewrite bind_Ret; last by apply containers_get_present.
        unfold container_remove, daemon. simpl. by rewrite Hf, Hc.
      + split; reflexivity.
    - exists wl. split; [|split; [done|]].
      + unfold stop. eapply try_except_caught.
        * erewrite bind_Ret; last by apply conf_str_Ret.
          erewrite bind_Raise; first reflexivity.
          by apply containers_get_absent.
        * reflexivity.
        * reflexivity.
      + simpl. by rewrite delete_id. }
  exists w'. split; [|split; [exact Hcont|]].
  - unfold processStop. erewrite bind_Ret; last reflexivity. exact Hstop.
  - erewrite processStatus_absent; [reflexivity|exact Hn|by rewrite Hhost|].
    by rewrite Hcont, lookup_delete_eq.
Qed.

End Actions.

(** ** The process *)

Section Process.
Context `{Platform}.

(** X21. How [entrypoint] ends the process, from how [processActions] ends:
    a return is status 0 and a replaced process stays replaced; an
    [AliDockError] is status 10, an [APIError] of the runtime ([NotFound]
    included) status 11 and a [RequestException] status 12, each after one
    error message; [exit(code)] is status [code]; an exception of any other
    class reaches the interpreter, which ends with status 1. *)
Theorem main_exit_codes cl args w :
  parse_args cl w = (Ret args, w) ->
  (forall w1,
     processActions args (quieted args w) = (Ret tt, w1) ->
     main cl w = (Exited 0, w1)) /\
  (forall file argv w1,
     processActions args (quieted args w) = (Exec file argv, w1) ->
     main cl w = (Replaced file argv, w1)) /\
  (forall msg w1,
     processActions args (quieted args w) = (Raise (AliDockError msg), w1) ->
     main cl w =
       (Exited 10,
        set_trace (fun t => t ++ [EvLog "error" ("Cannot continue: " +:+ msg)]) w1)) /\
  (forall e w1,
     processActions args (quieted args w) = (Raise e, w1) ->
     is_APIError e = true ->
     main cl w =
       (Exited 11,
        set_trace (fun t => t ++ [EvLog "error" ("Docker error: " +:+ exn_str e)]) w1)) /\
  (forall msg w1,
     processActions args (quieted args w) = (Raise (RequestException msg), w1) ->
     main cl w =
       (Exited 12,
        set_trace (fun t => t ++ [EvLog "error"
          ("Cannot communicate to Docker, is it running? Full error: " +:+ msg)]) w1)) /\
  (forall code w1,
     processActions args (quieted args w) = (Raise (SystemExit code), w1) ->
     main cl w = (Exited code, w1)) /\
  (forall e w1,
     processActions args (quieted args w) = (Raise e, w1) ->
     is_AliDockError e || is_APIError e || is_RequestException e = false ->
     (forall code, e <> SystemExit code) ->
     main cl w = (Exited 1, w1)).
Proof.
  intros Hparse.
  assert (entrypoint cl w =
            try_except (processActions args)
              (fun exc =>
                 if is_AliDockError exc then Some (
                   LOG_error ("Cannot continue: " +:+ exn_str exc);;
                   exit 10)
                 else if is_APIError exc then Some (
                   LOG_error ("Docker error: " +:+ exn_str exc);;
                   exit 11)
                 else if is_RequestException exc then Some (
                   LOG_error ("Cannot communicate to Docker, is it running? Full error: " +:+
                              exn_str exc);;
                   exit 12)
                 else None) (quieted args w)) as Heq.
  { unfold entrypoint.
    erewrite bind_Ret; last exact Hparse.
    erewrite bind_Ret; last reflexivity. reflexivity. }
  unfold main. rewrite Heq. unfold try_except.
  repeat split.
  - intros w1 Hact. by rewrite Hact.
  - intros file argv w1 Hact. by rewrite Hact.
  - intros msg w1 Hact. by rewrite Hact.
  - intros e w1 Hact He. rewrite Hact. by destruct e.
  - intros msg w1 Hact. by rewrite Hact.
  - intros code w1 Hact. by rewrite Hact.
  - intros e w1 Hact He Hne. rewrite Hact. destruct e; try done.
    by destruct (Hne code).
Qed.

(** X22. Run by root, the program refuses every action: it reads no
    configuration, asks nothing of the package index or the runtime, logs
    the refusal and exits with status 10. *)
Theorem root_user_refused cl args w :
  parse_args cl w = (Ret args, w) ->
  h_uid (w_host w) = 0 ->
  main cl w =
    (Exited 10,
     set_trace (fun t => t ++ [EvLog "error"
       ("Cannot continue: " +:+
        "refusing to execute as root: use an unprivileged user account")])
       (quieted args w)).
Proof.
  intros Hparse Huid. unfold main, entrypoint.
  erewrite bind_Ret; last exact Hparse.
  erewrite bind_Ret; last reflexivity.
  assert (processActions args (quieted args w) =
          (Raise (AliDockError
             "refusing to execute as root: use an unprivileged user account"),
           quieted args w)) as Hact.
  { unfold processActions.
    erewrite bind_Ret; last reflexivity.
    cbn [w_host quieted set_trace]. rewrite Huid. reflexivity. }
  rewrite (try_except_caught _ _ _ _ _ _ _ Hact eq_refl eq_refl). reflexivity.
Qed.

Lemma init_from_args_updatePeriod args s w :
  w_fs w !! expanduser "~/.alidock-config.yaml" <> Some Undecodable ->
  updatePeriod args = Some s ->
  exists a, AliDock_init (Some (args_dict args)) w = (Ret a, w) /\
            conf a !! "updatePeriod" = Some (PStr s).
Proof.
  intros Htext Hs.
  destruct (parseConfig_returns default_conf w Htext) as (conf1 & Hparse & Hkeys).
  assert (is_Some (conf1 !! "updatePeriod")) as [up Hup] by (apply Hkeys; by eexists).
  assert (is_Some (overrideConfig conf1 (Some (args_dict args)) !! "dockName"))
    as [base Hbase].
  { apply overrideConfig_keys, Hkeys. by eexists. }
  eexists. split; [by apply AliDock_init_eq|].
  simpl. rewrite lookup_insert_ne by done.
  eapply overrideConfig_present; [exact Hup| |done].
  change (args_dict args !! "updatePeriod") with (Some (py_opt (updatePeriod args))).
  by rewrite Hs.
Qed.

(** X23. An update period given on the command line reaches [hasUpdates] as
    the string it was typed as.  When [int] rejects it, the [ValueError]
    of [hasClientUpdates] is not one of the errors [processActions] and
    [entrypoint] handle: whatever the action, the process ends with status
    1 before the package index or the runtime has been asked anything. *)
Theorem unparsable_update_period_ends_process cl args a s d w :
  parse_args cl w = (Ret args, w) ->
  updatePeriod args = Some s ->
  int_of_str s = None ->
  h_uid (w_host w) <> 0 ->
  h_version (w_host w) <> "LAST-TAG" ->
  AliDock_init (Some (args_dict args)) (quieted args w) = (Ret a, quieted args w) ->
  conf a !! "dirOutside" = Some (PStr d) ->
  main cl w = (Exited 1, quieted args w).
Proof.
  intros Hparse Hs Hint Huid Htag Hinit Hd.
  destruct (init_from_args_updatePeriod args s (quieted args w)
              (AliDock_init_Ret_text _ _ _ _ Hinit) Hs)
    as (a' & Hinit' & Hup).
  rewrite Hinit in Hinit'. injection Hinit' as <-.
  assert (hasClientUpdates a (quieted args w) =
          (Raise (ValueError ("invalid literal for int() with base 10: " +:+
                              py_repr_str s)), quieted args w)) as Hclient.
  { unfold hasClientUpdates.
    erewrite bind_Ret; last reflexivity.
    apply String.eqb_neq in Htag. cbn [w_host quieted set_trace]. rewrite Htag.
    erewrite bind_Ret; last by (unfold dict_get; rewrite Hup).
    eapply hasUpdates_bad_period; [exact Hd|].
    unfold py_int. by rewrite Hint. }
  unfold main, entrypoint.
  erewrite bind_Ret; last exact Hparse.
  erewrite bind_Ret; last reflexivity.
  assert (processActions args (quieted args w) =
          (Raise (ValueError ("invalid literal for int() with base 10: " +:+
                              py_repr_str s)), quieted args w)) as Hact.
  { unfold processActions.
    erewrite bind_Ret; last reflexivity.
    apply Z.eqb_neq in Huid. cbn [w_host quieted set_trace]. rewrite Huid.
    erewrite bind_Ret; last exact Hinit.
    erewrite bind_Raise; first reflexivity.
    eapply try_except_uncaught; [|reflexivity].
    erewrite bind_Raise; first reflexivity. exact Hclient. }
  rewrite (try_except_uncaught _ _ _ _ _ Hact eq_refl). reflexivity.
Qed.

End Process.

(** ** The further properties at work on the sample host *)



(** X4 on the sample host. Without configuration file, user 1000 gets the defaults. *)
Lemma init_defaults_witness :
  w_fs Sample.world !! expanduser "~/.alidock-config.yaml" = None /\
  exists a, AliDock_init None Sample.world = (Ret a, Sample.world) /\
            conf a !! "dockName" = Some (PStr "alidock-1000").
Proof.
  assert (w_fs Sample.world !! expanduser "~/.alidock-config.yaml" = None) as Hfile
    by reflexivity.
  split; [exact Hfile|]. eexists. split.
  - exact (init_defaults Sample.world Hfile).
  - reflexivity.
Defined.

(** X5 on the sample host. The name [alidock-1000] splits back into [alidock] and [1000]. *)
Lemma init_name_splits_back_witness :
  (0 <= h_uid (w_host Sample.world))%Z /\
  AliDock_init None Sample.world = (Ret Sample.aliDock, Sample.world) /\
  conf Sample.aliDock !! "dockName" = Some (PStr "alidock-1000") /\
  "alidock-1000" = py_rsplit1_head "-" "alidock-1000" +:+ "-" +:+ pretty 1000%Z.
Proof.
  assert (0 <= h_uid (w_host Sample.world))%Z as Huid by (simpl; lia).
  assert (AliDock_init None Sample.world = (Ret Sample.aliDock, Sample.world))
    as Hinit by (vm_compute; reflexivity).
  assert (conf Sample.aliDock !! "dockName" = Some (PStr "alidock-1000")) as Hn
    by reflexivity.
  split; [exact Huid|]. split; [exact Hinit|]. split; [exact Hn|].
  exact (init_name_splits_back None Sample.world Sample.aliDock "alidock-1000"
           Huid Hinit Hn).
Defined.

(** X6 on the sample host. A check at second 100000 that returns is followed
    by the write of 100000, and a call in the world it leaves is
    debounced; before the shared directory has been made the write fails
    and the result is lost. *)
Lemma hasUpdates_persists_then_debounces_witness :
  conf Sample.aliDock !! "dirOutside" = Some (PStr "~/alidock") /\
  py_int (PInt 43200) = ret 43200 /\
  (now_of Sample.world - lastCheck Sample.world Sample.docker_check > 43200)%Z /\
  int_of_str (pretty (now_of Sample.world)) = Some (now_of Sample.world) /\
  (exists w2,
     hasUpdates Sample.aliDock ".alidock_docker_check" (PInt 43200) false (ret true)
       Sample.world = (Ret true, w2) /\
     w_fs w2 !! Sample.docker_check = Some (File "100000") /\
     hasUpdates Sample.aliDock ".alidock_docker_check" (PInt 43200) false (ret true)
       w2 = (Ret false, w2)) /\
  hasUpdates Sample.aliDock ".alidock_docker_check" (PInt 43200) false (ret true)
    Sample2.world_no_shared_dir
  = (Raise (OSError ENOENT Sample.docker_check),
     checking Sample2.world_no_shared_dir).
Proof.
  assert (conf Sample.aliDock !! "dirOutside" = Some (PStr "~/alidock")) as Hd
    by reflexivity.
  assert (py_int (PInt 43200) = ret 43200) as Hp by reflexivity.
  assert (now_of Sample.world - lastCheck Sample.world Sample.docker_check > 43200)%Z
    as Hdue by (vm_compute; reflexivity).
  assert (now_of Sample2.world_no_shared_dir
            - lastCheck Sample2.world_no_shared_dir Sample.docker_check > 43200)%Z
    as Hdue' by (vm_compute; reflexivity).
  assert (int_of_str (pretty (now_of Sample.world)) = Some (now_of Sample.world))
    as Hint by (vm_compute; reflexivity).
  split; [exact Hd|]. split; [exact Hp|]. split; [exact Hdue|]. split; [exact Hint|].
  split.
  - destruct (hasUpdates_persists_then_debounces Sample.aliDock ".alidock_docker_check"
                (PInt 43200) (ret true) Sample.world Sample.world_checking
                true "~/alidock" 43200 Hd Hp Hdue eq_refl)
      as (Hwritten & _).
    assert (writable (state_file "~/alidock" ".alidock_docker_check")
              Sample.world_checking = true) as Hw by (vm_compute; reflexivity).
    destruct (Hwritten Hw) as (w2 & Hfirst & Hw2 & Hfile & Hnext).
    exists w2. split; [exact Hfirst|]. split; [exact Hfile|].
    apply (Hnext Hint w2 (ret true) eq_refl).
    rewrite Hw2. vm_compute. discriminate.
  - destruct (hasUpdates_persists_then_debounces Sample.aliDock ".alidock_docker_check"
                (PInt 43200) (ret true) Sample2.world_no_shared_dir
                (checking Sample2.world_no_shared_dir)
                true "~/alidock" 43200 Hd Hp Hdue' eq_refl)
      as (_ & Hfails).
    assert (writable (state_file "~/alidock" ".alidock_docker_check")
              (checking Sample2.world_no_shared_dir) = false) as Hw
      by (vm_compute; reflexivity).
    destruct (Hfails Hw) as (Hres & _). exact Hres.
Defined.

(** X7 on the sample host. A local digest AAA against a published BBB is an update. *)
Lemma imageUpdateFunc_spec_witness :
  conf Sample.aliDock !! "imageName" = Some (PStr "alisw/alidock:latest") /\
  h_daemon_fault (w_host Sample2.world_stale) = None /\
  imageUpdateFunc Sample.aliDock Sample2.world_stale =
    (Ret true,
     set_trace (fun t => t ++ [EvRegistryData "alisw/alidock:latest"])
       Sample2.world_stale) /\
  imageUpdateFunc Sample.aliDock Sample.world = (Ret false, Sample.world).
Proof.
  assert (conf Sample.aliDock !! "imageName" = Some (PStr "alisw/alidock:latest"))
    as Himg by reflexivity.
  assert (h_daemon_fault (w_host Sample2.world_stale) = None) as Hf by reflexivity.
  split; [exact Himg|]. split; [exact Hf|].
  destruct (imageUpdateFunc_spec Sample.aliDock Sample2.world_stale
              "alisw/alidock:latest" Himg) as (Hhealthy & _).
  destruct (Hhealthy Hf) as (_ & Hcompare & _).
  destruct (imageUpdateFunc_spec Sample.aliDock Sample.world
              "alisw/alidock:latest" Himg) as (Hhealthy' & _).
  destruct (Hhealthy' Hf) as (Hmissing & _).
  split.
  - exact (Hcompare "alisw/alidock@sha256:AAA" [] "sha256:AAA" "sha256:BBB"
             eq_refl eq_refl eq_refl).
  - exact (Hmissing eq_refl).
Defined.


(** X9 on the sample host. The installed version 1.0 against a published 1.0 is no update, and
    the file system is as before. *)
Lemma hasClientUpdates_spec_witness :
  conf Sample.aliDock !! "dirOutside" = Some (PStr "~/alidock") /\
  conf Sample.aliDock !! "updatePeriod" = Some (PInt 43200) /\
  h_version (w_host Sample.world) <> "LAST-TAG" /\
  (now_of Sample.world - lastCheck Sample.world Sample.pip_check > 43200)%Z /\
  fst (hasClientUpdates Sample.aliDock Sample.world) = Ret false /\
  w_fs (snd (hasClientUpdates Sample.aliDock Sample.world)) = w_fs Sample.world.
Proof.
  assert (conf Sample.aliDock !! "dirOutside" = Some (PStr "~/alidock")) as Hd
    by reflexivity.
  assert (conf Sample.aliDock !! "updatePeriod" = Some (PInt 43200)) as Hup
    by reflexivity.
  assert (h_version (w_host Sample.world) <> "LAST-TAG") as Htag by discriminate.
  assert (now_of Sample.world - lastCheck Sample.world Sample.pip_check > 43200)%Z
    as Hdue by (vm_compute; reflexivity).
  split; [exact Hd|]. split; [exact Hup|]. split; [exact Htag|]. split; [exact Hdue|].
  destruct (hasClientUpdates_spec Sample.aliDock Sample.world "~/alidock"
              (PInt 43200) 43200 Hd Hup) as (_ & Hcheck & Hfs).
  destruct (Hcheck Htag eq_refl Hdue) as (Hversion & _).
  split; [|exact Hfs].
  rewrite (Hversion "1.0" eq_refl). reflexivity.
Defined.

(** X10 on the sample host. [run] on the sample host starts the container of user 1000. *)
Lemma run_starts_container_witness :
  conf Sample.aliDock !! "dockName" = Some (PStr "alidock-1000") /\
  conf Sample.aliDock !! "dirOutside" = Some (PStr "~/alidock") /\
  conf Sample.aliDock !! "imageName" = Some (PStr "alisw/alidock:latest") /\
  h_daemon_fault (w_host Sample.world) = None /\
  w_containers Sample.world !! "alidock-1000" = None /\
  is_Some (h_registry (w_host Sample.world) !! "alisw/alidock:latest") /\
  shared_dir_usable "~/alidock" Sample.world /\
  init_script_writable "~/alidock" Sample.world /\
  exists w',
    run Sample.aliDock Sample.world = (Ret true, w') /\
    containers_started w' = 1%nat /\
    isRunning Sample.aliDock w' = (Ret true, w') /\
    getSshCommand Sample.aliDock w' = (Ret (ssh_argv "32768" "~/alidock"), w').
Proof.
  assert (conf Sample.aliDock !! "dockName" = Some (PStr "alidock-1000")) as Hn
    by reflexivity.
  assert (conf Sample.aliDock !! "dirOutside" = Some (PStr "~/alidock")) as Hd
    by reflexivity.
  assert (conf Sample.aliDock !! "imageName" = Some (PStr "alisw/alidock:latest"))
    as Himg by reflexivity.
  assert (h_daemon_fault (w_host Sample.world) = None) as Hf by reflexivity.
  assert (w_containers Sample.world !! "alidock-1000" = None) as Habs by reflexivity.
  assert (is_Some (h_registry (w_host Sample.world) !! "alisw/alidock:latest"))
    as Hreg by (exists "sha256:BBB"; reflexivity).
  assert (shared_dir_usable "~/alidock" Sample.world) as Huse
    by (left; vm_compute; reflexivity).
  assert (init_script_writable "~/alidock" Sample.world) as Hwr
    by (split; vm_compute; reflexivity).
  split; [exact Hn|]. split; [exact Hd|]. split; [exact Himg|]. split; [exact Hf|].
  split; [exact Habs|]. split; [exact Hreg|]. split; [exact Huse|].
  split; [exact Hwr|].
  destruct (run_starts_container Sample.aliDock Sample.world "alidock-1000"
              "~/alidock" "alisw/alidock:latest" Hn Hd Himg Hf Habs
              (or_intror Hreg) Huse Hwr)
    as (w' & Hrun & _ & _ & Hstarted & Hup & Hssh).
  exists w'. split; [exact Hrun|]. split; [exact Hstarted|].
  split; [exact Hup|exact Hssh].
Defined.

(** X11 on the sample host. [run] and then [stop] on the sample host leave no container. *)
Lemma run_then_stop_witness :
  conf Sample.aliDock !! "dockName" = Some (PStr "alidock-1000") /\
  conf Sample.aliDock !! "dirOutside" = Some (PStr "~/alidock") /\
  conf Sample.aliDock !! "imageName" = Some (PStr "alisw/alidock:latest") /\
  h_daemon_fault (w_host Sample.world) = None /\
  w_containers Sample.world !! "alidock-1000" = None /\
  is_Some (h_registry (w_host Sample.world) !! "alisw/alidock:latest") /\
  shared_dir_usable "~/alidock" Sample.world /\
  init_script_writable "~/alidock" Sample.world /\
  exists w' w'',
    run Sample.aliDock Sample.world = (Ret true, w') /\
    stop Sample.aliDock w' = (Ret tt, w'') /\
    w_containers w'' = ∅.
Proof.
  assert (conf Sample.aliDock !! "dockName" = Some (PStr "alidock-1000")) as Hn
    by reflexivity.
  assert (conf Sample.aliDock !! "dirOutside" = Some (PStr "~/alidock")) as Hd
    by reflexivity.
  assert (conf Sample.aliDock !! "imageName" = Some (PStr "alisw/alidock:latest"))
    as Himg by reflexivity.
  assert (h_daemon_fault (w_host Sample.world) = None) as Hf by reflexivity.
  assert (w_containers Sample.world !! "alidock-1000" = None) as Habs by reflexivity.
  assert (is_Some (h_registry (w_host Sample.world) !! "alisw/alidock:latest"))
    as Hreg by (exists "sha256:BBB"; reflexivity).
  assert (shared_dir_usable "~/alidock" Sample.world) as Huse
    by (left; vm_compute; reflexivity).
  assert (init_script_writable "~/alidock" Sample.world) as Hwr
    by (split; vm_compute; reflexivity).
  split; [exact Hn|]. split; [exact Hd|]. split; [exact Himg|]. split; [exact Hf|].
  split; [exact Habs|]. split; [exact Hreg|]. split; [exact Huse|].
  split; [exact Hwr|].
  destruct (run_then_stop Sample.aliDock Sample.world "alidock-1000"
              "~/alidock" "alisw/alidock:latest" Hn Hd Himg Hf Habs
              (or_intror Hreg) Huse Hwr)
    as (w' & w'' & Hrun & Hstop & Hcont & _).
  exists w', w''. split; [exact Hrun|]. split; [exact Hstop|exact Hcont].
Defined.


(** X13 on the sample host. Two failed probes, then one that succeeds. *)
Lemma waitSshUp_returns_at_first_success_witness :
  let w := Sample2.on_host Sample2.host_up_at_third Sample.world_up in
  published Sample.aliDock w "32768" "~/alidock" /\
  "ssh" ∈ h_programs (w_host w) /\
  exists w',
    waitSshUp Sample.aliDock w = (Ret true, w') /\
    probes w' = 3%nat /\ half_second_sleeps w' = 2%nat.
Proof.
  intros w.
  assert (published Sample.aliDock w "32768" "~/alidock") as Hpub.
  { exists "alidock-1000", Sample.container,
           {[ "22/tcp" := Some [ {| HostIp := "0.0.0.0"; HostPort := "32768" |} ] ]},
           {| HostIp := "0.0.0.0"; HostPort := "32768" |}, [].
    repeat split; reflexivity. }
  assert ("ssh" ∈ h_programs (w_host w)) as Hssh by (simpl; set_solver).
  split; [exact Hpub|]. split; [exact Hssh|].
  destruct (waitSshUp_returns_at_first_success Sample.aliDock "32768" "~/alidock"
              2 w Hpub Hssh) as (w' & Hwait & Hp & Hs & _).
  - lia.
  - intros i Hi. simpl. destruct i as [|[|i]]; [discriminate|discriminate|lia].
  - reflexivity.
  - exists w'. split; [exact Hwait|]. split; [exact Hp|exact Hs].
Defined.

(** X14 on the sample host. Without container, [waitSshUp] raises at once. *)
Lemma waitSshUp_leaves_on_other_errors_witness :
  conf Sample.aliDock !! "dockName" = Some (PStr "alidock-1000") /\
  conf Sample.aliDock !! "dirOutside" = Some (PStr "~/alidock") /\
  h_daemon_fault (w_host Sample.world) = None /\
  w_containers Sample.world !! "alidock-1000" = None /\
  exists msg, waitSshUp Sample.aliDock Sample.world
              = (Raise (AliDockError msg), Sample.world).
Proof.
  assert (conf Sample.aliDock !! "dockName" = Some (PStr "alidock-1000")) as Hn
    by reflexivity.
  assert (conf Sample.aliDock !! "dirOutside" = Some (PStr "~/alidock")) as Hd
    by reflexivity.
  assert (h_daemon_fault (w_host Sample.world) = None) as Hf by reflexivity.
  assert (w_containers Sample.world !! "alidock-1000" = None) as Habs by reflexivity.
  split; [exact Hn|]. split; [exact Hd|]. split; [exact Hf|]. split; [exact Habs|].
  destruct (waitSshUp_leaves_on_other_errors Sample.aliDock Sample.world
              "alidock-1000" "~/alidock" Hn Hd Hf) as (Hgone & _).
  eexists. exact (Hgone Habs).
Defined.

(** X15 on the sample host. [alidock start] on the sample host: one container, no probe. *)
Lemma start_creates_container_once_witness :
  let w1 := set_fs (insert Sample.docker_check (File "100000"))
              (checking Sample.world) in
  action Sample2.start_args = "start" /\
  conf Sample.aliDock !! "dockName" = Some (PStr "alidock-1000") /\
  conf Sample.aliDock !! "dirOutside" = Some (PStr "~/alidock") /\
  conf Sample.aliDock !! "imageName" = Some (PStr "alisw/alidock:latest") /\
  h_daemon_fault (w_host Sample.world) = None /\
  w_containers Sample.world !! "alidock-1000" = None /\
  hasImageUpdates Sample.aliDock Sample.world = (Ret false, w1) /\
  is_Some (h_registry (w_host w1) !! "alisw/alidock:latest") /\
  shared_dir_usable "~/alidock" w1 /\
  init_script_writable "~/alidock" w1 /\
  exists w',
    processEnterStart Sample.aliDock Sample2.start_args Sample.world = (Ret tt, w') /\
    containers_started w' = 1%nat /\
    probes w' = 0%nat.
Proof.
  intros w1.
  assert (action Sample2.start_args = "start") as Hact by reflexivity.
  assert (conf Sample.aliDock !! "dockName" = Some (PStr "alidock-1000")) as Hn
    by reflexivity.
  assert (conf Sample.aliDock !! "dirOutside" = Some (PStr "~/alidock")) as Hd
    by reflexivity.
  assert (conf Sample.aliDock !! "imageName" = Some (PStr "alisw/alidock:latest"))
    as Himg by reflexivity.
  assert (h_daemon_fault (w_host Sample.world) = None) as Hf by reflexivity.
  assert (w_containers Sample.world !! "alidock-1000" = None) as Habs by reflexivity.
  assert (hasImageUpdates Sample.aliDock Sample.world = (Ret false, w1)) as Hcheck
    by (vm_compute; reflexivity).
  assert (is_Some (h_registry (w_host w1) !! "alisw/alidock:latest")) as Hreg
    by (exists "sha256:BBB"; reflexivity).
  assert (shared_dir_usable "~/alidock" w1) as Huse
    by (left; vm_compute; reflexivity).
  assert (init_script_writable "~/alidock" w1) as Hwr
    by (split; vm_compute; reflexivity).
  split; [exact Hact|]. split; [exact Hn|]. split; [exact Hd|]. split; [exact Himg|].
  split; [exact Hf|]. split; [exact Habs|]. split; [exact Hcheck|].
  split; [exact Hreg|]. split; [exact Huse|]. split; [exact Hwr|].
  destruct (start_creates_container_once Sample.aliDock Sample2.start_args
              Sample.world w1 (Ret false) "alidock-1000" "~/alidock"
              "alisw/alidock:latest" Hact Hn Hd Himg Hf Habs Hcheck
              (or_introl eq_refl) Hf Habs (or_intror Hreg) Huse Hwr)
    as (w' & Hrun & Hstarted & Hprobes & _).
  exists w'. split; [exact Hrun|]. split; [exact Hstarted|exact Hprobes].
Defined.

(** X16 on the sample host. [alidock start] with a stale local image: the
    image goes from digest AAA to digest BBB by one pull, then one
    container is started. *)
Lemma start_pulls_then_creates_witness :
  action Sample2.start_args = "start" /\
  h_daemon_fault (w_host Sample2.world_stale) = None /\
  w_containers Sample2.world_stale !! "alidock-1000" = None /\
  w_images Sample2.world_stale !! "alisw/alidock:latest"
    = Some ["alisw/alidock@sha256:AAA"] /\
  h_registry (w_host Sample2.world_stale) !! "alisw/alidock:latest"
    = Some "sha256:BBB" /\
  (now_of Sample2.world_stale
     - lastCheck Sample2.world_stale Sample.docker_check > 43200)%Z /\
  exists w',
    processEnterStart Sample.aliDock Sample2.start_args Sample2.world_stale
      = (Ret tt, w') /\
    w_images w' !! "alisw/alidock:latest" = Some ["alisw/alidock:latest@sha256:BBB"] /\
    image_pulls w' = 1%nat /\
    containers_started w' = 1%nat /\
    probes w' = 0%nat.
Proof.
  assert (action Sample2.start_args = "start") as Hact by reflexivity.
  assert (conf Sample.aliDock !! "dockName" = Some (PStr "alidock-1000")) as Hn
    by reflexivity.
  assert (conf Sample.aliDock !! "dirOutside" = Some (PStr "~/alidock")) as Hd
    by reflexivity.
  assert (conf Sample.aliDock !! "imageName" = Some (PStr "alisw/alidock:latest"))
    as Himg by reflexivity.
  assert (conf Sample.aliDock !! "dontUpdateImage" = Some (PBool false)) as Hv
    by reflexivity.
  assert (conf Sample.aliDock !! "updatePeriod" = Some (PInt 43200)) as Hup
    by reflexivity.
  assert (h_daemon_fault (w_host Sample2.world_stale) = None) as Hf by reflexivity.
  assert (w_containers Sample2.world_stale !! "alidock-1000" = None) as Habs
    by reflexivity.
  assert (w_images Sample2.world_stale !! "alisw/alidock:latest"
          = Some ["alisw/alidock@sha256:AAA"]) as Hloc by reflexivity.
  assert (h_registry (w_host Sample2.world_stale) !! "alisw/alidock:latest"
          = Some "sha256:BBB") as Hreg by reflexivity.
  assert (now_of Sample2.world_stale
            - lastCheck Sample2.world_stale Sample.docker_check > 43200)%Z as Hdue
    by (vm_compute; reflexivity).
  assert ("sha256:BBB" <> "sha256:AAA") as Hne by discriminate.
  assert (writable (state_file "~/alidock" ".alidock_docker_check")
            Sample2.world_stale = true) as Hw by (vm_compute; reflexivity).
  assert (shared_dir_usable "~/alidock"
            (set_fs (insert (state_file "~/alidock" ".alidock_docker_check")
                       (File (pretty (now_of Sample2.world_stale))))
               Sample2.world_stale)) as Huse
    by (left; vm_compute; reflexivity).
  assert (init_script_writable "~/alidock"
            (set_fs (insert (state_file "~/alidock" ".alidock_docker_check")
                       (File (pretty (now_of Sample2.world_stale))))
               Sample2.world_stale)) as Hwr
    by (split; vm_compute; reflexivity).
  split; [exact Hact|]. split; [exact Hf|]. split; [exact Habs|].
  split; [exact Hloc|]. split; [exact Hreg|]. split; [exact Hdue|].
  destruct (start_pulls_then_creates Sample.aliDock Sample2.start_args
              Sample2.world_stale "alidock-1000" "~/alidock" "alisw/alidock:latest"
              (PBool false) (PInt 43200) 43200
              "alisw/alidock@sha256:AAA" [] "sha256:AAA" "sha256:BBB"
              Hact Hn Hd Himg Hv Hup eq_refl eq_refl Hf Habs Hdue Hloc eq_refl
              Hreg Hne Hw Huse Hwr)
    as (w' & Hrun & _ & Himages & _ & Hpulls & Hstarted & Hprobes & _).
  exists w'. split; [exact Hrun|]. split; [exact Himages|].
  split; [exact Hpulls|]. split; [exact Hstarted|exact Hprobes].
Defined.

(** X17 on the sample host. [pull] on the sample host returns. *)
Lemma pull_translates_api_errors_witness :
  conf Sample.aliDock !! "imageName" = Some (PStr "alisw/alidock:latest") /\
  h_daemon_fault (w_host Sample.world) = None /\
  exists w', pull Sample.aliDock Sample.world = (Ret tt, w') /\
             w_containers w' = w_containers Sample.world.
Proof.
  assert (conf Sample.aliDock !! "imageName" = Some (PStr "alisw/alidock:latest"))
    as Himg by reflexivity.
  assert (h_daemon_fault (w_host Sample.world) = None) as Hf by reflexivity.
  split; [exact Himg|]. split; [exact Hf|].
  destruct (pull_translates_api_errors Sample.aliDock Sample.world
              "alisw/alidock:latest" Himg) as (_ & Hhealthy).
  destruct (Hhealthy Hf) as (_ & Hthere).
  destruct (Hthere "sha256:BBB" eq_refl) as (w' & Hpull & Hcont & _).
  exists w'. split; [exact Hpull|exact Hcont].
Defined.

(** X18 on the sample host. [alidock root] with the container up. *)
Lemma root_bypasses_ssh_witness :
  action Sample2.root_args = "root" /\
  conf Sample.aliDock !! "dockName" = Some (PStr "alidock-1000") /\
  h_daemon_fault (w_host Sample.world_up) = None /\
  w_containers Sample.world_up !! "alidock-1000" = Some Sample.container /\
  "docker" ∈ h_programs (w_host Sample.world_up) /\
  exists w',
    processEnterStart Sample.aliDock Sample2.root_args Sample.world_up =
      (Exec "docker" ["docker"; "exec"; "-it"; "alidock-1000"; "/bin/bash"], w') /\
    probes w' = 0%nat.
Proof.
  assert (action Sample2.root_args = "root") as Hact by reflexivity.
  assert (conf Sample.aliDock !! "dockName" = Some (PStr "alidock-1000")) as Hn
    by reflexivity.
  assert (h_daemon_fault (w_host Sample.world_up) = None) as Hf by reflexivity.
  assert (w_containers Sample.world_up !! "alidock-1000" = Some Sample.container)
    as Hc by reflexivity.
  assert ("docker" ∈ h_programs (w_host Sample.world_up)) as Hdocker
    by (simpl; set_solver).
  split; [exact Hact|]. split; [exact Hn|]. split; [exact Hf|]. split; [exact Hc|].
  split; [exact Hdocker|].
  destruct (root_bypasses_ssh Sample.aliDock Sample2.root_args Sample.world_up
              "alidock-1000" Sample.container Hact Hn Hf Hc Hdocker)
    as (w' & Hrun & Hprobes & _).
  exists w'. split; [exact Hrun|exact Hprobes].
Defined.

(** X19 on the sample host. [alidock --tmux enter] from inside a tmux session. *)
Lemma enter_inside_tmux_refused_witness :
  let w := Sample2.on_host Sample2.host_in_tmux Sample.world_up in
  action Sample2.tmux_args = "enter" /\
  tmux Sample2.tmux_args || tmuxControl Sample2.tmux_args = true /\
  h_TMUX (w_host w) = Some "/tmp/tmux-1000/default,1,0" /\
  conf Sample.aliDock !! "dockName" = Some (PStr "alidock-1000") /\
  h_daemon_fault (w_host w) = None /\
  w_containers w !! "alidock-1000" = Some Sample.container /\
  processEnterStart Sample.aliDock Sample2.tmux_args w =
    (Raise (AliDockError "already in a tmux session"), w).
Proof.
  intros w.
  assert (conf Sample.aliDock !! "dockName" = Some (PStr "alidock-1000")) as Hn
    by reflexivity.
  assert (w_containers w !! "alidock-1000" = Some Sample.container) as Hc
    by reflexivity.
  split; [reflexivity|]. split; [reflexivity|]. split; [reflexivity|].
  split; [exact Hn|]. split; [reflexivity|]. split; [exact Hc|].
  exact (enter_inside_tmux_refused Sample.aliDock Sample2.tmux_args w
           "alidock-1000" Sample.container "/tmp/tmux-1000/default,1,0"
           eq_refl eq_refl eq_refl Hn eq_refl Hc).
Defined.

(** X20 on the sample host. [processStop] with the container up, then [processStatus]. *)
Lemma stop_then_status_witness :
  conf Sample.aliDock !! "dockName" = Some (PStr "alidock-1000") /\
  h_daemon_fault (w_host Sample.world_up) = None /\
  exists w',
    processStop Sample.aliDock Sample.world_up = (Ret tt, w') /\
    w_containers w' = delete "alidock-1000" (w_containers Sample.world_up) /\
    fst (processStatus Sample.aliDock w') = Raise (SystemExit 1).
Proof.
  assert (conf Sample.aliDock !! "dockName" = Some (PStr "alidock-1000")) as Hn
    by reflexivity.
  assert (h_daemon_fault (w_host Sample.world_up) = None) as Hf by reflexivity.
  split; [exact Hn|]. split; [exact Hf|].
  exact (stop_then_status Sample.aliDock Sample.world_up "alidock-1000" Hn Hf).
Defined.

(** X21 on the sample host. [alidock status] run by root ends with status 10. *)
Lemma main_exit_codes_witness :
  let w := Sample2.on_host Sample2.host_root Sample.world in
  parse_args Sample.status_line w = (Ret Sample.status_args, w) /\
  processActions Sample.status_args (quieted Sample.status_args w) =
    (Raise (AliDockError
       "refusing to execute as root: use an unprivileged user account"),
     quieted Sample.status_args w) /\
  fst (main Sample.status_line w) = Exited 10.
Proof.
  intros w.
  assert (parse_args Sample.status_line w = (Ret Sample.status_args, w)) as Hparse
    by reflexivity.
  assert (processActions Sample.status_args (quieted Sample.status_args w) =
            (Raise (AliDockError
               "refusing to execute as root: use an unprivileged user account"),
             quieted Sample.status_args w)) as Hact by reflexivity.
  split; [exact Hparse|]. split; [exact Hact|].
  destruct (main_exit_codes Sample.status_line Sample.status_args w Hparse)
    as (_ & _ & Hdomain & _).
  rewrite (Hdomain _ _ Hact). reflexivity.
Defined.

(** X22 on the sample host. Root is refused [alidock status]. *)
Lemma root_user_refused_witness :
  let w := Sample2.on_host Sample2.host_root Sample.world in
  parse_args Sample.status_line w = (Ret Sample.status_args, w) /\
  h_uid (w_host w) = 0 /\
  fst (main Sample.status_line w) = Exited 10 /\
  w_fs (snd (main Sample.status_line w)) = w_fs w /\
  http_requests (snd (main Sample.status_line w)) = 0%nat.
Proof.
  intros w.
  assert (parse_args Sample.status_line w = (Ret Sample.status_args, w)) as Hparse
    by reflexivity.
  assert (h_uid (w_host w) = 0) as Huid by reflexivity.
  split; [exact Hparse|]. split; [exact Huid|].
  rewrite (root_user_refused Sample.status_line Sample.status_args w Hparse Huid).
  repeat split.
Defined.

(** X23 on the sample host. [alidock --update-period soon status] ends with status 1. *)
Lemma unparsable_update_period_ends_process_witness :
  let args := {| quiet := false; tmux := false; tmuxControl := false;
                 dockName := None; imageName := None; dirOutside := None;
                 updatePeriod := Some "soon"; dontUpdateImage := false;
                 action := "status"; shellCmd := [] |} in
  parse_args Sample2.bad_period_line Sample.world = (Ret args, Sample.world) /\
  int_of_str "soon" = None /\
  h_uid (w_host Sample.world) <> 0 /\
  h_version (w_host Sample.world) <> "LAST-TAG" /\
  exists a,
    AliDock_init (Some (args_dict args)) (quieted args Sample.world)
      = (Ret a, quieted args Sample.world) /\
    conf a !! "dirOutside" = Some (PStr "~/alidock") /\
    main Sample2.bad_period_line Sample.world = (Exited 1, quieted args Sample.world).
Proof.
  intros args.
  assert (parse_args Sample2.bad_period_line Sample.world = (Ret args, Sample.world))
    as Hparse by reflexivity.
  assert (int_of_str "soon" = None) as Hint by reflexivity.
  assert (h_uid (w_host Sample.world) <> 0) as Huid by discriminate.
  assert (h_version (w_host Sample.world) <> "LAST-TAG") as Htag by discriminate.
  split; [exact Hparse|]. split; [exact Hint|]. split; [exact Huid|].
  split; [exact Htag|].
  assert (w_fs (quieted args Sample.world) !! expanduser "~/.alidock-config.yaml"
          <> Some Undecodable) as Htext by discriminate.
  destruct (init_from_args_updatePeriod args "soon" (quieted args Sample.world)
              Htext eq_refl) as (a & Hinit & _).
  assert (conf a !! "dirOutside" = Some (PStr "~/alidock")) as Hd.
  { assert (AliDock_init (Some (args_dict args)) (quieted args Sample.world)
            = (Ret {| dirInside := "/home/alidock"; logRelative := ".alidock.log";
                      conf := <["dockName" := PStr "alidock-1000"]>
                                (<["updatePeriod" := PStr "soon"]> default_conf) |},
               quieted args Sample.world)) as Hinit'
      by (vm_compute; reflexivity).
    rewrite Hinit in Hinit'. injection Hinit' as ->. reflexivity. }
  exists a. split; [exact Hinit|]. split; [exact Hd|].
  exact (unparsable_update_period_ends_process Sample2.bad_period_line args a
           "soon" "~/alidock" Sample.world Hparse eq_refl Hint Huid Htag Hinit Hd).
Defined.

(** ** Entering the container *)

Section Entering.
Context `{Platform}.

Lemma probed_until_up_facts k argv w :
  w_host (probed_until_up k argv w) = w_host w /\
  w_containers (probed_until_up k argv w) = w_containers w /\
  probes (probed_until_up k argv w) = (probes w + S k)%nat /\
  half_second_sleeps (probed_until_up k argv w) = (half_second_sleeps w + k)%nat.
Proof.
  destruct (failed_probes_facts k argv w) as (Hh & Hc & Hp & Hs & _).
  unfold probed_until_up, probes, half_second_sleeps in *.
  cbn [w_host w_containers w_trace set_trace set_ssh_calls].
  rewrite !count_events_app, Hh, Hc, Hp, Hs. simpl. repeat split; lia.
Qed.

(** X24. With the container up and [ssh] installed, when [k] probes fail
    and the next one succeeds ([k] below 40), [processEnterStart] for
    [exec], and for [enter] outside a tmux session, replaces the process
    with the SSH command followed by the command of the action, after
    [k + 1] probes and [k] sleeps of half a second; [exec] passes the
    words of its command after [-t], as they are. *)
Theorem enter_replaces_process_once_ssh_is_up self args w port d k :
  published self w port d ->
  "ssh" ∈ h_programs (w_host w) ->
  (k < 40)%nat ->
  (forall i, (i < k)%nat -> h_ssh_exit (w_host w) (w_ssh_calls w + i)%nat <> 0) ->
  h_ssh_exit (w_host w) (w_ssh_calls w + k)%nat = 0 ->
  (action args = "exec" ->
   exists w',
     processEnterStart self args w =
       (Exec "ssh" (ssh_argv port d ++ "-t" :: shellCmd args), w') /\
     probes w' = (probes w + S k)%nat /\
     half_second_sleeps w' = (half_second_sleeps w + k)%nat) /\
  (action args = "enter" ->
   (tmux args || tmuxControl args = true -> h_TMUX (w_host w) = None) ->
   exists w',
     processEnterStart self args w =
       (Exec "ssh" (ssh_argv port d ++ enter_cmd args), w') /\
     probes w' = (probes w + S k)%nat /\
     half_second_sleeps w' = (half_second_sleeps w + k)%nat).
Proof.
  intros Hpub Hssh Hlt Hfail Hok.
  assert (Hrun : isRunning self w = (Ret true, w)).
  { destruct Hpub as (name & c & ? & ? & ? & Hn & _ & Hf & Hc & _).
    by eapply isRunning_present. }
  assert (Hwait : forall msg,
    let w0 := set_trace (fun t => t ++ [EvLog "info" msg]) w in
    waitSshUp self w0 = (Ret true, probed_until_up k (probe_argv port d) w0)).
  { intros msg w0. unfold waitSshUp.
    by apply waitSshUp_loop_up. }
  assert (Hshell : forall msg cmd,
    let w0 := set_trace (fun t => t ++ [EvLog "info" msg]) w in
    let w1 := probed_until_up k (probe_argv port d) w0 in
    shell (A:=unit) self (Some cmd) w1 = (Exec "ssh" (ssh_argv port d ++ cmd), w1) /\
    probes w1 = (probes w + S k)%nat /\
    half_second_sleeps w1 = (half_second_sleeps w + k)%nat).
  { intros msg cmd w0 w1.
    destruct (probed_until_up_facts k (probe_argv port d) w0) as (Hh & Hc & Hp & Hs).
    fold w1 in Hh, Hc, Hp, Hs. split; [|split].
    - unfold shell. erewrite bind_Ret; cycle 1.
      + apply getSshCommand_published. by eapply published_same.
      + unfold os_execvp. rewrite Hh. cbn [w_host set_trace w0].
        rewrite bool_decide_eq_true_2 by done.
        by destruct cmd.
    - rewrite Hp. unfold probes, w0. simpl. rewrite count_events_app. simpl. lia.
    - rewrite Hs. unfold half_second_sleeps, w0. simpl.
      rewrite count_events_app. simpl. lia. }
  split.
  - intros Hact. eexists. unfold processEnterStart.
    erewrite bind_Ret; last exact Hrun. simpl.
    erewrite bind_Ret; last reflexivity.
    rewrite Hact. simpl.
    erewrite bind_Ret; last reflexivity.
    erewrite bind_Ret; last apply Hwait.
    apply Hshell.
  - intros Hact Htmux. unfold processEnterStart, enter_cmd.
    destruct (tmux args || tmuxControl args) eqn:Hflags.
    + eexists.
      erewrite bind_Ret; last exact Hrun. simpl.
      erewrite bind_Ret; last reflexivity.
      rewrite Hact. simpl.
      erewrite bind_Ret; last reflexivity.
      rewrite (Htmux eq_refl). simpl.
      erewrite bind_Ret; last reflexivity.
      erewrite bind_Ret; last apply Hwait.
      apply Hshell.
    + eexists.
      erewrite bind_Ret; last exact Hrun. simpl.
      erewrite bind_Ret; last reflexivity.
      rewrite Hact. simpl.
      erewrite bind_Ret; last reflexivity.
      simpl.
      erewrite bind_Ret; last reflexivity.
      erewrite bind_Ret; last apply Hwait.
      apply Hshell.
Qed.

End Entering.

(** X24 on the sample host: [alidock exec ls -l] when the third probe
    succeeds. *)
Lemma enter_replaces_process_once_ssh_is_up_witness :
  let w := Sample2.on_host Sample2.host_up_at_third Sample.world_up in
  published Sample.aliDock w "32768" "~/alidock" /\
  "ssh" ∈ h_programs (w_host w) /\
  exists w',
    processEnterStart Sample.aliDock Sample.exec_args w =
      (Exec "ssh" (ssh_argv "32768" "~/alidock" ++ ["-t"; "ls"; "-l"]), w') /\
    probes w' = 3%nat /\ half_second_sleeps w' = 2%nat.
Proof.
  intros w.
  assert (published Sample.aliDock w "32768" "~/alidock") as Hpub.
  { exists "alidock-1000", Sample.container,
           {[ "22/tcp" := Some [ {| HostIp := "0.0.0.0"; HostPort := "32768" |} ] ]},
           {| HostIp := "0.0.0.0"; HostPort := "32768" |}, [].
    repeat split; reflexivity. }
  assert ("ssh" ∈ h_programs (w_host w)) as Hssh by (simpl; set_solver).
  split; [exact Hpub|]. split; [exact Hssh|].
  destruct (enter_replaces_process_once_ssh_is_up Sample.aliDock Sample.exec_args
              w "32768" "~/alidock" 2 Hpub Hssh) as (Hexec & _).
  - lia.
  - intros i Hi. simpl. destruct i as [|[|i]]; [discriminate|discriminate|lia].
  - reflexivity.
  - destruct (Hexec eq_refl) as (w' & Hrun & Hp & Hs).
    exists w'. split; [exact Hrun|]. split; [exact Hp|exact Hs].
Defined.
